(** * EasySynth: the widget manager of the editor panel

    A shallow embedding of [Source/EasySynth/Private/Widgets/WidgetManager.cpp]:
    the option bookkeeping of the panel ([LoadWidgetOptionStates],
    [SaveWidgetOptionStates]), the gate of the Render Images button and the
    batch rendering loop ([OnRenderImagesClicked], [RenderCurrentSequence],
    [OnRenderingFinished]).

    The widget manager talks to three collaborators whose code is not part of
    that file: the renderer target options object, the sequence renderer and
    the editor itself (asset registry, package names, object loading).  Each
    of them is an interface here (a type class), so every definition below is
    the code of the widget manager and nothing else; concrete instances are
    given at the end of the model and are used to run the definitions. *)

From Stdlib Require Import ZArith List Bool String Ascii Lia.
From Stdlib.Strings Require Import Byte.
Import ListNotations.
Open Scope string_scope.
Open Scope list_scope.
Open Scope Z_scope.

Set Implicit Arguments.

(** ** Engine data *)

Module Engine.

Definition FString := string.

Definition FString_IsEmpty (s : FString) : bool :=
  match s with EmptyString => true | String _ _ => false end.

(** [int32]: a 32 bit two's complement integer, kept as its value in [Z];
    arithmetic wraps around. *)
Definition INT32_MAX : Z := 2147483647.

Definition wrap32 (z : Z) : Z := (z + 2 ^ 31) mod 2 ^ 32 - 2 ^ 31.

Definition int32_add (a b : Z) : Z := wrap32 (a + b).

(** [int8]: one byte. *)
Definition int8 := Byte.byte.

(** [float]: an IEEE-754 binary32 value, kept as its bit pattern.  The
    widget manager only ever copies such values. *)
Record float := FloatOfBits { float_bits : Z }.

(** The literal [1.0f]. *)
Definition float_one : float := FloatOfBits 1065353216.

Record FIntPoint := { X : Z; Y : Z }.

(** [FName]: a case-preserving name whose comparison ignores case. *)
Record FName := MkFName { FName_ToString : FString }.

Definition lower_ascii (c : ascii) : ascii :=
  let n := nat_of_ascii c in
  if (andb (Nat.leb 65 n) (Nat.leb n 90)) then ascii_of_nat (n + 32) else c.

Fixpoint lower (s : string) : string :=
  match s with
  | EmptyString => EmptyString
  | String c s' => String (lower_ascii c) (lower s')
  end.

Definition FName_eqb (a b : FName) : bool :=
  String.eqb (lower (FName_ToString a)) (lower (FName_ToString b)).

Definition NAME_None : FName := MkFName "None".

Definition FName_IsNone (n : FName) : bool := FName_eqb n NAME_None.

Record FTopLevelAssetPath := {
  PackageName : FName;
  GetAssetName : FName
}.

(** [FAssetData], with the members the widget manager reads. *)
Record FAssetData := {
  ObjectPath : FName;
  AssetName : FName;
  AssetClassPath : FTopLevelAssetPath
}.

(** The default-constructed [FAssetData()]. *)
Definition FAssetData_default : FAssetData :=
  {| ObjectPath := NAME_None;
     AssetName := NAME_None;
     AssetClassPath := {| PackageName := NAME_None; GetAssetName := NAME_None |} |}.

Definition FAssetData_IsValid (a : FAssetData) : bool :=
  negb (FName_IsNone (ObjectPath a)).

Record FSoftObjectPath := MkSoftObjectPath { AssetPathName : FName }.

(** The default-constructed [FSoftObjectPath()]. *)
Definition FSoftObjectPath_default : FSoftObjectPath := MkSoftObjectPath NAME_None.

Definition FAssetData_ToSoftObjectPath (a : FAssetData) : FSoftObjectPath :=
  MkSoftObjectPath (ObjectPath a).

(** [EImageFormat] is an enumeration over [int8]; [static_cast] in either
    direction keeps the byte. *)
Record EImageFormat := EImageFormat_of_int8 { int8_of_EImageFormat : int8 }.

Definition PNG : EImageFormat := EImageFormat_of_int8 x00.
Definition JPEG : EImageFormat := EImageFormat_of_int8 x01.
Definition EXR : EImageFormat := EImageFormat_of_int8 x05.

Definition EImageFormat_eqb (a b : EImageFormat) : bool :=
  Byte.eqb (int8_of_EImageFormat a) (int8_of_EImageFormat b).

(** [FText], as the expression that builds it. *)
Inductive FText :=
| LOCTEXT (key : string) (source : string)
| FText_FromString (s : FString)
| FText_AsNumber (n : Z)
| FText_Format (pattern : FText) (arg0 : FText)
| FText_GetEmpty.

Inductive ECheckBoxState := Unchecked | Checked | Undetermined.

Definition ECheckBoxState_eqb (a b : ECheckBoxState) : bool :=
  match a, b with
  | Unchecked, Unchecked | Checked, Checked => true
  | _, _ => false
  end.

Inductive FReply := Handled.

(** [TMap<K, V>] in insertion order; [Add] replaces the value of a key that
    is already present. *)
Section TMap.
Variables (K V : Type) (K_eqb : K -> K -> bool).

Definition TMap := list (K * V).

Fixpoint TMap_Add (k : K) (v : V) (m : TMap) : TMap :=
  match m with
  | [] => [(k, v)]
  | (k', v') :: m' =>
      if K_eqb k' k then (k', v) :: m' else (k', v') :: TMap_Add k v m'
  end.
End TMap.

(** [TArray<T>::Num()]. *)
Definition Num {T : Type} (a : list T) : Z := Z.of_nat (List.length a).

End Engine.
Export Engine.

(** ** Collaborators of the widget manager *)

(** [FRendererTargetOptions::TargetType], with the enumerators the widget
    manager names. *)
Inductive TargetType :=
| COLOR_IMAGE
| DEPTH_IMAGE
| NORMAL_IMAGE
| OPTICAL_FLOW_IMAGE
| SEMANTIC_IMAGE
| CUSTOM_PP_MATERIAL.

Definition TargetType_eqb (a b : TargetType) : bool :=
  match a, b with
  | COLOR_IMAGE, COLOR_IMAGE
  | DEPTH_IMAGE, DEPTH_IMAGE
  | NORMAL_IMAGE, NORMAL_IMAGE
  | OPTICAL_FLOW_IMAGE, OPTICAL_FLOW_IMAGE
  | SEMANTIC_IMAGE, SEMANTIC_IMAGE
  | CUSTOM_PP_MATERIAL, CUSTOM_PP_MATERIAL => true
  | _, _ => false
  end.

(** The member functions of [FRendererTargetOptions] that the widget manager
    calls.  The class is declared in another file of the plugin; [O] is the
    type of its values and a setter returns the updated value. *)
Class RendererTargetOptions (O : Type) := {
  ExportCameraPoses : O -> bool;
  SetExportCameraPoses : bool -> O -> O;
  TargetSelected : TargetType -> O -> bool;
  SetSelectedTarget : TargetType -> bool -> O -> O;
  OutputFormat : TargetType -> O -> EImageFormat;
  SetOutputFormat : TargetType -> EImageFormat -> O -> O;
  CustomPPMaterial : O -> FAssetData;
  SetCustomPPMaterialAssetData : FAssetData -> O -> O;
  DepthRangeMeters : O -> float;
  SetDepthRangeMeters : float -> O -> O;
  OpticalFlowScale : O -> float;
  SetOpticalFlowScale : float -> O -> O;
  AnyOptionSelected : O -> bool
}.

(** What the widget manager relies on: a getter returns what its setter
    stored, and a setter leaves what the other getters return alone.  Nothing
    is asked of [TargetSelected CUSTOM_PP_MATERIAL] after a material has been
    set, nor of [AnyOptionSelected]. *)
Class RendererTargetOptionsLaws (O : Type) `{RendererTargetOptions O} : Prop := {
  poses_set : forall b o, ExportCameraPoses (SetExportCameraPoses b o) = b;
  poses_selected : forall t b o,
    ExportCameraPoses (SetSelectedTarget t b o) = ExportCameraPoses o;
  poses_format : forall t f o,
    ExportCameraPoses (SetOutputFormat t f o) = ExportCameraPoses o;
  poses_material : forall a o,
    ExportCameraPoses (SetCustomPPMaterialAssetData a o) = ExportCameraPoses o;
  poses_depth : forall d o,
    ExportCameraPoses (SetDepthRangeMeters d o) = ExportCameraPoses o;
  poses_flow : forall d o,
    ExportCameraPoses (SetOpticalFlowScale d o) = ExportCameraPoses o;
  selected_set : forall t b o, TargetSelected t (SetSelectedTarget t b o) = b;
  selected_other : forall t t' b o, t <> t' ->
    TargetSelected t (SetSelectedTarget t' b o) = TargetSelected t o;
  selected_format : forall t t' f o,
    TargetSelected t (SetOutputFormat t' f o) = TargetSelected t o;
  selected_material : forall t a o, t <> CUSTOM_PP_MATERIAL ->
    TargetSelected t (SetCustomPPMaterialAssetData a o) = TargetSelected t o;
  selected_depth : forall t d o,
    TargetSelected t (SetDepthRangeMeters d o) = TargetSelected t o;
  selected_flow : forall t d o,
    TargetSelected t (SetOpticalFlowScale d o) = TargetSelected t o;
  format_set : forall t f o, OutputFormat t (SetOutputFormat t f o) = f;
  format_other : forall t t' f o, t <> t' ->
    OutputFormat t (SetOutputFormat t' f o) = OutputFormat t o;
  format_material : forall t a o,
    OutputFormat t (SetCustomPPMaterialAssetData a o) = OutputFormat t o;
  format_depth : forall t d o,
    OutputFormat t (SetDepthRangeMeters d o) = OutputFormat t o;
  format_flow : forall t d o,
    OutputFormat t (SetOpticalFlowScale d o) = OutputFormat t o;
  material_set : forall a o,
    CustomPPMaterial (SetCustomPPMaterialAssetData a o) = a;
  material_format : forall t f o,
    CustomPPMaterial (SetOutputFormat t f o) = CustomPPMaterial o;
  material_depth : forall d o,
    CustomPPMaterial (SetDepthRangeMeters d o) = CustomPPMaterial o;
  material_flow : forall d o,
    CustomPPMaterial (SetOpticalFlowScale d o) = CustomPPMaterial o;
  depth_set : forall d o, DepthRangeMeters (SetDepthRangeMeters d o) = d;
  depth_flow : forall d o,
    DepthRangeMeters (SetOpticalFlowScale d o) = DepthRangeMeters o;
  flow_set : forall d o, OpticalFlowScale (SetOpticalFlowScale d o) = d
}.

Arguments RendererTargetOptionsLaws O {_}.

(** The member functions of [USequenceRenderer] that the widget manager
    calls; [R] is the state of the renderer object.  [RenderSequence] takes
    the sequence, the target options, the output resolution and the output
    directory, and returns whether rendering could be started. *)
Class SequenceRendererAPI (O R : Type) := {
  RenderSequence : FAssetData -> O -> FIntPoint -> FString -> R -> bool * R;
  GetErrorMessage : R -> FString;
  IsRendering : R -> bool
}.

(** What the widget manager asks of the editor.
    - [TryConvertFilenameToLongPackageName]: the package path of a folder,
      when there is one;
    - [GetAssetsByPath path bRecursive]: the asset registry's answer;
    - [TryLoad]: the asset data of the object a soft object path resolves
      to, [None] for a null pointer;
    - [PathAppend]: the [/] operator of [FString]. *)
Class EditorHost := {
  TryConvertFilenameToLongPackageName : FString -> option FString;
  GetAssetsByPath : FName -> bool -> list FAssetData;
  TryLoad : FSoftObjectPath -> option FAssetData;
  PathAppend : FString -> FString -> FString
}.

(** The [FAssetData] built from an object pointer, as done implicitly on
    the result of [TryLoad]; a null pointer gives the default value. *)
Definition FAssetData_FromObject (o : option FAssetData) : FAssetData :=
  match o with
  | Some a => a
  | None => FAssetData_default
  end.

(** [UWidgetStateAsset], with the properties the widget manager reads and
    writes. *)
Module Asset.
Record UWidgetStateAsset := {
  LevelSequenceAssetPath : FSoftObjectPath;
  bCameraPosesSelected : bool;
  bColorImagesSelected : bool;
  bDepthImagesSelected : bool;
  bNormalImagesSelected : bool;
  bOpticalFlowImagesSelected : bool;
  bSemanticImagesSelected : bool;
  bColorImagesOutputFormat : int8;
  bDepthImagesOutputFormat : int8;
  bNormalImagesOutputFormat : int8;
  bOpticalFlowImagesOutputFormat : int8;
  bSemanticImagesOutputFormat : int8;
  CustomPPMaterialAssetPath : FSoftObjectPath;
  bCustomPPMaterialOutputFormat : int8;
  OutputImageResolution : FIntPoint;
  DepthRange : float;
  OpticalFlowScale : float;
  OutputDirectory : FString
}.
End Asset.
Definition UWidgetStateAsset : Type := Asset.UWidgetStateAsset.

(** ** What the widget manager does to the editor *)

Inductive LogArg :=
| LogInt (n : Z)
| LogStr (s : FString).

(** The calls with an effect outside the widget manager, in the order they
    are made.  [Call_RenderSequence] records the arguments of a call of
    [SequenceRenderer->RenderSequence]. *)
Inductive Effect (O : Type) :=
| UE_LOG (format : string) (args : list LogArg)
| FMessageDialog_Open (Message : FText) (Title : FText)
| Call_RenderSequence (Sequence : FAssetData) (Targets : O)
    (Resolution : FIntPoint) (OutputDir : FString)
| ForceGarbageCollection (bFullPurge : bool)
| FPlatformProcess_Sleep (Seconds : float)
| AssetRegistry_AddPluginContentPath
| CreateWidgetStatePackage
| SaveLoadedAsset (asset : UWidgetStateAsset) (bOnlyIfIsDirty : bool).

Arguments UE_LOG {O} format args.
Arguments FMessageDialog_Open {O} Message Title.
Arguments ForceGarbageCollection {O} bFullPurge.
Arguments FPlatformProcess_Sleep {O} Seconds.
Arguments AssetRegistry_AddPluginContentPath {O}.
Arguments CreateWidgetStatePackage {O}.
Arguments SaveLoadedAsset {O} asset bOnlyIfIsDirty.

(** [FString::Printf] for a format whose only conversions are [%s]. *)
Fixpoint FString_Printf (fmt : string) (args : list FString) : FString :=
  match fmt with
  | EmptyString => EmptyString
  | String "%" (String "s" rest) =>
      match args with
      | [] => FString_Printf rest []
      | a :: args' => (a ++ FString_Printf rest args')%string
      end
  | String c rest => String c (FString_Printf rest args)
  end.

Definition LF : string := String (ascii_of_nat 10) EmptyString.

(** ** The widget manager *)

(** The members of [FWidgetManager] that the functions below use.
    [SequenceRenderer] is a pointer: [None] is [nullptr], [Some r] points to
    a renderer in state [r]. *)
Record FWidgetManager (O R : Type) := {
  SelectedSequencesFolder : FString;
  SequenceRendererTargets : O;
  OutputImageResolution : FIntPoint;
  OutputDirectory : FString;
  SequencesToRender : list FAssetData;
  CurrentSequenceIndex : Z;
  BaseOutputDirectory : FString;
  SequenceRenderer : option R
}.

(** The widget manager, the widget state asset object of the editor (when
    there is one to load) and the effects so far. *)
Record Sys (O R : Type) := {
  widget : FWidgetManager O R;
  WidgetStateAssetObject : option UWidgetStateAsset;
  journal : list (Effect O)
}.

Section WidgetManager.
Context {O R : Type}.
Context `{Targets : RendererTargetOptions O}.
Context `{Renderer : SequenceRendererAPI O R}.
Context `{Host : EditorHost}.

(** *** Member updates *)

Definition with_SelectedSequencesFolder (v : FString) (w : FWidgetManager O R) : FWidgetManager O R :=
  {| SelectedSequencesFolder := v;
     SequenceRendererTargets := SequenceRendererTargets w;
     OutputImageResolution := OutputImageResolution w;
     OutputDirectory := OutputDirectory w;
     SequencesToRender := SequencesToRender w;
     CurrentSequenceIndex := CurrentSequenceIndex w;
     BaseOutputDirectory := BaseOutputDirectory w;
     SequenceRenderer := SequenceRenderer w |}.

Definition with_SequenceRendererTargets (v : O) (w : FWidgetManager O R) : FWidgetManager O R :=
  {| SelectedSequencesFolder := SelectedSequencesFolder w;
     SequenceRendererTargets := v;
     OutputImageResolution := OutputImageResolution w;
     OutputDirectory := OutputDirectory w;
     SequencesToRender := SequencesToRender w;
     CurrentSequenceIndex := CurrentSequenceIndex w;
     BaseOutputDirectory := BaseOutputDirectory w;
     SequenceRenderer := SequenceRenderer w |}.

Definition with_OutputImageResolution (v : FIntPoint) (w : FWidgetManager O R) : FWidgetManager O R :=
  {| SelectedSequencesFolder := SelectedSequencesFolder w;
     SequenceRendererTargets := SequenceRendererTargets w;
     OutputImageResolution := v;
     OutputDirectory := OutputDirectory w;
     SequencesToRender := SequencesToRender w;
     CurrentSequenceIndex := CurrentSequenceIndex w;
     BaseOutputDirectory := BaseOutputDirectory w;
     SequenceRenderer := SequenceRenderer w |}.

Definition with_OutputDirectory (v : FString) (w : FWidgetManager O R) : FWidgetManager O R :=
  {| SelectedSequencesFolder := SelectedSequencesFolder w;
     SequenceRendererTargets := SequenceRendererTargets w;
     OutputImageResolution := OutputImageResolution w;
     OutputDirectory := v;
     SequencesToRender := SequencesToRender w;
     CurrentSequenceIndex := CurrentSequenceIndex w;
     BaseOutputDirectory := BaseOutputDirectory w;
     SequenceRenderer := SequenceRenderer w |}.

Definition with_SequencesToRender (v : list FAssetData) (w : FWidgetManager O R) : FWidgetManager O R :=
  {| SelectedSequencesFolder := SelectedSequencesFolder w;
     SequenceRendererTargets := SequenceRendererTargets w;
     OutputImageResolution := OutputImageResolution w;
     OutputDirectory := OutputDirectory w;
     SequencesToRender := v;
     CurrentSequenceIndex := CurrentSequenceIndex w;
     BaseOutputDirectory := BaseOutputDirectory w;
     SequenceRenderer := SequenceRenderer w |}.

Definition with_CurrentSequenceIndex (v : Z) (w : FWidgetManager O R) : FWidgetManager O R :=
  {| SelectedSequencesFolder := SelectedSequencesFolder w;
     SequenceRendererTargets := SequenceRendererTargets w;
     OutputImageResolution := OutputImageResolution w;
     OutputDirectory := OutputDirectory w;
     SequencesToRender := SequencesToRender w;
     CurrentSequenceIndex := v;
     BaseOutputDirectory := BaseOutputDirectory w;
     SequenceRenderer := SequenceRenderer w |}.

Definition with_BaseOutputDirectory (v : FString) (w : FWidgetManager O R) : FWidgetManager O R :=
  {| SelectedSequencesFolder := SelectedSequencesFolder w;
     SequenceRendererTargets := SequenceRendererTargets w;
     OutputImageResolution := OutputImageResolution w;
     OutputDirectory := OutputDirectory w;
     SequencesToRender := SequencesToRender w;
     CurrentSequenceIndex := CurrentSequenceIndex w;
     BaseOutputDirectory := v;
     SequenceRenderer := SequenceRenderer w |}.

Definition with_SequenceRenderer (v : option R) (w : FWidgetManager O R) : FWidgetManager O R :=
  {| SelectedSequencesFolder := SelectedSequencesFolder w;
     SequenceRendererTargets := SequenceRendererTargets w;
     OutputImageResolution := OutputImageResolution w;
     OutputDirectory := OutputDirectory w;
     SequencesToRender := SequencesToRender w;
     CurrentSequenceIndex := CurrentSequenceIndex w;
     BaseOutputDirectory := BaseOutputDirectory w;
     SequenceRenderer := v |}.

(** *** The monad of the member functions

    A member function takes the state to a result and a new state, or to
    [None] when it dereferences a null pointer or indexes an array out of
    bounds. *)

Definition M (A : Type) : Type := Sys O R -> option (A * Sys O R).

Definition ret {A : Type} (a : A) : M A := fun s => Some (a, s).

Definition bind {A B : Type} (m : M A) (k : A -> M B) : M B :=
  fun s => match m s with
           | Some (a, s') => k a s'
           | None => None
           end.

Definition crash {A : Type} : M A := fun _ => None.

Definition this : M (FWidgetManager O R) := fun s => Some (widget s, s).

Definition assign (f : FWidgetManager O R -> FWidgetManager O R) : M unit :=
  fun s => Some (tt, {| widget := f (widget s);
                        WidgetStateAssetObject := WidgetStateAssetObject s;
                        journal := journal s |}).

Definition emit (e : Effect O) : M unit :=
  fun s => Some (tt, {| widget := widget s;
                        WidgetStateAssetObject := WidgetStateAssetObject s;
                        journal := journal s ++ [e] |}).

(** [LoadObject<UWidgetStateAsset>(nullptr, WidgetStateAssetPath())]. *)
Definition LoadObject_WidgetStateAsset : M (option UWidgetStateAsset) :=
  fun s => Some (WidgetStateAssetObject s, s).

Definition store_WidgetStateAsset (a : UWidgetStateAsset) : M unit :=
  fun s => Some (tt, {| widget := widget s;
                        WidgetStateAssetObject := Some a;
                        journal := journal s |}).

(** [*SequenceRenderer]. *)
Definition deref_SequenceRenderer : M R :=
  fun s => match SequenceRenderer (widget s) with
           | Some r => Some (r, s)
           | None => None
           end.

Notation "x <- m ;; k" := (bind m (fun x => k))
  (at level 61, m at next level, right associativity).
Notation "m ;; k" := (bind m (fun _ => k))
  (at level 61, right associativity).

(** *** The target check boxes and the Render Images button *)

Definition RenderTargetsCheckedState (TargetType : TargetType)
    (w : FWidgetManager O R) : ECheckBoxState :=
  let bChecked := TargetSelected TargetType (SequenceRendererTargets w) in
  if bChecked then Checked else Unchecked.

Definition OnRenderTargetsChanged (NewState : ECheckBoxState)
    (TargetType : TargetType) : M unit :=
  assign (fun w =>
    with_SequenceRendererTargets
      (SetSelectedTarget TargetType (ECheckBoxState_eqb NewState Checked)
         (SequenceRendererTargets w)) w).

Definition OnSequencesFolderChanged (Directory : FString) : M unit :=
  assign (with_SelectedSequencesFolder Directory).


Definition GetIsRenderImagesEnabled (w : FWidgetManager O R) : bool :=
  negb (FString_IsEmpty (SelectedSequencesFolder w)) &&
  AnyOptionSelected (SequenceRendererTargets w) &&
  match SequenceRenderer w with
  | None => false
  | Some r => negb (IsRendering r)
  end.

(** *** Option states *)

Definition LoadWidgetOptionStates : M unit :=
  WidgetStateAsset <- LoadObject_WidgetStateAsset ;;
  match WidgetStateAsset with
  | None => ret tt
  | Some A =>
      let targets (f : O -> O) : M unit :=
        assign (fun w => with_SequenceRendererTargets (f (SequenceRendererTargets w)) w) in
      assign (with_SelectedSequencesFolder EmptyString) ;;
      targets (SetExportCameraPoses (Asset.bCameraPosesSelected A)) ;;
      targets (SetSelectedTarget COLOR_IMAGE (Asset.bColorImagesSelected A)) ;;
      targets (SetSelectedTarget DEPTH_IMAGE (Asset.bDepthImagesSelected A)) ;;
      targets (SetSelectedTarget NORMAL_IMAGE (Asset.bNormalImagesSelected A)) ;;
      targets (SetSelectedTarget OPTICAL_FLOW_IMAGE (Asset.bOpticalFlowImagesSelected A)) ;;
      targets (SetSelectedTarget SEMANTIC_IMAGE (Asset.bSemanticImagesSelected A)) ;;
      targets (SetOutputFormat COLOR_IMAGE
                 (EImageFormat_of_int8 (Asset.bColorImagesOutputFormat A))) ;;
      targets (SetOutputFormat DEPTH_IMAGE
                 (EImageFormat_of_int8 (Asset.bDepthImagesOutputFormat A))) ;;
      targets (SetOutputFormat NORMAL_IMAGE
                 (EImageFormat_of_int8 (Asset.bNormalImagesOutputFormat A))) ;;
      targets (SetOutputFormat OPTICAL_FLOW_IMAGE
                 (EImageFormat_of_int8 (Asset.bOpticalFlowImagesOutputFormat A))) ;;
      targets (SetOutputFormat SEMANTIC_IMAGE
                 (EImageFormat_of_int8 (Asset.bSemanticImagesOutputFormat A))) ;;
      targets (SetCustomPPMaterialAssetData
                 (FAssetData_FromObject (TryLoad (Asset.CustomPPMaterialAssetPath A)))) ;;
      targets (SetOutputFormat CUSTOM_PP_MATERIAL
                 (EImageFormat_of_int8 (Asset.bCustomPPMaterialOutputFormat A))) ;;
      assign (with_OutputImageResolution (Asset.OutputImageResolution A)) ;;
      targets (SetDepthRangeMeters (Asset.DepthRange A)) ;;
      targets (SetOpticalFlowScale (Asset.OpticalFlowScale A)) ;;
      assign (with_OutputDirectory (Asset.OutputDirectory A))
  end.

(** Every property of the asset object is assigned, so the object that is
    saved is given by the values assigned, whether it was loaded or newly
    created. *)
Definition SaveWidgetOptionStates : M unit :=
  Loaded <- LoadObject_WidgetStateAsset ;;
  match Loaded with
  | Some _ => ret tt
  | None =>
      emit (UE_LOG "%s: Texture mapping asset not found, creating a new one"
              [LogStr "FWidgetManager::SaveWidgetOptionStates"]) ;;
      emit AssetRegistry_AddPluginContentPath ;;
      emit CreateWidgetStatePackage
  end ;;
  w <- this ;;
  let T := SequenceRendererTargets w in
  let WidgetStateAsset : UWidgetStateAsset :=
    {| Asset.LevelSequenceAssetPath := FSoftObjectPath_default;
       Asset.bCameraPosesSelected := ExportCameraPoses T;
       Asset.bColorImagesSelected := TargetSelected COLOR_IMAGE T;
       Asset.bDepthImagesSelected := TargetSelected DEPTH_IMAGE T;
       Asset.bNormalImagesSelected := TargetSelected NORMAL_IMAGE T;
       Asset.bOpticalFlowImagesSelected := TargetSelected OPTICAL_FLOW_IMAGE T;
       Asset.bSemanticImagesSelected := TargetSelected SEMANTIC_IMAGE T;
       Asset.bColorImagesOutputFormat :=
         int8_of_EImageFormat (OutputFormat COLOR_IMAGE T);
       Asset.bDepthImagesOutputFormat :=
         int8_of_EImageFormat (OutputFormat DEPTH_IMAGE T);
       Asset.bNormalImagesOutputFormat :=
         int8_of_EImageFormat (OutputFormat NORMAL_IMAGE T);
       Asset.bOpticalFlowImagesOutputFormat :=
         int8_of_EImageFormat (OutputFormat OPTICAL_FLOW_IMAGE T);
       Asset.bSemanticImagesOutputFormat :=
         int8_of_EImageFormat (OutputFormat SEMANTIC_IMAGE T);
       Asset.CustomPPMaterialAssetPath :=
         FAssetData_ToSoftObjectPath (CustomPPMaterial T);
       Asset.bCustomPPMaterialOutputFormat :=
         int8_of_EImageFormat (OutputFormat CUSTOM_PP_MATERIAL T);
       Asset.OutputImageResolution := OutputImageResolution w;
       Asset.DepthRange := DepthRangeMeters T;
       Asset.OpticalFlowScale := OpticalFlowScale T;
       Asset.OutputDirectory := OutputDirectory w |} in
  store_WidgetStateAsset WidgetStateAsset ;;
  emit (SaveLoadedAsset WidgetStateAsset false).

(** *** Batch rendering *)

(** [SequencesToRender[Index]]. *)
Definition SequencesToRender_at (Index : Z) : M FAssetData :=
  w <- this ;;
  if (Index <? 0) || (Index >=? Num (SequencesToRender w)) then crash
  else match nth_error (SequencesToRender w) (Z.to_nat Index) with
       | Some a => ret a
       | None => crash
       end.

Definition RenderCurrentSequence : M unit :=
  w <- this ;;
  if (CurrentSequenceIndex w <? 0) ||
     (CurrentSequenceIndex w >=? Num (SequencesToRender w))
  then ret tt
  else
    CurrentSequence <- SequencesToRender_at (CurrentSequenceIndex w) ;;
    let SequenceName := FName_ToString (AssetName CurrentSequence) in
    let SequenceOutputDir := PathAppend (BaseOutputDirectory w) SequenceName in
    emit (UE_LOG "Rendering sequence %d/%d: %s"
            [LogInt (int32_add (CurrentSequenceIndex w) 1);
             LogInt (Num (SequencesToRender w));
             LogStr SequenceName]) ;;
    r <- deref_SequenceRenderer ;;
    emit (Call_RenderSequence CurrentSequence (SequenceRendererTargets w)
            (OutputImageResolution w) SequenceOutputDir) ;;
    let (bStarted, r') :=
      RenderSequence CurrentSequence (SequenceRendererTargets w)
        (OutputImageResolution w) SequenceOutputDir r in
    assign (with_SequenceRenderer (Some r')) ;;
    if negb bStarted then
      let MessageBoxTitle :=
        LOCTEXT "StartRenderingErrorMessageBoxTitle" "Could not start rendering" in
      r'' <- deref_SequenceRenderer ;;
      emit (FMessageDialog_Open (FText_FromString (GetErrorMessage r''))
              MessageBoxTitle) ;;
      assign (with_SequencesToRender []) ;;
      assign (with_CurrentSequenceIndex (-1))
    else ret tt.

Definition IsLevelSequence (AssetData : FAssetData) : bool :=
  FName_eqb (GetAssetName (AssetClassPath AssetData)) (MkFName "LevelSequence").

Definition OnRenderImagesClicked : M FReply :=
  assign (with_SequencesToRender []) ;;
  assign (with_CurrentSequenceIndex (-1)) ;;
  w <- this ;;
  match TryConvertFilenameToLongPackageName (SelectedSequencesFolder w) with
  | None =>
      let MessageBoxTitle := LOCTEXT "InvalidFolderTitle" "Invalid Folder" in
      emit (FMessageDialog_Open
              (LOCTEXT "InvalidFolderMessage"
                 "Selected folder is not a valid content folder.")
              MessageBoxTitle) ;;
      ret Handled
  | Some PackagePath =>
      let AssetDataList := GetAssetsByPath (MkFName PackagePath) false in
      assign (fun w =>
        with_SequencesToRender
          (fold_left (fun Queue AssetData =>
                        if IsLevelSequence AssetData
                        then Queue ++ [AssetData]
                        else Queue)
                     AssetDataList (SequencesToRender w)) w) ;;
      w <- this ;;
      if Num (SequencesToRender w) =? 0 then
        let MessageBoxTitle := LOCTEXT "NoSequencesFoundTitle" "No Sequences Found" in
        emit (FMessageDialog_Open
                (LOCTEXT "NoSequencesFoundMessage"
                   "No level sequence assets found in the selected folder.")
                MessageBoxTitle) ;;
        ret Handled
      else
        assign (fun w => with_BaseOutputDirectory (OutputDirectory w) w) ;;
        assign (with_CurrentSequenceIndex 0) ;;
        RenderCurrentSequence ;;
        SaveWidgetOptionStates ;;
        ret Handled
  end.

Definition OnRenderingFinished (bSuccess : bool) : M unit :=
  w <- this ;;
  if bSuccess then
    if (CurrentSequenceIndex w >=? 0) &&
       (CurrentSequenceIndex w <? Num (SequencesToRender w))
    then
      assign (fun w =>
        with_CurrentSequenceIndex (int32_add (CurrentSequenceIndex w) 1) w) ;;
      w <- this ;;
      if CurrentSequenceIndex w <? Num (SequencesToRender w) then
        emit (UE_LOG "Cleaning up memory before sequence %d/%d"
                [LogInt (int32_add (CurrentSequenceIndex w) 1);
                 LogInt (Num (SequencesToRender w))]) ;;
        emit (ForceGarbageCollection true) ;;
        emit (FPlatformProcess_Sleep float_one) ;;
        RenderCurrentSequence
      else
        let MessageBoxTitle :=
          LOCTEXT "BatchRenderingCompleteTitle" "Batch Rendering Complete" in
        emit (FMessageDialog_Open
                (FText_Format
                   (LOCTEXT "BatchRenderingCompleteMessage"
                      "Successfully rendered {0} sequences.")
                   (FText_AsNumber (Num (SequencesToRender w))))
                MessageBoxTitle) ;;
        assign (with_SequencesToRender []) ;;
        assign (with_CurrentSequenceIndex (-1))
    else
      let MessageBoxTitle :=
        LOCTEXT "SuccessfulRenderingMessageBoxTitle" "Successful rendering" in
      emit (FMessageDialog_Open
              (LOCTEXT "SuccessfulRenderingMessageBoxText"
                 "Rendering finished successfully")
              MessageBoxTitle)
  else
    let MessageBoxTitle :=
      LOCTEXT "RenderingErrorMessageBoxTitle" "Rendering failed" in
    SequenceName <-
      (if (CurrentSequenceIndex w >=? 0) &&
          (CurrentSequenceIndex w <? Num (SequencesToRender w))
       then a <- SequencesToRender_at (CurrentSequenceIndex w) ;;
            ret (FName_ToString (AssetName a))
       else ret "Unknown") ;;
    r <- deref_SequenceRenderer ;;
    emit (FMessageDialog_Open
            (FText_FromString
               (FString_Printf
                  ("Failed on sequence: %s" ++ LF ++ LF ++ "Error: %s")%string
                  [SequenceName; GetErrorMessage r]))
            MessageBoxTitle) ;;
    assign (with_SequencesToRender []) ;;
    assign (with_CurrentSequenceIndex (-1)).

(** *** The panel

    The part of the tab built by [OnSpawnPluginTab] that is bound to a render
    target: one row (check box and output format combo box) per entry of
    [TargetCheckBoxNames], and the custom post process material row (object
    entry box and output format combo box). *)

Definition TargetCheckBoxNames : TMap TargetType FText :=
  let m := [] in
  let m := TMap_Add TargetType_eqb COLOR_IMAGE
             (LOCTEXT "ColorImagesCheckBoxText" "Color images") m in
  let m := TMap_Add TargetType_eqb DEPTH_IMAGE
             (LOCTEXT "DepthImagesCheckBoxText" "Depth images") m in
  let m := TMap_Add TargetType_eqb NORMAL_IMAGE
             (LOCTEXT "NormalImagesCheckBoxText" "Normal images") m in
  let m := TMap_Add TargetType_eqb OPTICAL_FLOW_IMAGE
             (LOCTEXT "OpticalFlowImagesCheckBoxText" "Optical flow images") m in
  let m := TMap_Add TargetType_eqb SEMANTIC_IMAGE
             (LOCTEXT "SemanticImagesCheckBoxText" "Semantic images") m in
  m.

Inductive TargetWidget :=
| SCheckBox (Text : FText) (Target : TargetType)
| SComboBox_OutputFormat (Target : TargetType)
| SObjectPropertyEntryBox_Material.

Definition TargetsScrollBoxes : list (list TargetWidget) :=
  map (fun Element : TargetType * FText =>
         let TargetType := fst Element in
         let CheckBoxText := snd Element in
         [SCheckBox CheckBoxText TargetType; SComboBox_OutputFormat TargetType])
      TargetCheckBoxNames.

Definition CustomPPMaterialRow : list TargetWidget :=
  [SObjectPropertyEntryBox_Material; SComboBox_OutputFormat CUSTOM_PP_MATERIAL].

Definition PanelTargetWidgets : list TargetWidget :=
  List.concat TargetsScrollBoxes ++ CustomPPMaterialRow.

(** The targets that have a check box, that is, that [OnRenderTargetsChanged]
    can select and deselect. *)
Definition CheckBoxTargets (ws : list TargetWidget) : list TargetType :=
  flat_map (fun x => match x with SCheckBox _ t => [t] | _ => [] end) ws.

(** The render targets the panel offers for rendering: those with a check
    box, and the one of the material picker, which is bound to
    [GetCustomPPMaterialPath] and [OnCustomPPMaterialSelected] under the title
    "Optional custom PP material render target". *)
Definition OfferedTargets (ws : list TargetWidget) : list TargetType :=
  flat_map (fun x => match x with
                     | SCheckBox _ t => [t]
                     | SObjectPropertyEntryBox_Material => [CUSTOM_PP_MATERIAL]
                     | SComboBox_OutputFormat _ => []
                     end) ws.

(** The render targets whose output format the panel lets the user pick. *)
Definition OutputFormatTargets (ws : list TargetWidget) : list TargetType :=
  flat_map (fun x => match x with SComboBox_OutputFormat t => [t] | _ => [] end) ws.

(** The Render Images button: [OnClicked] runs only while [IsEnabled]
    holds. *)
Definition ClickRenderImages : M unit :=
  w <- this ;;
  if GetIsRenderImagesEnabled w
  then OnRenderImagesClicked ;; ret tt
  else ret tt.

(** *** What happens to the panel

    The user clicks Render Images, or the renderer, by then in state [r],
    broadcasts [OnRenderingFinished]. *)
Inductive Event :=
| RenderImagesButtonClicked
| RenderingFinishedBroadcast (r : R) (bSuccess : bool).

Definition handle (e : Event) : M unit :=
  match e with
  | RenderImagesButtonClicked => ClickRenderImages
  | RenderingFinishedBroadcast r bSuccess =>
      assign (fun w =>
        with_SequenceRenderer
          (match SequenceRenderer w with Some _ => Some r | None => None end) w) ;;
      OnRenderingFinished bSuccess
  end.

Fixpoint run (es : list Event) : M unit :=
  match es with
  | [] => ret tt
  | e :: es' => handle e ;; run es'
  end.

Definition is_broadcast (e : Event) : bool :=
  match e with
  | RenderImagesButtonClicked => false
  | RenderingFinishedBroadcast _ _ => true
  end.

Definition reports_success (e : Event) : bool :=
  match e with
  | RenderingFinishedBroadcast _ true => true
  | _ => false
  end.

(** The sequences handed to [RenderSequence], in the order of the calls. *)
Definition RenderedSequences (j : list (Effect O)) : list FAssetData :=
  flat_map (fun e => match e with
                     | Call_RenderSequence a _ _ _ => [a]
                     | _ => []
                     end) j.

Definition is_RenderSequence (e : Effect O) : bool :=
  match e with Call_RenderSequence _ _ _ _ => true | _ => false end.

Definition is_ForceGarbageCollection (e : Effect O) : bool :=
  match e with ForceGarbageCollection _ => true | _ => false end.

End WidgetManager.

Arguments M O R A : clear implicits.
Arguments Event R : clear implicits.

Notation "x <- m ;; k" := (bind m (fun x => k))
  (at level 61, m at next level, right associativity).
Notation "m ;; k" := (bind m (fun _ => k))
  (at level 61, right associativity).

(** ** Instances of the collaborators

    A plain implementation of each interface, to run the widget manager on
    concrete inputs. *)

Module Instances.

Record PlainTargets := {
  bExportCameraPoses : bool;
  SelectedTargets : TargetType -> bool;
  OutputFormats : TargetType -> EImageFormat;
  CustomPPMaterialAssetData : FAssetData;
  DepthRangeMetersValue : float;
  OpticalFlowScaleValue : float
}.

Definition update {V : Type} (f : TargetType -> V) (t : TargetType) (v : V)
    : TargetType -> V :=
  fun t' => if TargetType_eqb t' t then v else f t'.

#[export] Instance PlainTargets_options : RendererTargetOptions PlainTargets := {
  ExportCameraPoses o := bExportCameraPoses o;
  SetExportCameraPoses b o :=
    {| bExportCameraPoses := b;
       SelectedTargets := SelectedTargets o;
       OutputFormats := OutputFormats o;
       CustomPPMaterialAssetData := CustomPPMaterialAssetData o;
       DepthRangeMetersValue := DepthRangeMetersValue o;
       OpticalFlowScaleValue := OpticalFlowScaleValue o |};
  TargetSelected t o := SelectedTargets o t;
  SetSelectedTarget t b o :=
    {| bExportCameraPoses := bExportCameraPoses o;
       SelectedTargets := update (SelectedTargets o) t b;
       OutputFormats := OutputFormats o;
       CustomPPMaterialAssetData := CustomPPMaterialAssetData o;
       DepthRangeMetersValue := DepthRangeMetersValue o;
       OpticalFlowScaleValue := OpticalFlowScaleValue o |};
  OutputFormat t o := OutputFormats o t;
  SetOutputFormat t f o :=
    {| bExportCameraPoses := bExportCameraPoses o;
       SelectedTargets := SelectedTargets o;
       OutputFormats := update (OutputFormats o) t f;
       CustomPPMaterialAssetData := CustomPPMaterialAssetData o;
       DepthRangeMetersValue := DepthRangeMetersValue o;
       OpticalFlowScaleValue := OpticalFlowScaleValue o |};
  CustomPPMaterial o := CustomPPMaterialAssetData o;
  SetCustomPPMaterialAssetData a o :=
    {| bExportCameraPoses := bExportCameraPoses o;
       SelectedTargets :=
         update (SelectedTargets o) CUSTOM_PP_MATERIAL (FAssetData_IsValid a);
       OutputFormats := OutputFormats o;
       CustomPPMaterialAssetData := a;
       DepthRangeMetersValue := DepthRangeMetersValue o;
       OpticalFlowScaleValue := OpticalFlowScaleValue o |};
  DepthRangeMeters o := DepthRangeMetersValue o;
  SetDepthRangeMeters d o :=
    {| bExportCameraPoses := bExportCameraPoses o;
       SelectedTargets := SelectedTargets o;
       OutputFormats := OutputFormats o;
       CustomPPMaterialAssetData := CustomPPMaterialAssetData o;
       DepthRangeMetersValue := d;
       OpticalFlowScaleValue := OpticalFlowScaleValue o |};
  OpticalFlowScale o := OpticalFlowScaleValue o;
  SetOpticalFlowScale d o :=
    {| bExportCameraPoses := bExportCameraPoses o;
       SelectedTargets := SelectedTargets o;
       OutputFormats := OutputFormats o;
       CustomPPMaterialAssetData := CustomPPMaterialAssetData o;
       DepthRangeMetersValue := DepthRangeMetersValue o;
       OpticalFlowScaleValue := d |};
  AnyOptionSelected o :=
    bExportCameraPoses o ||
    existsb (SelectedTargets o)
      [COLOR_IMAGE; DEPTH_IMAGE; NORMAL_IMAGE; OPTICAL_FLOW_IMAGE;
       SEMANTIC_IMAGE; CUSTOM_PP_MATERIAL]
}.

(** A renderer that refuses to start on an output width below 100 pixels. *)
Record PlainRenderer := {
  bRendering : bool;
  ErrorMessage : FString
}.

#[export] Instance PlainRenderer_api : SequenceRendererAPI PlainTargets PlainRenderer := {
  RenderSequence a o res dir r :=
    if X res <? 100
    then (false, {| bRendering := false; ErrorMessage := "Output width is too small" |})
    else (true, {| bRendering := true; ErrorMessage := ErrorMessage r |});
  GetErrorMessage r := ErrorMessage r;
  IsRendering r := bRendering r
}.

Definition asset (path name class : string) : FAssetData :=
  {| ObjectPath := MkFName path;
     AssetName := MkFName name;
     AssetClassPath := {| PackageName := MkFName "/Script/Engine";
                          GetAssetName := MkFName class |} |}.

Definition Intro : FAssetData :=
  asset "/Game/Shots/Intro.Intro" "Intro" "LevelSequence".
Definition Wall : FAssetData :=
  asset "/Game/Shots/Wall.Wall" "Wall" "Material".
Definition Chase : FAssetData :=
  asset "/Game/Shots/Chase.Chase" "Chase" "LevelSequence".
Definition Outro : FAssetData :=
  asset "/Game/Shots/Outro.Outro" "Outro" "LevelSequence".
Definition Glow : FAssetData :=
  asset "/Game/Materials/Glow.Glow" "Glow" "Material".

(** An editor whose project has one folder of shots and one material. *)
#[export] Instance PlainHost : EditorHost := {
  TryConvertFilenameToLongPackageName f :=
    if String.eqb f "C:/Project/Content/Shots" then Some "/Game/Shots" else None;
  GetAssetsByPath p bRecursive :=
    if FName_eqb p (MkFName "/Game/Shots") then [Intro; Wall; Chase; Outro] else [];
  TryLoad p :=
    if FName_eqb (AssetPathName p) (ObjectPath Glow) then Some Glow else None;
  PathAppend a b := (a ++ "/" ++ b)%string
}.

Definition targets0 : PlainTargets :=
  {| bExportCameraPoses := true;
     SelectedTargets := fun t =>
       match t with COLOR_IMAGE | DEPTH_IMAGE => true | _ => false end;
     OutputFormats := fun t =>
       match t with DEPTH_IMAGE => EXR | COLOR_IMAGE => JPEG | _ => PNG end;
     CustomPPMaterialAssetData := Glow;
     DepthRangeMetersValue := FloatOfBits 1120403456;
     OpticalFlowScaleValue := float_one |}.

Definition renderer0 : PlainRenderer :=
  {| bRendering := false; ErrorMessage := EmptyString |}.

Definition widget0 : FWidgetManager PlainTargets PlainRenderer :=
  {| SelectedSequencesFolder := "C:/Project/Content/Shots";
     SequenceRendererTargets := targets0;
     OutputImageResolution := {| X := 1920; Y := 1080 |};
     OutputDirectory := "D:/Out";
     SequencesToRender := [];
     CurrentSequenceIndex := -1;
     BaseOutputDirectory := EmptyString;
     SequenceRenderer := Some renderer0 |}.

Definition sys0 : Sys PlainTargets PlainRenderer :=
  {| widget := widget0; WidgetStateAssetObject := None; journal := [] |}.

(** The panel in the middle of a batch over the three shots, at [Index],
    with an output width of [Width] pixels. *)
Definition sys_in_batch (Index Width : Z) : Sys PlainTargets PlainRenderer :=
  {| widget :=
       {| SelectedSequencesFolder := "C:/Project/Content/Shots";
          SequenceRendererTargets := targets0;
          OutputImageResolution := {| X := Width; Y := 1080 |};
          OutputDirectory := "D:/Out";
          SequencesToRender := [Intro; Chase; Outro];
          CurrentSequenceIndex := Index;
          BaseOutputDirectory := "D:/Out";
          SequenceRenderer := Some {| bRendering := true; ErrorMessage := EmptyString |} |};
     WidgetStateAssetObject := None;
     journal := [] |}.



(** A saved widget state. *)
Definition asset0 : UWidgetStateAsset :=
  {| Asset.LevelSequenceAssetPath := FSoftObjectPath_default;
     Asset.bCameraPosesSelected := false;
     Asset.bColorImagesSelected := true;
     Asset.bDepthImagesSelected := false;
     Asset.bNormalImagesSelected := true;
     Asset.bOpticalFlowImagesSelected := false;
     Asset.bSemanticImagesSelected := true;
     Asset.bColorImagesOutputFormat := x01;
     Asset.bDepthImagesOutputFormat := x05;
     Asset.bNormalImagesOutputFormat := x00;
     Asset.bOpticalFlowImagesOutputFormat := x05;
     Asset.bSemanticImagesOutputFormat := x00;
     Asset.CustomPPMaterialAssetPath := FAssetData_ToSoftObjectPath Glow;
     Asset.bCustomPPMaterialOutputFormat := x00;
     Asset.OutputImageResolution := {| X := 1280; Y := 720 |};
     Asset.DepthRange := FloatOfBits 1112014848;
     Asset.OpticalFlowScale := FloatOfBits 1073741824;
     Asset.OutputDirectory := "D:/Renders" |}.

Definition sys_saved : Sys PlainTargets PlainRenderer :=
  {| widget := widget0; WidgetStateAssetObject := Some asset0; journal := [] |}.

(** The renderer, idle, broadcasts that rendering has finished. *)
Definition finished (bSuccess : bool) : Event PlainRenderer :=
  RenderingFinishedBroadcast renderer0 bSuccess.

End Instances.

(** ** Vocabulary of the properties *)

Section Vocabulary.
Context {O R : Type}.
Context `{Targets : RendererTargetOptions O}.
Context `{Renderer : SequenceRendererAPI O R}.
Context `{Host : EditorHost}.

(** *** Option states *)

(** The option values of the panel other than the custom post process
    material: the camera poses flag, the selected flag of the five targets
    that have one in the asset, the output format of the six targets, the
    output image resolution, the depth range, the optical flow scale and the
    output directory. *)
Record OptionValues := {
  CameraPosesValue : bool;
  SelectedValues : list bool;
  OutputFormatValues : list EImageFormat;
  ResolutionValue : FIntPoint;
  DepthRangeValue : float;
  OpticalFlowScaleValue : float;
  OutputDirectoryValue : FString
}.

Definition OptionValuesOf (w : FWidgetManager O R) : OptionValues :=
  let T := SequenceRendererTargets w in
  {| CameraPosesValue := ExportCameraPoses T;
     SelectedValues :=
       map (fun t => TargetSelected t T)
         [COLOR_IMAGE; DEPTH_IMAGE; NORMAL_IMAGE; OPTICAL_FLOW_IMAGE; SEMANTIC_IMAGE];
     OutputFormatValues :=
       map (fun t => OutputFormat t T)
         [COLOR_IMAGE; DEPTH_IMAGE; NORMAL_IMAGE; OPTICAL_FLOW_IMAGE; SEMANTIC_IMAGE;
          CUSTOM_PP_MATERIAL];
     ResolutionValue := OutputImageResolution w;
     DepthRangeValue := DepthRangeMeters T;
     OpticalFlowScaleValue := OpticalFlowScale T;
     OutputDirectoryValue := OutputDirectory w |}.

(** The option values an asset holds. *)
Definition OptionValuesIn (A : UWidgetStateAsset) : OptionValues :=
  {| CameraPosesValue := Asset.bCameraPosesSelected A;
     SelectedValues :=
       [Asset.bColorImagesSelected A; Asset.bDepthImagesSelected A;
        Asset.bNormalImagesSelected A; Asset.bOpticalFlowImagesSelected A;
        Asset.bSemanticImagesSelected A];
     OutputFormatValues :=
       map EImageFormat_of_int8
         [Asset.bColorImagesOutputFormat A; Asset.bDepthImagesOutputFormat A;
          Asset.bNormalImagesOutputFormat A; Asset.bOpticalFlowImagesOutputFormat A;
          Asset.bSemanticImagesOutputFormat A; Asset.bCustomPPMaterialOutputFormat A];
     ResolutionValue := Asset.OutputImageResolution A;
     DepthRangeValue := Asset.DepthRange A;
     OpticalFlowScaleValue := Asset.OpticalFlowScale A;
     OutputDirectoryValue := Asset.OutputDirectory A |}.



Definition with_widget (w : FWidgetManager O R) (s : Sys O R) : Sys O R :=
  {| widget := w;
     WidgetStateAssetObject := WidgetStateAssetObject s;
     journal := journal s |}.

(** The batch state after a reset. *)
Definition reset_batch (w : FWidgetManager O R) : FWidgetManager O R :=
  with_CurrentSequenceIndex (-1) (with_SequencesToRender [] w).

(** The log line and the call that start the sequence [a]. *)
Definition StartOf (w : FWidgetManager O R) (a : FAssetData) : list (Effect O) :=
  let SequenceName := FName_ToString (AssetName a) in
  [UE_LOG "Rendering sequence %d/%d: %s"
     [LogInt (int32_add (CurrentSequenceIndex w) 1);
      LogInt (Num (SequencesToRender w));
      LogStr SequenceName];
   Call_RenderSequence a (SequenceRendererTargets w) (OutputImageResolution w)
     (PathAppend (BaseOutputDirectory w) SequenceName)].

(** What the renderer in state [r] answers when asked to start [a]. *)
Definition StartAnswer (w : FWidgetManager O R) (a : FAssetData) (r : R) : bool * R :=
  RenderSequence a (SequenceRendererTargets w) (OutputImageResolution w)
    (PathAppend (BaseOutputDirectory w) (FName_ToString (AssetName a))) r.

Definition CouldNotStartDialog (r : R) : Effect O :=
  FMessageDialog_Open (FText_FromString (GetErrorMessage r))
    (LOCTEXT "StartRenderingErrorMessageBoxTitle" "Could not start rendering").

Definition RenderingFailedDialog (SequenceName : FString) (r : R) : Effect O :=
  FMessageDialog_Open
    (FText_FromString
       ("Failed on sequence: " ++ SequenceName ++ LF ++ LF ++ "Error: " ++
        GetErrorMessage r)%string)
    (LOCTEXT "RenderingErrorMessageBoxTitle" "Rendering failed").

Definition BatchCompleteDialog (Count : Z) : Effect O :=
  FMessageDialog_Open
    (FText_Format
       (LOCTEXT "BatchRenderingCompleteMessage" "Successfully rendered {0} sequences.")
       (FText_AsNumber Count))
    (LOCTEXT "BatchRenderingCompleteTitle" "Batch Rendering Complete").

Definition SuccessfulRenderingDialog : Effect O :=
  FMessageDialog_Open
    (LOCTEXT "SuccessfulRenderingMessageBoxText" "Rendering finished successfully")
    (LOCTEXT "SuccessfulRenderingMessageBoxTitle" "Successful rendering").

(** The log line, the forced collection and the pause before the sequence
    at index [Index] of [Count] is started. *)
Definition CleanupBefore (Index Count : Z) : list (Effect O) :=
  [UE_LOG "Cleaning up memory before sequence %d/%d"
     [LogInt (int32_add Index 1); LogInt Count];
   ForceGarbageCollection true;
   FPlatformProcess_Sleep float_one].

(** The sequence at [Index], as a list of at most one element. *)
Definition SequenceAt (Index : Z) (seqs : list FAssetData) : list FAssetData :=
  if Index <? 0 then [] else firstn 1 (skipn (Z.to_nat Index) seqs).

(** Where a journal stands with respect to garbage collection: no sequence
    started yet, a sequence started and no collection since, or a collection
    forced and no sequence started since. *)
Inductive Phase := NothingStarted | Started | Collected.

Definition next_phase (p : Phase) (e : Effect O) : option Phase :=
  if is_RenderSequence e then
    match p with
    | Started => None
    | NothingStarted | Collected => Some Started
    end
  else if is_ForceGarbageCollection e then Some Collected
  else Some p.

Fixpoint phase_after (p : Phase) (j : list (Effect O)) : option Phase :=
  match j with
  | [] => Some p
  | e :: j' =>
      match next_phase p e with
      | Some p' => phase_after p' j'
      | None => None
      end
  end.

Definition InvalidFolderDialog : Effect O :=
  FMessageDialog_Open
    (LOCTEXT "InvalidFolderMessage" "Selected folder is not a valid content folder.")
    (LOCTEXT "InvalidFolderTitle" "Invalid Folder").

Definition NoSequencesFoundDialog : Effect O :=
  FMessageDialog_Open
    (LOCTEXT "NoSequencesFoundMessage"
       "No level sequence assets found in the selected folder.")
    (LOCTEXT "NoSequencesFoundTitle" "No Sequences Found").

(** The widget manager at the start of a batch over [seqs]. *)
Definition batch_start (seqs : list FAssetData) (w : FWidgetManager O R)
    : FWidgetManager O R :=
  with_CurrentSequenceIndex 0
    (with_BaseOutputDirectory (OutputDirectory w) (with_SequencesToRender seqs w)).

(** The sequence a successful broadcast starts next: the one after the
    current index, when the current index is not negative. *)
Definition NextSequence (w : FWidgetManager O R) : list FAssetData :=
  if 0 <=? CurrentSequenceIndex w
  then SequenceAt (CurrentSequenceIndex w + 1) (SequencesToRender w)
  else [].

(** A batch over [seqs] of which [m] sequences have been started: the widget
    manager is at index [m - 1] of [seqs], or the batch has been reset. *)
Definition BatchAt (seqs : list FAssetData) (m : nat) (w : FWidgetManager O R) : Prop :=
  (exists r, SequenceRenderer w = Some r) /\
  ((SequencesToRender w = seqs /\ CurrentSequenceIndex w = Z.of_nat m - 1) \/
   (SequencesToRender w = [] /\ CurrentSequenceIndex w = -1)).

Definition successes (es : list (Event R)) : nat :=
  List.length (filter reports_success es).

(** An effect that neither starts a sequence nor forces a collection. *)
Definition is_quiet (e : Effect O) : bool :=
  negb (is_RenderSequence e) && negb (is_ForceGarbageCollection e).

End Vocabulary.

(** ** The rest of the panel

    The constructor, the handlers of the combo boxes, of the spin boxes and
    of the material picker, and the refresh of the semantic class names. *)

(** [FString::operator==]: comparison of strings ignores case. *)
Definition FString_eqb (a b : FString) : bool := String.eqb (lower a) (lower b).

Definition int32_div (a b : Z) : Z := wrap32 (Z.quot a b).

Definition int32_mul (a b : Z) : Z := wrap32 (a * b).

Definition TextureStyleColorName : FString := "Original color textures".
Definition TextureStyleSemanticName : FString := "Semantic color textures".
Definition JpegFormatName : FString := "jpeg".
Definition PngFormatName : FString := "png".
Definition ExrFormatName : FString := "exr".
Definition DefaultOutputImageResolution : FIntPoint := {| X := 1920; Y := 1080 |}.

(** The content of the two combo boxes, as the constructor fills it. *)
Definition TextureStyleNames : list FString :=
  ([] ++ [TextureStyleColorName]) ++ [TextureStyleSemanticName].

Definition OutputFormatNames : list FString :=
  (([] ++ [JpegFormatName]) ++ [PngFormatName]) ++ [ExrFormatName].

(** The bounds of the two spin boxes of the output image resolution. *)
Definition OutputWidth_MinValue : Z := 100.
Definition OutputWidth_MaxValue : Z := int32_mul 1920 2.
Definition OutputHeight_MinValue : Z := 100.
Definition OutputHeight_MaxValue : Z := int32_mul 1080 2.

Inductive ETextureStyle := COLOR | SEMANTIC.

(** The calls made on the texture style manager and on the semantic class
    combo box, and the lines logged next to them. *)
Inductive PanelCall :=
| BindEvents
| CheckoutTextureStyle (Style : ETextureStyle)
| ApplySemanticClassToSelectedActors (ClassName : FString)
| SemanticClassComboBox_ClearSelection
| SemanticClassComboBox_RefreshOptions
| Panel_UE_LOG (format : string) (args : list LogArg).

(** The semantic class names shown by the picker and the picker itself: a
    shared pointer that is valid once a combo box has been assigned to it. *)
Record SemanticsPicker := {
  SemanticClassNames : list FString;
  SemanticClassComboBox_IsValid : bool
}.

Section Panel.
Context {O R : Type}.
Context `{Targets : RendererTargetOptions O}.
Context `{Renderer : SequenceRendererAPI O R}.
Context `{Host : EditorHost}.

(** The members the constructor initialises, given what it obtains from
    elsewhere: the default target options, the default rendering output path
    and the renderer object it creates (checked not to be null). *)
Definition FWidgetManager_constructed (DefaultTargets : O)
    (DefaultRenderingOutputPath : FString) (NewRenderer : R) : FWidgetManager O R :=
  {| SelectedSequencesFolder := EmptyString;
     SequenceRendererTargets := DefaultTargets;
     OutputImageResolution := DefaultOutputImageResolution;
     OutputDirectory := DefaultRenderingOutputPath;
     SequencesToRender := [];
     CurrentSequenceIndex := -1;
     BaseOutputDirectory := EmptyString;
     SequenceRenderer := Some NewRenderer |}.

(** [StringItem] is a shared pointer: [None] when it is not valid. *)
Definition OnTextureStyleComboBoxSelectionChanged (StringItem : option FString)
    : list PanelCall :=
  match StringItem with
  | None => []
  | Some Item =>
      Panel_UE_LOG "%s: Texture style selected: %s"
        [LogStr "FWidgetManager::OnTextureStyleComboBoxSelectionChanged"; LogStr Item] ::
      (if FString_eqb Item TextureStyleColorName then
         [CheckoutTextureStyle COLOR]
       else if FString_eqb Item TextureStyleSemanticName then
         [CheckoutTextureStyle SEMANTIC]
       else
         [Panel_UE_LOG "%s: Got unexpected texture style: %s"
            [LogStr "FWidgetManager::OnTextureStyleComboBoxSelectionChanged";
             LogStr Item]])
  end.

Definition OnSemanticClassComboBoxSelectionChanged (StringItem : option FString)
    : list PanelCall :=
  match StringItem with
  | None => []
  | Some Item =>
      [Panel_UE_LOG "%s: Semantic class selected: %s"
         [LogStr "FWidgetManager::OnSemanticClassComboBoxSelectionChanged";
          LogStr Item];
       ApplySemanticClassToSelectedActors Item;
       SemanticClassComboBox_ClearSelection]
  end.

(** [ClassNames] is what [TextureStyleManager->SemanticClassNames()]
    returns. *)
Definition OnSemanticClassesUpdated (ClassNames : list FString) (p : SemanticsPicker)
    : SemanticsPicker * list PanelCall :=
  let Names := fold_left (fun Names ClassName => Names ++ [ClassName]) ClassNames [] in
  ({| SemanticClassNames := Names;
      SemanticClassComboBox_IsValid := SemanticClassComboBox_IsValid p |},
   if SemanticClassComboBox_IsValid p
   then [SemanticClassComboBox_RefreshOptions]
   else [Panel_UE_LOG "%s: Semantic class picker is invalid, could not refresh"
           [LogStr "FWidgetManager::OnSemanticClassesUpdated"]]).

(** The output format combo boxes.  [*StringItem] is read without a check of
    the pointer. *)
Definition OnOutputFormatSelectionChanged (StringItem : option FString)
    (TargetType : TargetType) : M O R unit :=
  match StringItem with
  | None => crash
  | Some Item =>
      let targets (f : O -> O) : M O R unit :=
        assign (fun w => with_SequenceRendererTargets (f (SequenceRendererTargets w)) w) in
      if FString_eqb Item JpegFormatName then
        targets (SetOutputFormat TargetType JPEG)
      else if FString_eqb Item PngFormatName then
        targets (SetOutputFormat TargetType PNG)
      else if FString_eqb Item ExrFormatName then
        targets (SetOutputFormat TargetType EXR)
      else
        emit (UE_LOG "%s: Invalid output format selection '%s'"
                [LogStr "FWidgetManager::OnOutputFormatSelectionChanged"; LogStr Item])
  end.

(** [TargetType_value] gives the integer value of an enumerator, which the
    error line prints; the enumeration is declared outside this file. *)
Definition SelectedOutputFormat (TargetType_value : TargetType -> Z)
    (TargetType : TargetType) : M O R FText :=
  w <- this ;;
  let OutputFormat := OutputFormat TargetType (SequenceRendererTargets w) in
  if EImageFormat_eqb OutputFormat JPEG then
    ret (FText_FromString JpegFormatName)
  else if EImageFormat_eqb OutputFormat PNG then
    ret (FText_FromString PngFormatName)
  else if EImageFormat_eqb OutputFormat EXR then
    ret (FText_FromString ExrFormatName)
  else
    emit (UE_LOG "%s: Invalid target type '%d'"
            [LogStr "FWidgetManager::SelectedOutputFormat";
             LogInt (TargetType_value TargetType)]) ;;
    ret FText_GetEmpty.

Definition OnCustomPPMaterialSelected (AssetData : FAssetData) : M O R unit :=
  assign (fun w =>
    with_SequenceRendererTargets
      (SetCustomPPMaterialAssetData AssetData (SequenceRendererTargets w)) w).

(** The camera poses check box. *)
Definition CameraPoses_IsChecked (w : FWidgetManager O R) : ECheckBoxState :=
  let bChecked := ExportCameraPoses (SequenceRendererTargets w) in
  if bChecked then Checked else Unchecked.

Definition CameraPoses_OnCheckStateChanged (NewState : ECheckBoxState) : M O R unit :=
  assign (fun w =>
    with_SequenceRendererTargets
      (SetExportCameraPoses (ECheckBoxState_eqb NewState Checked)
         (SequenceRendererTargets w)) w).

(** The spin boxes of the output image width and height:
    [NewValue / 2 * 2]. *)
Definition OutputWidth_OnValueChanged (NewValue : Z) : M O R unit :=
  assign (fun w =>
    with_OutputImageResolution
      {| X := int32_mul (int32_div NewValue 2) 2;
         Y := Y (OutputImageResolution w) |} w).

Definition OutputHeight_OnValueChanged (NewValue : Z) : M O R unit :=
  assign (fun w =>
    with_OutputImageResolution
      {| X := X (OutputImageResolution w);
         Y := int32_mul (int32_div NewValue 2) 2 |} w).

(** [OnSpawnPluginTab], as far as the order of what it does goes: events are
    bound, the saved option states are loaded, the semantic class names are
    refreshed, and only then is the tab built, which assigns the semantic
    class combo box.  The tab is given by the widgets bound to a target. *)
Definition OnSpawnPluginTab (ClassNames : list FString) (p : SemanticsPicker)
    : M O R (list TargetWidget * SemanticsPicker * list PanelCall) :=
  LoadWidgetOptionStates ;;
  let (p1, Calls) := OnSemanticClassesUpdated ClassNames p in
  ret (PanelTargetWidgets,
       {| SemanticClassNames := SemanticClassNames p1;
          SemanticClassComboBox_IsValid := true |},
       BindEvents :: Calls).

(** *** Vocabulary *)

(** The image format a name of the output format combo boxes stands for. *)
Definition OutputFormatOfName (Item : FString) : option EImageFormat :=
  if FString_eqb Item JpegFormatName then Some JPEG
  else if FString_eqb Item PngFormatName then Some PNG
  else if FString_eqb Item ExrFormatName then Some EXR
  else None.

Definition is_dialog (e : Effect O) : bool :=
  match e with FMessageDialog_Open _ _ => true | _ => false end.

Definition is_SaveLoadedAsset (e : Effect O) : bool :=
  match e with SaveLoadedAsset _ _ => true | _ => false end.

(** No batch is going on, or the current index points into the queue; the
    queue is no longer than an array can be. *)
Definition BatchWellFormed (w : FWidgetManager O R) : Prop :=
  Num (SequencesToRender w) <= INT32_MAX /\
  ((SequencesToRender w = [] /\ CurrentSequenceIndex w = -1) \/
   0 <= CurrentSequenceIndex w < Num (SequencesToRender w)).

(** The renderer starts whatever it is asked to with the target options and
    the output image resolution of [w]. *)
Definition Accepts (w : FWidgetManager O R) : Prop :=
  forall a dir r,
    fst (RenderSequence a (SequenceRendererTargets w) (OutputImageResolution w) dir r) =
    true.

End Panel.

(** States of the panel on the plain instances. *)
Module Scenarios.
Import Instances.

(** A folder outside the content directory of the project. *)
Definition sys_outside : Sys PlainTargets PlainRenderer :=
  {| widget := with_SelectedSequencesFolder "C:/Temp" widget0;
     WidgetStateAssetObject := None;
     journal := [] |}.

(** A panel whose colour images are stored with an image format that is not
    offered by the combo boxes. *)
Definition targets_bmp : PlainTargets :=
  SetOutputFormat COLOR_IMAGE (EImageFormat_of_int8 x03) targets0.

Definition sys_bmp : Sys PlainTargets PlainRenderer :=
  {| widget := with_SequenceRendererTargets targets_bmp widget0;
     WidgetStateAssetObject := None;
     journal := [] |}.

Definition picker0 : SemanticsPicker :=
  {| SemanticClassNames := ["Stale"]; SemanticClassComboBox_IsValid := false |}.

End Scenarios.

(** ** Proofs *)

Unset Implicit Arguments.

Section OptionProofs.
Context {O R : Type}.
Context `{Targets : RendererTargetOptions O}.
Context {Laws : RendererTargetOptionsLaws O}.
Context `{Renderer : SequenceRendererAPI O R}.
Context `{Host : EditorHost}.

Ltac run_monad :=
  cbv [LoadWidgetOptionStates SaveWidgetOptionStates bind ret this assign emit
       LoadObject_WidgetStateAsset store_WidgetStateAsset
       with_SelectedSequencesFolder with_SequenceRendererTargets
       with_OutputImageResolution with_OutputDirectory with_widget
       widget WidgetStateAssetObject journal
       SelectedSequencesFolder SequenceRendererTargets OutputImageResolution
       OutputDirectory SequencesToRender CurrentSequenceIndex BaseOutputDirectory
       SequenceRenderer].

Ltac option_laws :=
  repeat first
    [ rewrite poses_set | rewrite poses_selected | rewrite poses_format
    | rewrite poses_material | rewrite poses_depth | rewrite poses_flow
    | rewrite selected_set | rewrite selected_format | rewrite selected_depth
    | rewrite selected_flow | rewrite selected_material by discriminate
    | rewrite selected_other by discriminate
    | rewrite format_set | rewrite format_material | rewrite format_depth
    | rewrite format_flow | rewrite format_other by discriminate
    | rewrite material_set | rewrite material_format | rewrite material_depth
    | rewrite material_flow | rewrite depth_set | rewrite depth_flow
    | rewrite flow_set ].

(** Casting an image format to [int8] and back gives the format. *)
Lemma EImageFormat_cast_back (f : EImageFormat) :
  EImageFormat_of_int8 (int8_of_EImageFormat f) = f.
Proof. destruct f. reflexivity. Qed.

(** Loading takes every option value from the asset and empties the
    sequences folder. *)
Lemma LoadWidgetOptionStates_loaded (s : Sys O R) (A : UWidgetStateAsset) :
  WidgetStateAssetObject s = Some A ->
  exists s',
    LoadWidgetOptionStates s = Some (tt, s') /\
    WidgetStateAssetObject s' = Some A /\
    journal s' = journal s /\
    SelectedSequencesFolder (widget s') = EmptyString /\
    OptionValuesOf (widget s') = OptionValuesIn A /\
    CustomPPMaterial (SequenceRendererTargets (widget s')) =
      FAssetData_FromObject (TryLoad (Asset.CustomPPMaterialAssetPath A)).
Proof.
  destruct s as [[folder T res dir seqs idx base rdr] obj j]. simpl.
  intros ->. run_monad.
  eexists. split; [reflexivity|].
  repeat split.
  - unfold OptionValuesOf, OptionValuesIn. simpl. option_laws. reflexivity.
  - simpl. option_laws. reflexivity.
Qed.

(** Saving stores the option values of the panel in the asset object, clears
    the level sequence path and leaves the widget manager alone. *)
Lemma SaveWidgetOptionStates_saved (s : Sys O R) :
  exists A out,
    SaveWidgetOptionStates s =
      Some (tt, {| widget := widget s;
                   WidgetStateAssetObject := Some A;
                   journal := journal s ++ out |}) /\
    forallb is_quiet out = true /\
    OptionValuesIn A = OptionValuesOf (widget s) /\
    Asset.CustomPPMaterialAssetPath A =
      FAssetData_ToSoftObjectPath (CustomPPMaterial (SequenceRendererTargets (widget s))) /\
    Asset.LevelSequenceAssetPath A = FSoftObjectPath_default.
Proof.
  destruct s as [[folder T res dir seqs idx base rdr] obj j]. simpl.
  destruct obj; run_monad.
  - eexists. eexists. split; [reflexivity|].
    repeat split. unfold OptionValuesIn, OptionValuesOf. simpl.
    now rewrite !EImageFormat_cast_back.
  - eexists. eexists. split.
    + rewrite <- !app_assoc. reflexivity.
    + repeat split. unfold OptionValuesIn, OptionValuesOf. simpl.
      now rewrite !EImageFormat_cast_back.
Qed.

(** What is saved does not depend on the sequences folder. *)
Lemma SaveWidgetOptionStates_ignores_folder (s : Sys O R) (folder : FString) :
  exists s1 s2,
    SaveWidgetOptionStates s = Some (tt, s1) /\
    SaveWidgetOptionStates
      (with_widget (with_SelectedSequencesFolder folder (widget s)) s) = Some (tt, s2) /\
    WidgetStateAssetObject s2 = WidgetStateAssetObject s1 /\
    journal s2 = journal s1.
Proof.
  destruct s as [[folder0 T res dir seqs idx base rdr] obj j]. simpl.
  destruct obj; run_monad; eexists; eexists; repeat split.
Qed.


(** C10. Loading an asset empties the sequences folder, whatever it was, and
    takes every other option value from the asset (the custom post process
    material by loading the object at the stored path); saving writes the
    same asset object and makes the same calls whatever the sequences folder
    is, and leaves the level sequence path of the asset empty. *)
Theorem sequences_folder_is_never_persisted
    (s : Sys O R) (A : UWidgetStateAsset) (s0 : Sys O R) (folder : FString) :
  WidgetStateAssetObject s = Some A ->
  (exists s',
     LoadWidgetOptionStates s = Some (tt, s') /\
     SelectedSequencesFolder (widget s') = EmptyString /\
     OptionValuesOf (widget s') = OptionValuesIn A /\
     CustomPPMaterial (SequenceRendererTargets (widget s')) =
       FAssetData_FromObject (TryLoad (Asset.CustomPPMaterialAssetPath A))) /\
  (exists s1 s2 A',
     SaveWidgetOptionStates s0 = Some (tt, s1) /\
     SaveWidgetOptionStates
       (with_widget (with_SelectedSequencesFolder folder (widget s0)) s0) =
       Some (tt, s2) /\
     WidgetStateAssetObject s1 = Some A' /\
     WidgetStateAssetObject s2 = Some A' /\
     journal s2 = journal s1 /\
     Asset.LevelSequenceAssetPath A' = FSoftObjectPath_default).
Proof.
  intros HA. split.
  - destruct (LoadWidgetOptionStates_loaded s A HA)
      as (s' & Hrun & _ & _ & Hfolder & Hvalues & Hmaterial).
    exists s'. auto.
  - destruct (SaveWidgetOptionStates_ignores_folder s0 folder)
      as (s1 & s2 & H1 & H2 & Hobj & Hj).
    destruct (SaveWidgetOptionStates_saved s0) as (A' & out & H1' & _ & _ & _ & Hseq).
    rewrite H1 in H1'. injection H1' as ->.
    exists {| widget := widget s0; WidgetStateAssetObject := Some A';
              journal := journal s0 ++ out |}, s2, A'.
    simpl in *. auto 10.
Qed.


End OptionProofs.

Import Instances.

(** The plain target options satisfy the laws. *)
#[export] Instance PlainTargets_laws : RendererTargetOptionsLaws PlainTargets.
Proof.
  constructor; intros; try reflexivity;
    cbn; unfold update;
    repeat match goal with t : TargetType |- _ => destruct t end;
    cbn; congruence.
Qed.

Section BatchProofs.
Context {O R : Type}.
Context `{Targets : RendererTargetOptions O}.
Context `{Renderer : SequenceRendererAPI O R}.
Context `{Host : EditorHost}.

Ltac open_state s :=
  destruct s as [[folder T res dir seqs idx base rdr] obj j].

Ltac fields :=
  cbv [widget WidgetStateAssetObject journal
       SelectedSequencesFolder SequenceRendererTargets OutputImageResolution
       OutputDirectory SequencesToRender CurrentSequenceIndex BaseOutputDirectory
       SequenceRenderer
       with_SelectedSequencesFolder with_SequenceRendererTargets
       with_OutputImageResolution with_OutputDirectory with_SequencesToRender
       with_CurrentSequenceIndex with_BaseOutputDirectory with_SequenceRenderer
       with_widget reset_batch batch_start] in *.

Ltac crunch := cbv beta iota zeta delta [negb orb andb].

Ltac run_batch :=
  cbv [OnRenderingFinished RenderCurrentSequence SequencesToRender_at
       OnRenderImagesClicked handle ClickRenderImages
       bind ret this assign emit deref_SequenceRenderer crash]; fields.

Lemma nth_error_in_range (T : Type) (l : list T) (i : Z) :
  0 <= i < Num l -> exists a, nth_error l (Z.to_nat i) = Some a.
Proof.
  unfold Num. intros Hi.
  destruct (nth_error l (Z.to_nat i)) as [a|] eqn:E; [eauto|].
  apply nth_error_None in E. lia.
Qed.

Lemma int32_add_1 (i n : Z) : 0 <= i < n -> n <= INT32_MAX -> int32_add i 1 = i + 1.
Proof.
  unfold int32_add, wrap32, INT32_MAX. intros Hi Hn.
  rewrite Z.mod_small; lia.
Qed.

(** [RenderCurrentSequence] at a valid index. *)
Lemma RenderCurrentSequence_valid (s : Sys O R) (a : FAssetData) (r : R) :
  let w := widget s in
  0 <= CurrentSequenceIndex w < Num (SequencesToRender w) ->
  nth_error (SequencesToRender w) (Z.to_nat (CurrentSequenceIndex w)) = Some a ->
  SequenceRenderer w = Some r ->
  RenderCurrentSequence s =
    Some (tt,
      let r' := snd (StartAnswer w a r) in
      if fst (StartAnswer w a r)
      then {| widget := with_SequenceRenderer (Some r') w;
              WidgetStateAssetObject := WidgetStateAssetObject s;
              journal := journal s ++ StartOf w a |}
      else {| widget := reset_batch (with_SequenceRenderer (Some r') w);
              WidgetStateAssetObject := WidgetStateAssetObject s;
              journal := journal s ++ StartOf w a ++ [CouldNotStartDialog r'] |}).
Proof.
  open_state s. intros w Hi Ha Hr. subst w. run_batch. subst rdr.
  assert (E1 : (idx <? 0) = false) by lia.
  assert (E2 : (idx >=? Num seqs) = false) by lia.
  repeat progress (crunch; rewrite ?E1, ?E2, ?Ha).
  unfold StartAnswer, StartOf. fields.
  destruct (RenderSequence _ _ _ _ _) as [ok r']. cbv [fst snd]. crunch.
  destruct ok; crunch; rewrite <- ?app_assoc; reflexivity.
Qed.

Lemma RenderCurrentSequence_invalid (s : Sys O R) :
  let w := widget s in
  ~ (0 <= CurrentSequenceIndex w < Num (SequencesToRender w)) ->
  RenderCurrentSequence s = Some (tt, s).
Proof.
  open_state s. intros w Hi. subst w. run_batch.
  destruct (idx <? 0) eqn:E1; [reflexivity|].
  destruct (idx >=? Num seqs) eqn:E2; [reflexivity|]. lia.
Qed.

Lemma string_app_assoc (a b c : string) :
  ((a ++ b) ++ c = a ++ (b ++ c))%string.
Proof. induction a as [|x a IH]; simpl; [reflexivity|now rewrite IH]. Qed.

Lemma Printf_failed (name err : FString) :
  FString_Printf ("Failed on sequence: %s" ++ LF ++ LF ++ "Error: %s")%string [name; err] =
  ("Failed on sequence: " ++ name ++ LF ++ LF ++ "Error: " ++ err)%string.
Proof.
  simpl. repeat f_equal.
  induction err as [|c err IH]; simpl; [reflexivity|now rewrite IH].
Qed.

(** [OnRenderingFinished(false)]. *)
Lemma OnRenderingFinished_failure (s : Sys O R) (r : R) :
  SequenceRenderer (widget s) = Some r ->
  exists name,
    OnRenderingFinished false s =
      Some (tt, {| widget := reset_batch (widget s);
                   WidgetStateAssetObject := WidgetStateAssetObject s;
                   journal := journal s ++ [RenderingFailedDialog name r] |}).
Proof.
  open_state s. intros Hr. run_batch. subst rdr.
  destruct ((idx >=? 0) && (idx <? Num seqs)) eqn:E.
  - apply andb_true_iff in E. destruct E as [E1 E2].
    assert (E3 : (idx <? 0) = false) by lia.
    assert (E4 : (idx >=? Num seqs) = false) by lia.
    destruct (nth_error_in_range _ seqs idx) as [a Ha]; [lia|].
    repeat progress (crunch; rewrite ?E3, ?E4, ?Ha).
    rewrite Printf_failed.
    exists (FName_ToString (AssetName a)). reflexivity.
  - crunch. rewrite Printf_failed. exists "Unknown"%string. reflexivity.
Qed.

(** [OnRenderingFinished(true)] outside a batch. *)
Lemma OnRenderingFinished_idle (s : Sys O R) :
  let w := widget s in
  ~ (0 <= CurrentSequenceIndex w < Num (SequencesToRender w)) ->
  OnRenderingFinished true s =
    Some (tt, {| widget := w;
                 WidgetStateAssetObject := WidgetStateAssetObject s;
                 journal := journal s ++ [SuccessfulRenderingDialog] |}).
Proof.
  open_state s. intros w Hi. subst w. run_batch.
  replace ((idx >=? 0) && (idx <? Num seqs)) with false; [reflexivity|].
  symmetry. apply andb_false_iff. lia.
Qed.

(** [OnRenderingFinished(true)] for the last sequence of a batch. *)
Lemma OnRenderingFinished_last (s : Sys O R) :
  let w := widget s in
  0 <= CurrentSequenceIndex w ->
  CurrentSequenceIndex w + 1 = Num (SequencesToRender w) ->
  Num (SequencesToRender w) <= INT32_MAX ->
  OnRenderingFinished true s =
    Some (tt, {| widget := reset_batch w;
                 WidgetStateAssetObject := WidgetStateAssetObject s;
                 journal := journal s ++ [BatchCompleteDialog (Num (SequencesToRender w))] |}).
Proof.
  open_state s. intros w H0 Hlast Hmax. subst w. run_batch.
  replace ((idx >=? 0) && (idx <? Num seqs))
    with true by (symmetry; apply andb_true_iff; lia).
  crunch. rewrite !(int32_add_1 idx (Num seqs)) by lia.
  replace (idx + 1 <? Num seqs) with false by lia.
  reflexivity.
Qed.

(** [OnRenderingFinished(true)] when more sequences remain. *)
Lemma OnRenderingFinished_next (s : Sys O R) (a : FAssetData) (r : R) :
  let w := widget s in
  let w1 := with_CurrentSequenceIndex (CurrentSequenceIndex w + 1) w in
  0 <= CurrentSequenceIndex w ->
  CurrentSequenceIndex w + 1 < Num (SequencesToRender w) ->
  Num (SequencesToRender w) <= INT32_MAX ->
  nth_error (SequencesToRender w) (Z.to_nat (CurrentSequenceIndex w + 1)) = Some a ->
  SequenceRenderer w = Some r ->
  OnRenderingFinished true s =
    Some (tt,
      let r' := snd (StartAnswer w1 a r) in
      let cleanup :=
        CleanupBefore (CurrentSequenceIndex w1) (Num (SequencesToRender w)) in
      if fst (StartAnswer w1 a r)
      then {| widget := with_SequenceRenderer (Some r') w1;
              WidgetStateAssetObject := WidgetStateAssetObject s;
              journal := journal s ++ cleanup ++ StartOf w1 a |}
      else {| widget := reset_batch (with_SequenceRenderer (Some r') w1);
              WidgetStateAssetObject := WidgetStateAssetObject s;
              journal := journal s ++ cleanup ++ StartOf w1 a ++ [CouldNotStartDialog r'] |}).
Proof.
  open_state s. intros w w1 H0 Hnext Hmax Ha Hr. subst w w1.
  cbv [OnRenderingFinished bind this assign emit]. fields. subst rdr.
  replace ((idx >=? 0) && (idx <? Num seqs))
    with true by (symmetry; apply andb_true_iff; lia).
  crunch. rewrite !(int32_add_1 idx (Num seqs)) by lia.
  replace (idx + 1 <? Num seqs) with true by lia.
  crunch.
  match goal with |- RenderCurrentSequence ?s1 = _ =>
    rewrite (RenderCurrentSequence_valid s1 a r) by (fields; first [lia | assumption | reflexivity])
  end.
  unfold CleanupBefore. fields.
  destruct (fst (StartAnswer _ a r)); rewrite <- !app_assoc; reflexivity.
Qed.

(** The loop over the asset list keeps the level sequences, in order. *)
Lemma queue_loop_is_filter (l acc : list FAssetData) :
  fold_left (fun Queue AssetData =>
               if IsLevelSequence AssetData then Queue ++ [AssetData] else Queue) l acc =
  acc ++ filter IsLevelSequence l.
Proof.
  revert acc. induction l as [|a l IH]; intros acc; simpl.
  - now rewrite app_nil_r.
  - rewrite IH. destruct (IsLevelSequence a); [|reflexivity].
    now rewrite <- app_assoc.
Qed.

Lemma OnRenderImagesClicked_invalid_folder (s : Sys O R) :
  TryConvertFilenameToLongPackageName (SelectedSequencesFolder (widget s)) = None ->
  OnRenderImagesClicked s =
    Some (Handled, {| widget := reset_batch (widget s);
                      WidgetStateAssetObject := WidgetStateAssetObject s;
                      journal := journal s ++ [InvalidFolderDialog] |}).
Proof.
  intros Hp. unfold OnRenderImagesClicked, bind, assign, this, emit, ret. simpl.
  rewrite Hp. reflexivity.
Qed.

Lemma OnRenderImagesClicked_no_sequences (s : Sys O R) (p : FString) :
  TryConvertFilenameToLongPackageName (SelectedSequencesFolder (widget s)) = Some p ->
  filter IsLevelSequence (GetAssetsByPath (MkFName p) false) = [] ->
  OnRenderImagesClicked s =
    Some (Handled, {| widget := reset_batch (widget s);
                      WidgetStateAssetObject := WidgetStateAssetObject s;
                      journal := journal s ++ [NoSequencesFoundDialog] |}).
Proof.
  intros Hp Hseqs. unfold OnRenderImagesClicked, bind, assign, this, emit, ret. simpl.
  rewrite Hp. simpl. rewrite queue_loop_is_filter, Hseqs. reflexivity.
Qed.

Lemma OnRenderImagesClicked_batch (s : Sys O R) (p : FString)
    (a : FAssetData) (rest : list FAssetData) (r : R) :
  let w := widget s in
  let w1 := batch_start (a :: rest) w in
  TryConvertFilenameToLongPackageName (SelectedSequencesFolder w) = Some p ->
  filter IsLevelSequence (GetAssetsByPath (MkFName p) false) = a :: rest ->
  SequenceRenderer w = Some r ->
  exists A saved,
    forallb is_quiet saved = true /\
    OnRenderImagesClicked s =
      Some (Handled,
        let r' := snd (StartAnswer w1 a r) in
        if fst (StartAnswer w1 a r)
        then {| widget := with_SequenceRenderer (Some r') w1;
                WidgetStateAssetObject := Some A;
                journal := journal s ++ StartOf w1 a ++ saved |}
        else {| widget := reset_batch (with_SequenceRenderer (Some r') w1);
                WidgetStateAssetObject := Some A;
                journal :=
                  journal s ++ StartOf w1 a ++ [CouldNotStartDialog r'] ++ saved |}).
Proof.
  intros w w1 Hp Hseqs Hr. subst w w1.
  unfold OnRenderImagesClicked.
  unfold bind at 1, assign at 1. unfold bind at 1, assign at 1.
  unfold bind at 1, this at 1. simpl. rewrite Hp.
  unfold bind at 1, assign at 1. unfold bind at 1, this at 1. simpl.
  rewrite queue_loop_is_filter, Hseqs. simpl.
  replace (Num (a :: rest) =? 0) with false by (unfold Num; simpl; lia).
  unfold bind at 1, assign at 1. unfold bind at 1, assign at 1. simpl.
  unfold bind at 1.
  match goal with |- context [RenderCurrentSequence ?s1] =>
    rewrite (@RenderCurrentSequence_valid s1 a r)
      by (simpl; first [unfold Num; simpl; lia | reflexivity | assumption])
  end.
  simpl. unfold batch_start.
  destruct (fst (StartAnswer _ a r)).
  - unfold bind at 1.
    match goal with |- context [SaveWidgetOptionStates ?s1] =>
      destruct (SaveWidgetOptionStates_saved s1) as (A & saved & Hsave & Hquiet & _)
    end.
    rewrite Hsave. simpl. exists A, saved. split; [exact Hquiet|].
    unfold ret. rewrite <- !app_assoc. reflexivity.
  - unfold bind at 1.
    match goal with |- context [SaveWidgetOptionStates ?s1] =>
      destruct (SaveWidgetOptionStates_saved s1) as (A & saved & Hsave & Hquiet & _)
    end.
    rewrite Hsave. simpl. exists A, saved. split; [exact Hquiet|].
    unfold ret. rewrite <- !app_assoc. reflexivity.
Qed.

Lemma SequenceAt_nth (seqs : list FAssetData) (i : Z) (a : FAssetData) :
  0 <= i -> nth_error seqs (Z.to_nat i) = Some a -> SequenceAt i seqs = [a].
Proof.
  intros Hi Ha. unfold SequenceAt. replace (i <? 0) with false by lia.
  revert Ha. generalize (Z.to_nat i). clear Hi i.
  intros n. revert seqs. induction n as [|n IH]; intros [|x seqs]; simpl; try discriminate.
  - now intros [= ->].
  - apply IH.
Qed.

Lemma SequenceAt_beyond (seqs : list FAssetData) (i : Z) :
  Num seqs <= i -> SequenceAt i seqs = [].
Proof.
  intros Hi. unfold SequenceAt. destruct (i <? 0); [reflexivity|].
  rewrite skipn_all2; [reflexivity|]. unfold Num in Hi. lia.
Qed.

(** What a broadcast of [OnRenderingFinished] does, case by case. *)
Lemma handle_broadcast_cases (s : Sys O R) (r0 r : R) (b : bool) :
  let w := widget s in
  let n := Num (SequencesToRender w) in
  let i := CurrentSequenceIndex w in
  SequenceRenderer w = Some r0 ->
  n <= INT32_MAX ->
  exists s' out,
    handle (RenderingFinishedBroadcast r b) s = Some (tt, s') /\
    journal s' = journal s ++ out /\
    WidgetStateAssetObject s' = WidgetStateAssetObject s /\
    (exists r', SequenceRenderer (widget s') = Some r') /\
    BaseOutputDirectory (widget s') = BaseOutputDirectory w /\
    ((b = true /\ 0 <= i /\ i + 1 < n /\
      exists a, nth_error (SequencesToRender w) (Z.to_nat (i + 1)) = Some a /\
        let w1 := with_CurrentSequenceIndex (i + 1) (with_SequenceRenderer (Some r) w) in
        let ok := fst (StartAnswer w1 a r) in
        out = CleanupBefore (i + 1) n ++ StartOf w1 a ++
              (if ok then [] else [CouldNotStartDialog (snd (StartAnswer w1 a r))]) /\
        SequencesToRender (widget s') = (if ok then SequencesToRender w else []) /\
        CurrentSequenceIndex (widget s') = (if ok then i + 1 else -1)) \/
     (b = true /\ 0 <= i /\ i + 1 = n /\
      out = [BatchCompleteDialog n] /\
      SequencesToRender (widget s') = [] /\ CurrentSequenceIndex (widget s') = -1) \/
     (b = true /\ ~ (0 <= i < n) /\
      out = [SuccessfulRenderingDialog] /\
      SequencesToRender (widget s') = SequencesToRender w /\
      CurrentSequenceIndex (widget s') = i) \/
     (b = false /\
      (exists name, out = [RenderingFailedDialog name r]) /\
      SequencesToRender (widget s') = [] /\ CurrentSequenceIndex (widget s') = -1)).
Proof.
  intros w n i Hr Hmax. subst w n i.
  unfold handle. unfold bind at 1, assign at 1. rewrite Hr.
  set (s1 := {| widget := with_SequenceRenderer (Some r) (widget s);
                WidgetStateAssetObject := WidgetStateAssetObject s;
                journal := journal s |}).
  assert (Hr1 : SequenceRenderer (widget s1) = Some r) by reflexivity.
  destruct b.
  - destruct (Z_lt_dec (CurrentSequenceIndex (widget s)) 0) as [Hneg|Hpos].
    { rewrite (@OnRenderingFinished_idle s1) by (simpl; lia).
      eexists. eexists. split; [reflexivity|]. simpl.
      repeat split; eauto. right. right. left. repeat split; auto; lia. }
    destruct (Z_lt_dec (CurrentSequenceIndex (widget s) + 1)
                (Num (SequencesToRender (widget s)))) as [Hnext|Hlast].
    + destruct (@nth_error_in_range _ (SequencesToRender (widget s))
                  (CurrentSequenceIndex (widget s) + 1)) as [a Ha]; [lia|].
      rewrite (@OnRenderingFinished_next s1 a r) by (simpl; first [lia | assumption]).
      simpl.
      destruct (fst (StartAnswer _ a r)) eqn:Eok;
        (eexists; eexists; split; [reflexivity|]); simpl;
        (repeat split; eauto); left; (repeat split; try lia);
        exists a; rewrite Eok; repeat split; auto.
    + destruct (Z.eq_dec (CurrentSequenceIndex (widget s) + 1)
                  (Num (SequencesToRender (widget s)))) as [Heq|Hout].
      * rewrite (@OnRenderingFinished_last s1) by (simpl; lia).
        eexists. eexists. split; [reflexivity|]. simpl.
        repeat split; eauto. right. left. repeat split; auto; lia.
      * rewrite (@OnRenderingFinished_idle s1) by (simpl; lia).
        eexists. eexists. split; [reflexivity|]. simpl.
        repeat split; eauto. right. right. left. repeat split; auto; lia.
  - destruct (@OnRenderingFinished_failure s1 r Hr1) as [name Hfail].
    rewrite Hfail. eexists. eexists. split; [reflexivity|]. simpl.
    repeat split; eauto. right. right. right. repeat split; eauto.
Qed.

(** *** Journals *)

Lemma RenderedSequences_app (j1 j2 : list (Effect O)) :
  RenderedSequences (j1 ++ j2) = RenderedSequences j1 ++ RenderedSequences j2.
Proof. unfold RenderedSequences. apply flat_map_app. Qed.

Lemma RenderedSequences_quiet (j : list (Effect O)) :
  forallb is_quiet j = true -> RenderedSequences j = [].
Proof.
  induction j as [|e j IH]; simpl; [reflexivity|].
  intros H. apply andb_true_iff in H. destruct H as [He Hj].
  rewrite (IH Hj). destruct e; simpl in *; try reflexivity; discriminate.
Qed.

Lemma phase_after_app (p : Phase) (j1 j2 : list (Effect O)) :
  phase_after p (j1 ++ j2) =
  match phase_after p j1 with
  | Some p' => phase_after p' j2
  | None => None
  end.
Proof.
  revert p. induction j1 as [|e j1 IH]; intros p; simpl; [reflexivity|].
  destruct (next_phase p e); [apply IH|reflexivity].
Qed.

Lemma phase_after_quiet (p : Phase) (j : list (Effect O)) :
  forallb is_quiet j = true -> phase_after p j = Some p.
Proof.
  induction j as [|e j IH]; simpl; [reflexivity|].
  intros H. apply andb_true_iff in H. destruct H as [He Hj].
  unfold next_phase. unfold is_quiet in He.
  apply andb_true_iff in He. destruct He as [He1 He2].
  apply negb_true_iff in He1, He2. rewrite He1, He2. auto.
Qed.

(** Between two starts of a sequence, a collection is forced. *)
Lemma phase_collects_between (p p' : Phase) (pre mid post : list (Effect O))
    (c1 c2 : Effect O) :
  phase_after p (pre ++ c1 :: mid ++ c2 :: post) = Some p' ->
  is_RenderSequence c1 = true -> is_RenderSequence c2 = true ->
  exists f, In (ForceGarbageCollection f) mid.
Proof.
  intros H H1 H2. rewrite phase_after_app in H.
  destruct (phase_after p pre) as [q|]; [|discriminate].
  simpl in H. unfold next_phase at 1 in H. rewrite H1 in H.
  assert (Hmid : phase_after Started (mid ++ c2 :: post) = Some p').
  { destruct q; [exact H|discriminate|exact H]. }
  clear H. induction mid as [|e mid IH]; simpl in Hmid.
  - unfold next_phase in Hmid. rewrite H2 in Hmid. discriminate.
  - unfold next_phase at 1 in Hmid.
    destruct (is_RenderSequence e) eqn:Ee; [discriminate|].
    destruct (is_ForceGarbageCollection e) eqn:Eg.
    + destruct e; try discriminate. exists bFullPurge. now left.
    + destruct (IH Hmid) as [f Hf]. exists f. now right.
Qed.

(** A forced collection is followed by the start of a sequence. *)
Lemma phase_starts_after_collection (p p' : Phase) (pre post : list (Effect O)) (f : bool) :
  phase_after p (pre ++ ForceGarbageCollection f :: post) = Some p' ->
  p' <> Collected ->
  RenderedSequences post <> [].
Proof.
  intros H Hp'. rewrite phase_after_app in H.
  destruct (phase_after p pre) as [q|]; [|discriminate].
  simpl in H. change (phase_after Collected post = Some p') in H.
  clear q pre. induction post as [|e post IH]; simpl in H.
  - congruence.
  - unfold next_phase at 1 in H. destruct e; simpl in *; try (apply IH; exact H).
    discriminate.
Qed.

Lemma firstn_skipn_add (T : Type) (l : list T) (a b : nat) :
  firstn (a + b) l = firstn a l ++ firstn b (skipn a l).
Proof.
  revert l. induction a as [|a IH]; intros l; simpl; [reflexivity|].
  destruct l as [|x l]; simpl.
  - now rewrite firstn_nil.
  - now rewrite IH.
Qed.

Lemma firstn_1_skipn (T : Type) (l : list T) (n : nat) (a : T) :
  nth_error l n = Some a -> firstn 1 (skipn n l) = [a].
Proof.
  revert l. induction n as [|n IH]; intros [|x l]; simpl; try discriminate.
  - now intros [= ->].
  - apply IH.
Qed.

(** *** One broadcast in a batch *)

Lemma broadcast_step (seqs : list FAssetData) (s : Sys O R) (m : nat) (r : R) (b : bool) :
  Num seqs <= INT32_MAX ->
  (1 <= m <= List.length seqs)%nat ->
  BatchAt seqs m (widget s) ->
  exists s' out m',
    handle (RenderingFinishedBroadcast r b) s = Some (tt, s') /\
    journal s' = journal s ++ out /\
    (m <= m' <= m + (if b then 1 else 0))%nat /\
    (m' <= List.length seqs)%nat /\
    RenderedSequences out = firstn (m' - m) (skipn m seqs) /\
    phase_after Started out = Some Started /\
    BatchAt seqs m' (widget s').
Proof.
  intros Hmax Hm [[r0 Hr] Hstate].
  assert (Hmax' : Num (SequencesToRender (widget s)) <= INT32_MAX).
  { destruct Hstate as [[-> _]|[-> _]]; [exact Hmax|unfold Num, INT32_MAX; simpl; lia]. }
  destruct (handle_broadcast_cases s r0 r b Hr Hmax')
    as (s' & out & Hrun & Hj & _ & Hr' & _ & Hcases).
  exists s', out.
  destruct Hcases as [Hnext|[Hlast|[Hidle|Hfail]]].
  - destruct Hnext as (-> & H0 & Hlt & a & Ha & Hout & Hseqs & Hidx).
    destruct Hstate as [[Hs Hi]|[Hs Hi]]; [|lia].
    rewrite Hs, Hi in *. unfold Num in Hlt.
    replace (Z.to_nat (Z.of_nat m - 1 + 1)) with m in Ha by lia.
    exists (S m). split; [exact Hrun|]. split; [exact Hj|].
    split; [lia|]. split; [lia|].
    replace (S m - m)%nat with 1%nat by lia.
    rewrite (firstn_1_skipn _ seqs m a Ha).
    simpl in Hout.
    destruct (fst (StartAnswer _ a r)); subst out; simpl;
      (split; [reflexivity|]); (split; [reflexivity|]);
      (split; [exact Hr'|]); [left|right]; split; auto; lia.
  - destruct Hlast as (-> & _ & _ & -> & Hseqs & Hidx).
    exists m. split; [exact Hrun|]. split; [exact Hj|].
    split; [lia|]. split; [lia|].
    replace (m - m)%nat with 0%nat by lia.
    split; [reflexivity|]. split; [reflexivity|]. split; [exact Hr'|]. right. auto.
  - destruct Hidle as (-> & _ & -> & Hseqs & Hidx).
    exists m. split; [exact Hrun|]. split; [exact Hj|].
    split; [lia|]. split; [lia|].
    replace (m - m)%nat with 0%nat by lia.
    split; [reflexivity|]. split; [reflexivity|]. split; [exact Hr'|].
    rewrite Hseqs, Hidx. exact Hstate.
  - destruct Hfail as (-> & [name ->] & Hseqs & Hidx).
    exists m. split; [exact Hrun|]. split; [exact Hj|].
    split; [lia|]. split; [lia|].
    replace (m - m)%nat with 0%nat by lia.
    split; [reflexivity|]. split; [reflexivity|]. split; [exact Hr'|]. right. auto.
Qed.

(** *** Broadcasts after the start of a batch *)

Lemma broadcasts_run (seqs : list FAssetData) (es : list (Event R)) :
  Num seqs <= INT32_MAX ->
  forallb is_broadcast es = true ->
  forall (s : Sys O R) (m : nat),
    (1 <= m <= List.length seqs)%nat ->
    BatchAt seqs m (widget s) ->
    exists s' out m',
      run es s = Some (tt, s') /\
      journal s' = journal s ++ out /\
      (m <= m' <= m + successes es)%nat /\
      (m' <= List.length seqs)%nat /\
      RenderedSequences out = firstn (m' - m) (skipn m seqs) /\
      phase_after Started out = Some Started /\
      BatchAt seqs m' (widget s').
Proof.
  intros Hmax. induction es as [|e es IH]; intros Hes s m Hm Hbatch.
  - exists s, [], m. simpl. rewrite app_nil_r.
    replace (m - m)%nat with 0%nat by lia.
    split; [reflexivity|]. split; [reflexivity|].
    split; [unfold successes; simpl; lia|]. split; [lia|].
    split; [reflexivity|]. split; [reflexivity|]. exact Hbatch.
  - simpl in Hes. apply andb_true_iff in Hes. destruct Hes as [He Hes].
    destruct e as [|r b]; [discriminate|].
    destruct (broadcast_step seqs s m r b Hmax Hm Hbatch)
      as (s1 & out1 & m1 & Hrun1 & Hj1 & Hm1 & Hlen1 & Hseq1 & Hph1 & Hbatch1).
    destruct (IH Hes s1 m1 ltac:(lia) Hbatch1)
      as (s2 & out2 & m2 & Hrun2 & Hj2 & Hm2 & Hlen2 & Hseq2 & Hph2 & Hbatch2).
    exists s2, (out1 ++ out2), m2.
    split. { cbn [run]. unfold bind at 1. rewrite Hrun1. exact Hrun2. }
    split. { rewrite Hj2, Hj1. now rewrite app_assoc. }
    split. { unfold successes in *. simpl. destruct b; simpl; lia. }
    split; [exact Hlen2|].
    split.
    { rewrite RenderedSequences_app, Hseq1, Hseq2.
      replace (m2 - m)%nat with ((m1 - m) + (m2 - m1))%nat by lia.
      rewrite firstn_skipn_add. f_equal. rewrite skipn_skipn.
      replace (m1 - m + m)%nat with m1 by lia. reflexivity. }
    split; [|exact Hbatch2].
    rewrite phase_after_app, Hph1. exact Hph2.
Qed.

Lemma enabled_has_renderer (w : FWidgetManager O R) :
  GetIsRenderImagesEnabled w = true ->
  exists r, SequenceRenderer w = Some r /\ IsRendering r = false.
Proof.
  unfold GetIsRenderImagesEnabled. intros H.
  apply andb_true_iff in H. destruct H as [_ H].
  destruct (SequenceRenderer w) as [r|]; [|discriminate].
  exists r. split; [reflexivity|]. now apply negb_true_iff.
Qed.

(** Which sequence a broadcast starts. *)
Lemma broadcast_starts_next (s : Sys O R) (r0 r : R) (b : bool) :
  SequenceRenderer (widget s) = Some r0 ->
  Num (SequencesToRender (widget s)) <= INT32_MAX ->
  exists s' out,
    handle (RenderingFinishedBroadcast r b) s = Some (tt, s') /\
    journal s' = journal s ++ out /\
    RenderedSequences out = (if b then NextSequence (widget s) else []).
Proof.
  intros Hr Hmax.
  destruct (handle_broadcast_cases s r0 r b Hr Hmax)
    as (s' & out & Hrun & Hj & _ & _ & _ & Hcases).
  exists s', out. split; [exact Hrun|]. split; [exact Hj|].
  unfold NextSequence.
  destruct Hcases as [Hnext|[Hlast|[Hidle|Hfail]]].
  - destruct Hnext as (-> & H0 & Hlt & a & Ha & Hout & _).
    replace (0 <=? CurrentSequenceIndex (widget s)) with true by lia.
    rewrite (SequenceAt_nth _ _ a) by (first [lia | exact Ha]).
    simpl in Hout. subst out.
    destruct (fst (StartAnswer _ a r)); reflexivity.
  - destruct Hlast as (-> & H0 & Hn & -> & _).
    replace (0 <=? CurrentSequenceIndex (widget s)) with true by lia.
    rewrite SequenceAt_beyond by lia. reflexivity.
  - destruct Hidle as (-> & Hout & -> & _).
    destruct (0 <=? CurrentSequenceIndex (widget s)) eqn:E; [|reflexivity].
    rewrite SequenceAt_beyond by lia. reflexivity.
  - destruct Hfail as (-> & [name ->] & _). reflexivity.
Qed.

(** *** A click and the broadcasts that follow *)

Lemma click_starts_batch (s : Sys O R) (p : FString) (seqs : list FAssetData) :
  GetIsRenderImagesEnabled (widget s) = true ->
  TryConvertFilenameToLongPackageName (SelectedSequencesFolder (widget s)) = Some p ->
  seqs = filter IsLevelSequence (GetAssetsByPath (MkFName p) false) ->
  seqs <> [] ->
  exists s' out,
    handle RenderImagesButtonClicked s = Some (tt, s') /\
    journal s' = journal s ++ out /\
    RenderedSequences out = firstn 1 seqs /\
    phase_after NothingStarted out = Some Started /\
    BatchAt seqs 1 (widget s').
Proof.
  intros Hen Hp Hseqs Hne.
  destruct (enabled_has_renderer _ Hen) as (r & Hr & _).
  destruct seqs as [|a rest]; [congruence|].
  destruct (OnRenderImagesClicked_batch s p a rest r Hp (eq_sym Hseqs) Hr)
    as (A & saved & Hquiet & Hrun).
  unfold handle, ClickRenderImages. unfold bind at 1, this at 1. rewrite Hen.
  unfold bind at 1. rewrite Hrun. unfold ret. cbv zeta.
  destruct (fst (StartAnswer _ a r));
    (eexists; eexists; split; [reflexivity|]); cbn [journal widget];
    (split; [reflexivity|]).
  - rewrite RenderedSequences_app, (RenderedSequences_quiet _ Hquiet).
    rewrite phase_after_app. split; [reflexivity|].
    split; [exact (phase_after_quiet _ _ Hquiet)|].
    split; [eexists; reflexivity|]. left. split; reflexivity.
  - rewrite app_assoc, RenderedSequences_app, (RenderedSequences_quiet _ Hquiet).
    rewrite phase_after_app. split; [reflexivity|].
    split; [exact (phase_after_quiet _ _ Hquiet)|].
    split; [eexists; reflexivity|]. right. split; reflexivity.
Qed.

Lemma batch_run (s : Sys O R) (p : FString) (seqs : list FAssetData)
    (es : list (Event R)) :
  GetIsRenderImagesEnabled (widget s) = true ->
  TryConvertFilenameToLongPackageName (SelectedSequencesFolder (widget s)) = Some p ->
  seqs = filter IsLevelSequence (GetAssetsByPath (MkFName p) false) ->
  seqs <> [] ->
  Num seqs <= INT32_MAX ->
  forallb is_broadcast es = true ->
  exists s' out m,
    run (RenderImagesButtonClicked :: es) s = Some (tt, s') /\
    journal s' = journal s ++ out /\
    (1 <= m <= 1 + successes es)%nat /\
    (m <= List.length seqs)%nat /\
    RenderedSequences out = firstn m seqs /\
    phase_after NothingStarted out = Some Started /\
    BatchAt seqs m (widget s').
Proof.
  intros Hen Hp Hseqs Hne Hmax Hes.
  destruct (click_starts_batch s p seqs Hen Hp Hseqs Hne)
    as (s1 & out1 & Hrun1 & Hj1 & Hseq1 & Hph1 & Hbatch1).
  assert (Hlen : (1 <= 1 <= List.length seqs)%nat).
  { destruct seqs; [congruence|simpl; lia]. }
  destruct (broadcasts_run seqs es Hmax Hes s1 1%nat Hlen Hbatch1)
    as (s2 & out2 & m & Hrun2 & Hj2 & Hm & Hlen2 & Hseq2 & Hph2 & Hbatch2).
  exists s2, (out1 ++ out2), m.
  split. { cbn [run]. unfold bind at 1. rewrite Hrun1. exact Hrun2. }
  split. { rewrite Hj2, Hj1. now rewrite app_assoc. }
  split; [lia|]. split; [exact Hlen2|].
  split.
  { rewrite RenderedSequences_app, Hseq1, Hseq2.
    replace m with (1 + (m - 1))%nat at 2 by lia.
    now rewrite firstn_skipn_add. }
  split; [|exact Hbatch2].
  rewrite phase_after_app, Hph1. exact Hph2.
Qed.

(** After a reset, broadcasts start nothing. *)
Lemma reset_stays_reset (es : list (Event R)) :
  forallb is_broadcast es = true ->
  forall (s : Sys O R) (r0 : R),
    SequenceRenderer (widget s) = Some r0 ->
    SequencesToRender (widget s) = [] ->
    CurrentSequenceIndex (widget s) = -1 ->
    exists s' out,
      run es s = Some (tt, s') /\
      journal s' = journal s ++ out /\
      RenderedSequences out = [] /\
      SequencesToRender (widget s') = [] /\
      CurrentSequenceIndex (widget s') = -1.
Proof.
  induction es as [|e es IH]; intros Hes s r0 Hr Hs Hi.
  - exists s, []. rewrite app_nil_r. repeat split; assumption.
  - simpl in Hes. apply andb_true_iff in Hes. destruct Hes as [He Hes].
    destruct e as [|r b]; [discriminate|].
    assert (Hmax : Num (SequencesToRender (widget s)) <= INT32_MAX).
    { rewrite Hs. unfold Num, INT32_MAX. simpl. lia. }
    destruct (handle_broadcast_cases s r0 r b Hr Hmax)
      as (s1 & out1 & Hrun1 & Hj1 & _ & [r1 Hr1] & _ & Hcases).
    assert (H1 : RenderedSequences out1 = [] /\
                 SequencesToRender (widget s1) = [] /\
                 CurrentSequenceIndex (widget s1) = -1).
    { destruct Hcases as [Hnext|[Hlast|[Hidle|Hfail]]].
      - destruct Hnext as (_ & H0 & _). lia.
      - destruct Hlast as (_ & H0 & _). lia.
      - destruct Hidle as (_ & _ & -> & Hs1 & Hi1).
        split; [reflexivity|]. split; congruence.
      - destruct Hfail as (_ & [name ->] & Hs1 & Hi1).
        split; [reflexivity|]. split; assumption. }
    destruct H1 as (Hseq1 & Hs1 & Hi1).
    destruct (IH Hes s1 r1 Hr1 Hs1 Hi1) as (s2 & out2 & Hrun2 & Hj2 & Hseq2 & Hs2 & Hi2).
    exists s2, (out1 ++ out2).
    split. { cbn [run]. unfold bind at 1. rewrite Hrun1. exact Hrun2. }
    split. { rewrite Hj2, Hj1. now rewrite app_assoc. }
    split. { now rewrite RenderedSequences_app, Hseq1, Hseq2. }
    split; assumption.
Qed.

Lemma calls_of_quiet (j : list (Effect O)) :
  forallb is_quiet j = true -> filter is_RenderSequence j = [].
Proof.
  induction j as [|e j IH]; simpl; [reflexivity|].
  intros H. apply andb_true_iff in H. destruct H as [He Hj].
  unfold is_quiet in He. apply andb_true_iff in He. destruct He as [He _].
  apply negb_true_iff in He. rewrite He. exact (IH Hj).
Qed.

(** When sequences are found, the click handler goes on from the start of
    the batch over them. *)
Lemma OnRenderImagesClicked_goes_on (s : Sys O R) (p : FString) :
  let seqs := filter IsLevelSequence (GetAssetsByPath (MkFName p) false) in
  TryConvertFilenameToLongPackageName (SelectedSequencesFolder (widget s)) = Some p ->
  seqs <> [] ->
  OnRenderImagesClicked s =
    (RenderCurrentSequence ;; SaveWidgetOptionStates ;; ret Handled)
      (with_widget (batch_start seqs (widget s)) s).
Proof.
  open_state s. intros seqs0 Hp Hne. subst seqs0.
  cbv [OnRenderImagesClicked bind assign this emit ret]. fields.
  rewrite Hp. crunch. rewrite queue_loop_is_filter. cbn [app].
  destruct (filter IsLevelSequence (GetAssetsByPath (MkFName p) false)) as [|a rest];
    [congruence|].
  replace (Num (a :: rest) =? 0) with false by (unfold Num; simpl; lia).
  reflexivity.
Qed.

(** *** Forced collections *)

Lemma collections_of_quiet (j : list (Effect O)) :
  forallb is_quiet j = true -> filter is_ForceGarbageCollection j = [].
Proof.
  induction j as [|e j IH]; simpl; [reflexivity|].
  intros H. apply andb_true_iff in H. destruct H as [He Hj].
  unfold is_quiet in He. apply andb_true_iff in He. destruct He as [_ He].
  apply negb_true_iff in He. rewrite He. exact (IH Hj).
Qed.

(** What a broadcast forces: one full collection in front of the one
    sequence it starts, after the log line that announces it, and none when
    it starts no sequence. *)
Lemma broadcast_collects_before_start (s : Sys O R) (r0 r : R) (b : bool) :
  SequenceRenderer (widget s) = Some r0 ->
  Num (SequencesToRender (widget s)) <= INT32_MAX ->
  exists s' out,
    handle (RenderingFinishedBroadcast r b) s = Some (tt, s') /\
    journal s' = journal s ++ out /\
    (exists r', SequenceRenderer (widget s') = Some r') /\
    Num (SequencesToRender (widget s')) <= INT32_MAX /\
    filter is_ForceGarbageCollection out =
      repeat (ForceGarbageCollection true) (List.length (RenderedSequences out)) /\
    match (if b then NextSequence (widget s) else []) with
    | a :: _ =>
        exists pre post,
          out = pre ++ ForceGarbageCollection true :: post /\
          forallb is_quiet pre = true /\
          RenderedSequences post = [a] /\
          filter is_ForceGarbageCollection post = []
    | [] => forallb is_quiet out = true
    end.
Proof.
  intros Hr Hmax.
  destruct (handle_broadcast_cases s r0 r b Hr Hmax)
    as (s' & out & Hrun & Hj & _ & Hr' & _ & Hcases).
  exists s', out. split; [exact Hrun|]. split; [exact Hj|]. split; [exact Hr'|].
  unfold NextSequence.
  destruct Hcases as [Hnext|[Hlast|[Hidle|Hfail]]].
  - destruct Hnext as (-> & H0 & Hlt & a & Ha & Hout & Hseqs & _).
    replace (0 <=? CurrentSequenceIndex (widget s)) with true by lia.
    rewrite (SequenceAt_nth _ _ a) by (first [lia | exact Ha]).
    simpl in Hout, Hseqs. subst out. rewrite Hseqs.
    destruct (fst (StartAnswer _ a r)).
    + split; [exact Hmax|]. split; [reflexivity|].
      eexists [_]. eexists. split; [reflexivity|].
      split; [reflexivity|]. split; reflexivity.
    + split; [unfold Num, INT32_MAX; simpl; lia|]. split; [reflexivity|].
      eexists [_]. eexists. split; [reflexivity|].
      split; [reflexivity|]. split; reflexivity.
  - destruct Hlast as (-> & H0 & Hn & -> & -> & _).
    replace (0 <=? CurrentSequenceIndex (widget s)) with true by lia.
    rewrite SequenceAt_beyond by lia.
    split; [unfold Num, INT32_MAX; simpl; lia|]. split; reflexivity.
  - destruct Hidle as (-> & Hout & -> & -> & _).
    split; [exact Hmax|]. split; [reflexivity|].
    destruct (0 <=? CurrentSequenceIndex (widget s)) eqn:E; [|reflexivity].
    rewrite SequenceAt_beyond by lia. reflexivity.
  - destruct Hfail as (-> & [name ->] & -> & _).
    split; [unfold Num, INT32_MAX; simpl; lia|]. split; reflexivity.
Qed.

(** Over any broadcasts: as many full collections as sequences started. *)
Lemma broadcasts_collect_per_start (es : list (Event R)) :
  forallb is_broadcast es = true ->
  forall (s : Sys O R) (r0 : R),
    SequenceRenderer (widget s) = Some r0 ->
    Num (SequencesToRender (widget s)) <= INT32_MAX ->
    exists s' out,
      run es s = Some (tt, s') /\
      journal s' = journal s ++ out /\
      filter is_ForceGarbageCollection out =
        repeat (ForceGarbageCollection true) (List.length (RenderedSequences out)).
Proof.
  induction es as [|e es IH]; intros Hes s r0 Hr Hmax.
  - exists s, []. simpl. rewrite app_nil_r.
    split; [reflexivity|]. split; reflexivity.
  - simpl in Hes. apply andb_true_iff in Hes. destruct Hes as [He Hes].
    destruct e as [|r b]; [discriminate|].
    destruct (broadcast_collects_before_start s r0 r b Hr Hmax)
      as (s1 & out1 & Hrun1 & Hj1 & [r1 Hr1] & Hmax1 & Hgc1 & _).
    destruct (IH Hes s1 r1 Hr1 Hmax1) as (s2 & out2 & Hrun2 & Hj2 & Hgc2).
    exists s2, (out1 ++ out2).
    split. { cbn [run]. unfold bind at 1. rewrite Hrun1. exact Hrun2. }
    split. { rewrite Hj2, Hj1. now rewrite app_assoc. }
    rewrite filter_app, Hgc1, Hgc2, RenderedSequences_app, length_app.
    symmetry. apply repeat_app.
Qed.

(** The click itself forces no collection. *)
Lemma click_collects_nothing (s : Sys O R) (p : FString) (seqs : list FAssetData) :
  GetIsRenderImagesEnabled (widget s) = true ->
  TryConvertFilenameToLongPackageName (SelectedSequencesFolder (widget s)) = Some p ->
  seqs = filter IsLevelSequence (GetAssetsByPath (MkFName p) false) ->
  seqs <> [] ->
  exists s' out,
    handle RenderImagesButtonClicked s = Some (tt, s') /\
    journal s' = journal s ++ out /\
    filter is_ForceGarbageCollection out = [].
Proof.
  intros Hen Hp Hseqs Hne.
  destruct (enabled_has_renderer _ Hen) as (r & Hr & _).
  destruct seqs as [|a rest]; [congruence|].
  destruct (OnRenderImagesClicked_batch s p a rest r Hp (eq_sym Hseqs) Hr)
    as (A & saved & Hquiet & Hrun).
  unfold handle, ClickRenderImages. unfold bind at 1, this at 1. rewrite Hen.
  unfold bind at 1. rewrite Hrun. unfold ret. cbv zeta.
  destruct (fst (StartAnswer _ a r));
    (eexists; eexists; split; [reflexivity|]); cbn [journal widget];
    (split; [reflexivity|]).
  - rewrite filter_app, (collections_of_quiet _ Hquiet). reflexivity.
  - rewrite !filter_app, (collections_of_quiet _ Hquiet). reflexivity.
Qed.

(** A click and the broadcasts that follow: one full collection fewer than
    sequences started. *)
Lemma batch_collects (s : Sys O R) (p : FString) (seqs : list FAssetData)
    (es : list (Event R)) :
  GetIsRenderImagesEnabled (widget s) = true ->
  TryConvertFilenameToLongPackageName (SelectedSequencesFolder (widget s)) = Some p ->
  seqs = filter IsLevelSequence (GetAssetsByPath (MkFName p) false) ->
  seqs <> [] ->
  Num seqs <= INT32_MAX ->
  forallb is_broadcast es = true ->
  forall s' out,
    run (RenderImagesButtonClicked :: es) s = Some (tt, s') ->
    journal s' = journal s ++ out ->
    filter is_ForceGarbageCollection out =
      repeat (ForceGarbageCollection true) (List.length (RenderedSequences out) - 1).
Proof.
  intros Hen Hp Hseqs Hne Hmax Hes s' out Hrun Hj.
  destruct (click_starts_batch s p seqs Hen Hp Hseqs Hne)
    as (s1 & out1 & Hrun1 & Hj1 & Hseq1 & _ & [[r1 Hr1] Hstate1]).
  destruct (click_collects_nothing s p seqs Hen Hp Hseqs Hne)
    as (s1' & out1' & Hrun1' & Hj1' & Hgc1).
  rewrite Hrun1 in Hrun1'. injection Hrun1' as <-.
  rewrite Hj1 in Hj1'. apply app_inv_head in Hj1'. subst out1'.
  assert (Hmax1 : Num (SequencesToRender (widget s1)) <= INT32_MAX).
  { destruct Hstate1 as [[-> _]|[-> _]]; [exact Hmax|unfold Num, INT32_MAX; simpl; lia]. }
  destruct (broadcasts_collect_per_start es Hes s1 r1 Hr1 Hmax1)
    as (s2 & out2 & Hrun2 & Hj2 & Hgc2).
  cbn [run] in Hrun. unfold bind at 1 in Hrun. rewrite Hrun1 in Hrun.
  rewrite Hrun2 in Hrun. injection Hrun as <-.
  rewrite Hj2, Hj1, <- app_assoc in Hj. apply app_inv_head in Hj. subst out.
  rewrite filter_app, Hgc1, Hgc2, RenderedSequences_app, length_app, Hseq1.
  destruct seqs as [|a rest]; [congruence|]. simpl.
  now rewrite Nat.sub_0_r.
Qed.

End BatchProofs.

Section Claims.
Context {O R : Type}.
Context `{Targets : RendererTargetOptions O}.
Context `{Renderer : SequenceRendererAPI O R}.
Context `{Host : EditorHost}.

(** C1. A click on Render Images that discovers the sequences [seqs], at
    least one, followed by any broadcasts of [OnRenderingFinished]: the
    sequences handed to [RenderSequence] are the first [m] of [seqs], in that
    order, with [m] at least one and at most one more than the number of
    broadcasts that report success; the widget manager is then at index
    [m - 1] of [seqs], or reset; and the next broadcast starts the sequence
    after the current index when it reports success, and nothing when it
    reports failure. *)
Theorem batch_renders_sequences_in_index_order
    (s : Sys O R) (p : FString) (seqs : list FAssetData) (es : list (Event R)) :
  GetIsRenderImagesEnabled (widget s) = true ->
  TryConvertFilenameToLongPackageName (SelectedSequencesFolder (widget s)) = Some p ->
  seqs = filter IsLevelSequence (GetAssetsByPath (MkFName p) false) ->
  seqs <> [] ->
  Num seqs <= INT32_MAX ->
  forallb is_broadcast es = true ->
  exists s' out m,
    run (RenderImagesButtonClicked :: es) s = Some (tt, s') /\
    journal s' = journal s ++ out /\
    RenderedSequences out = firstn m seqs /\
    (1 <= m <= 1 + successes es)%nat /\
    (SequencesToRender (widget s') = seqs /\
     CurrentSequenceIndex (widget s') = Z.of_nat m - 1 \/
     SequencesToRender (widget s') = [] /\ CurrentSequenceIndex (widget s') = -1) /\
    (forall r b, exists s'' out',
       handle (RenderingFinishedBroadcast r b) s' = Some (tt, s'') /\
       journal s'' = journal s' ++ out' /\
       RenderedSequences out' = (if b then NextSequence (widget s') else [])).
Proof.
  intros Hen Hp Hseqs Hne Hmax Hes.
  destruct (batch_run s p seqs es Hen Hp Hseqs Hne Hmax Hes)
    as (s' & out & m & Hrun & Hj & Hm & _ & Hseq & _ & [[r0 Hr] Hstate]).
  exists s', out, m.
  split; [exact Hrun|]. split; [exact Hj|]. split; [exact Hseq|].
  split; [exact Hm|]. split; [exact Hstate|].
  intros r b. apply (broadcast_starts_next s' r0 r b Hr).
  destruct Hstate as [[-> _]|[-> _]]; [exact Hmax|].
  unfold Num, INT32_MAX. simpl. lia.
Qed.

(** C2. With a renderer in place: when [RenderSequence] refuses to start the
    current sequence, [RenderCurrentSequence] ends with a dialog whose text
    is the error message of the renderer and resets the batch; when
    [OnRenderingFinished] reports failure, a dialog whose text contains the
    error message of the renderer is shown and the batch is reset; and once
    the batch is reset, no broadcast starts a sequence. *)
Theorem failure_aborts_the_batch
    (s : Sys O R) (r : R) (a : FAssetData) (es : list (Event R)) :
  SequenceRenderer (widget s) = Some r ->
  (0 <= CurrentSequenceIndex (widget s) < Num (SequencesToRender (widget s)) ->
   nth_error (SequencesToRender (widget s))
     (Z.to_nat (CurrentSequenceIndex (widget s))) = Some a ->
   fst (StartAnswer (widget s) a r) = false ->
   exists s' out,
     RenderCurrentSequence s = Some (tt, s') /\
     journal s' =
       journal s ++ out ++
       [FMessageDialog_Open
          (FText_FromString (GetErrorMessage (snd (StartAnswer (widget s) a r))))
          (LOCTEXT "StartRenderingErrorMessageBoxTitle" "Could not start rendering")] /\
     SequencesToRender (widget s') = [] /\
     CurrentSequenceIndex (widget s') = -1) /\
  (exists s' before,
     OnRenderingFinished false s = Some (tt, s') /\
     journal s' =
       journal s ++
       [FMessageDialog_Open
          (FText_FromString (before ++ GetErrorMessage r)%string)
          (LOCTEXT "RenderingErrorMessageBoxTitle" "Rendering failed")] /\
     SequencesToRender (widget s') = [] /\
     CurrentSequenceIndex (widget s') = -1) /\
  (SequencesToRender (widget s) = [] ->
   CurrentSequenceIndex (widget s) = -1 ->
   forallb is_broadcast es = true ->
   exists s' out,
     run es s = Some (tt, s') /\
     journal s' = journal s ++ out /\
     RenderedSequences out = [] /\
     SequencesToRender (widget s') = [] /\
     CurrentSequenceIndex (widget s') = -1).
Proof.
  intros Hr. split; [|split].
  - intros Hi Ha Hrefused.
    rewrite (RenderCurrentSequence_valid s a r Hi Ha Hr). cbv zeta.
    rewrite Hrefused.
    eexists. exists (StartOf (widget s) a).
    split; [reflexivity|]. repeat split.
  - destruct (OnRenderingFinished_failure s r Hr) as [name Hfail].
    rewrite Hfail. eexists.
    exists ("Failed on sequence: " ++ name ++ LF ++ LF ++ "Error: ")%string.
    split; [reflexivity|]. split; [|split; reflexivity].
    cbn [journal]. unfold RenderingFailedDialog.
    rewrite !string_app_assoc. reflexivity.
  - intros Hs Hi Hes. exact (reset_stays_reset es Hes s r Hr Hs Hi).
Qed.

(** C3. A click on Render Images that discovers the sequences [seqs], at
    least one, followed by any broadcasts of [OnRenderingFinished], starts
    the first [m] of [seqs] and forces exactly [m - 1] garbage collections,
    each a full purge: in its effects a garbage collection is forced between
    any two calls of [RenderSequence], and every forced garbage collection is
    followed by a call of [RenderSequence].  And the next broadcast, when it
    reports success and a sequence remains after the current index, forces a
    garbage collection, after the line that announces it and before the one
    call of [RenderSequence] that starts that sequence; when it reports
    failure, or no sequence remains, it forces none and starts none. *)
Theorem garbage_is_collected_between_sequences
    (s : Sys O R) (p : FString) (seqs : list FAssetData) (es : list (Event R)) :
  GetIsRenderImagesEnabled (widget s) = true ->
  TryConvertFilenameToLongPackageName (SelectedSequencesFolder (widget s)) = Some p ->
  seqs = filter IsLevelSequence (GetAssetsByPath (MkFName p) false) ->
  seqs <> [] ->
  Num seqs <= INT32_MAX ->
  forallb is_broadcast es = true ->
  exists s' out m,
    run (RenderImagesButtonClicked :: es) s = Some (tt, s') /\
    journal s' = journal s ++ out /\
    (forall pre c1 mid c2 post,
       out = pre ++ c1 :: mid ++ c2 :: post ->
       is_RenderSequence c1 = true -> is_RenderSequence c2 = true ->
       exists bFullPurge, In (ForceGarbageCollection bFullPurge) mid) /\
    (forall pre bFullPurge post,
       out = pre ++ ForceGarbageCollection bFullPurge :: post ->
       RenderedSequences post <> []) /\
    (1 <= m <= List.length seqs)%nat /\
    RenderedSequences out = firstn m seqs /\
    filter is_ForceGarbageCollection out =
      repeat (ForceGarbageCollection true) (m - 1) /\
    (SequencesToRender (widget s') = seqs /\
     CurrentSequenceIndex (widget s') = Z.of_nat m - 1 \/
     SequencesToRender (widget s') = [] /\ CurrentSequenceIndex (widget s') = -1) /\
    (forall r b, exists s'' out',
       handle (RenderingFinishedBroadcast r b) s' = Some (tt, s'') /\
       journal s'' = journal s' ++ out' /\
       match (if b then NextSequence (widget s') else []) with
       | a :: _ =>
           exists pre post,
             out' = pre ++ ForceGarbageCollection true :: post /\
             forallb is_quiet pre = true /\
             RenderedSequences post = [a] /\
             filter is_ForceGarbageCollection post = []
       | [] => forallb is_quiet out' = true
       end).
Proof.
  intros Hen Hp Hseqs Hne Hmax Hes.
  destruct (batch_run s p seqs es Hen Hp Hseqs Hne Hmax Hes)
    as (s' & out & m & Hrun & Hj & Hm & Hlen & Hseq & Hphase & [[r0 Hr] Hstate]).
  pose proof (batch_collects s p seqs es Hen Hp Hseqs Hne Hmax Hes s' out Hrun Hj)
    as Hgc.
  exists s', out, m.
  split; [exact Hrun|]. split; [exact Hj|]. split.
  { intros pre c1 mid c2 post -> H1 H2.
    exact (phase_collects_between _ _ pre mid post c1 c2 Hphase H1 H2). }
  split.
  { intros pre f post ->.
    apply (phase_starts_after_collection _ _ pre post f Hphase). discriminate. }
  split; [lia|]. split; [exact Hseq|]. split.
  { rewrite Hgc, Hseq, firstn_length_le by exact Hlen. reflexivity. }
  split; [exact Hstate|].
  intros r b.
  assert (Hmax' : Num (SequencesToRender (widget s')) <= INT32_MAX).
  { destruct Hstate as [[-> _]|[-> _]]; [exact Hmax|unfold Num, INT32_MAX; simpl; lia]. }
  destruct (broadcast_collects_before_start s' r0 r b Hr Hmax')
    as (s'' & out' & Hrun' & Hj' & _ & _ & _ & Hnext).
  exists s'', out'. split; [exact Hrun'|]. split; [exact Hj'|]. exact Hnext.
Qed.

(** C5. A click on Render Images in a folder that has a package path: the
    level sequences of the folder are those assets that the asset registry
    returns for the path, not recursively, whose class name is LevelSequence,
    in the order of the registry.  When there are some, the handler goes on
    from the state whose queue is exactly these, at index 0.  It starts the
    first of them and nothing else, and leaves the queue as it is unless the
    renderer refuses to start, in which case the queue is emptied again. *)
Theorem queue_is_the_level_sequences_of_the_folder
    (s : Sys O R) (p : FString) (r : R) :
  let seqs := filter IsLevelSequence (GetAssetsByPath (MkFName p) false) in
  TryConvertFilenameToLongPackageName (SelectedSequencesFolder (widget s)) = Some p ->
  SequenceRenderer (widget s) = Some r ->
  (seqs <> [] ->
   OnRenderImagesClicked s =
     (RenderCurrentSequence ;; SaveWidgetOptionStates ;; ret Handled)
       (with_widget (batch_start seqs (widget s)) s)) /\
  SequencesToRender (batch_start seqs (widget s)) = seqs /\
  CurrentSequenceIndex (batch_start seqs (widget s)) = 0 /\
  exists s' out,
    OnRenderImagesClicked s = Some (Handled, s') /\
    journal s' = journal s ++ out /\
    RenderedSequences out = firstn 1 seqs /\
    SequencesToRender (widget s') =
      match seqs with
      | [] => []
      | a :: _ =>
          if fst (StartAnswer (batch_start seqs (widget s)) a r) then seqs else []
      end.
Proof.
  intros seqs Hp Hr.
  split; [exact (OnRenderImagesClicked_goes_on s p Hp)|].
  split; [reflexivity|]. split; [reflexivity|].
  destruct seqs as [|a rest] eqn:Hseqs.
  - rewrite (OnRenderImagesClicked_no_sequences s p Hp Hseqs).
    eexists. eexists. split; [reflexivity|]. repeat split.
  - destruct (OnRenderImagesClicked_batch s p a rest r Hp Hseqs Hr)
      as (A & saved & Hquiet & Hrun).
    rewrite Hrun. cbv zeta.
    destruct (fst (StartAnswer _ a r));
      (eexists; eexists; split; [reflexivity|]); cbn [journal widget];
      (split; [reflexivity|]).
    + rewrite RenderedSequences_app, (RenderedSequences_quiet _ Hquiet).
      split; reflexivity.
    + rewrite app_assoc, RenderedSequences_app, (RenderedSequences_quiet _ Hquiet).
      split; reflexivity.
Qed.

(** C6. At a valid current index and with a renderer in place,
    [RenderCurrentSequence] calls [RenderSequence] exactly once, on the
    sequence at the current index, with the target options and the output
    image resolution of the panel, and with the directory obtained by
    appending the asset name of the sequence to the base output directory.
    The base output directory is the output directory at the click that
    starts the batch, whose first call uses it, and no broadcast changes
    it. *)
Theorem each_sequence_is_rendered_by_one_call
    (s : Sys O R) (a : FAssetData) (r : R)
    (s0 : Sys O R) (p : FString) (a0 : FAssetData) (rest : list FAssetData) (r0 : R)
    (r1 : R) (b : bool) :
  (0 <= CurrentSequenceIndex (widget s) < Num (SequencesToRender (widget s)) ->
   nth_error (SequencesToRender (widget s))
     (Z.to_nat (CurrentSequenceIndex (widget s))) = Some a ->
   SequenceRenderer (widget s) = Some r ->
   exists s' out,
     RenderCurrentSequence s = Some (tt, s') /\
     journal s' = journal s ++ out /\
     filter is_RenderSequence out =
       [Call_RenderSequence a
          (SequenceRendererTargets (widget s))
          (OutputImageResolution (widget s))
          (PathAppend (BaseOutputDirectory (widget s))
             (FName_ToString (AssetName a)))] /\
     BaseOutputDirectory (widget s') = BaseOutputDirectory (widget s)) /\
  (TryConvertFilenameToLongPackageName (SelectedSequencesFolder (widget s0)) = Some p ->
   filter IsLevelSequence (GetAssetsByPath (MkFName p) false) = a0 :: rest ->
   SequenceRenderer (widget s0) = Some r0 ->
   exists s' out,
     OnRenderImagesClicked s0 = Some (Handled, s') /\
     journal s' = journal s0 ++ out /\
     filter is_RenderSequence out =
       [Call_RenderSequence a0
          (SequenceRendererTargets (widget s0))
          (OutputImageResolution (widget s0))
          (PathAppend (OutputDirectory (widget s0))
             (FName_ToString (AssetName a0)))] /\
     BaseOutputDirectory (widget s') = OutputDirectory (widget s0)) /\
  (SequenceRenderer (widget s) = Some r ->
   Num (SequencesToRender (widget s)) <= INT32_MAX ->
   exists s',
     handle (RenderingFinishedBroadcast r1 b) s = Some (tt, s') /\
     BaseOutputDirectory (widget s') = BaseOutputDirectory (widget s)).
Proof.
  split; [|split].
  - intros Hi Ha Hr.
    rewrite (RenderCurrentSequence_valid s a r Hi Ha Hr). cbv zeta.
    destruct (fst (StartAnswer (widget s) a r));
      eexists; eexists; (split; [reflexivity|]); cbn [journal widget];
      (split; [reflexivity|]); split; reflexivity.
  - intros Hp Hseqs Hr.
    destruct (OnRenderImagesClicked_batch s0 p a0 rest r0 Hp Hseqs Hr)
      as (A & saved & Hquiet & Hrun).
    rewrite Hrun. cbv zeta.
    destruct (fst (StartAnswer _ a0 r0));
      eexists; eexists; (split; [reflexivity|]); cbn [journal widget];
      (split; [reflexivity|]).
    + rewrite filter_app, (calls_of_quiet _ Hquiet). split; reflexivity.
    + rewrite app_assoc, filter_app, (calls_of_quiet _ Hquiet). split; reflexivity.
  - intros Hr Hmax.
    destruct (handle_broadcast_cases s r r1 b Hr Hmax)
      as (s' & out & Hrun & _ & _ & _ & Hbase & _).
    exists s'. split; assumption.
Qed.

(** C7. When [OnRenderingFinished] reports success and the incremented
    index reaches the number of sequences, the Batch Rendering Complete
    dialog is shown with that number, and the batch is reset. *)
Theorem last_sequence_completes_the_batch (s : Sys O R) :
  0 <= CurrentSequenceIndex (widget s) ->
  CurrentSequenceIndex (widget s) + 1 = Num (SequencesToRender (widget s)) ->
  Num (SequencesToRender (widget s)) <= INT32_MAX ->
  exists s',
    OnRenderingFinished true s = Some (tt, s') /\
    journal s' =
      journal s ++
      [FMessageDialog_Open
         (FText_Format
            (LOCTEXT "BatchRenderingCompleteMessage"
               "Successfully rendered {0} sequences.")
            (FText_AsNumber (Num (SequencesToRender (widget s)))))
         (LOCTEXT "BatchRenderingCompleteTitle" "Batch Rendering Complete")] /\
    SequencesToRender (widget s') = [] /\
    CurrentSequenceIndex (widget s') = -1.
Proof.
  intros H0 Hlast Hmax.
  rewrite (OnRenderingFinished_last s H0 Hlast Hmax).
  eexists. split; [reflexivity|]. repeat split.
Qed.

(** C9. The Render Images button is enabled exactly when the sequences
    folder is not empty, some renderer target option is selected, there is a
    sequence renderer and it is not rendering; and a click while the renderer
    is rendering does nothing. *)
Theorem render_button_enabled_exactly_when_ready (s : Sys O R) :
  (GetIsRenderImagesEnabled (widget s) = true <->
   SelectedSequencesFolder (widget s) <> EmptyString /\
   AnyOptionSelected (SequenceRendererTargets (widget s)) = true /\
   exists r, SequenceRenderer (widget s) = Some r /\ IsRendering r = false) /\
  (forall r,
     SequenceRenderer (widget s) = Some r -> IsRendering r = true ->
     handle RenderImagesButtonClicked s = Some (tt, s)).
Proof.
  split.
  - unfold GetIsRenderImagesEnabled. rewrite !andb_true_iff, negb_true_iff.
    split.
    + intros [[Hf Ha] Hr]. split.
      * intros E. rewrite E in Hf. discriminate.
      * split; [exact Ha|].
        destruct (SequenceRenderer (widget s)) as [r|]; [|discriminate].
        exists r. split; [reflexivity|]. now apply negb_true_iff.
    + intros (Hf & Ha & r & Hr & Hidle). rewrite Hr, Hidle. repeat split; auto.
      destruct (SelectedSequencesFolder (widget s)); [congruence|reflexivity].
  - intros r Hr Hbusy. unfold handle, ClickRenderImages, bind, this, ret.
    unfold GetIsRenderImagesEnabled. rewrite Hr, Hbusy.
    rewrite andb_false_r. reflexivity.
Qed.

End Claims.

(** C8, amended. The targets that have a check box in the panel are the
    colour, depth, normal, optical flow and semantic images, each once.  The
    panel offers a sixth render target besides them: the custom post process
    material, which has no check box but a material picker.  Every one of the
    six has an output format combo box, so the panel offers every kind of
    render target there is. *)
Theorem panel_offers_five_check_boxes_and_the_custom_material :
  CheckBoxTargets PanelTargetWidgets =
    [COLOR_IMAGE; DEPTH_IMAGE; NORMAL_IMAGE; OPTICAL_FLOW_IMAGE; SEMANTIC_IMAGE] /\
  (forall t,
     In t (CheckBoxTargets PanelTargetWidgets) <->
     t = COLOR_IMAGE \/ t = DEPTH_IMAGE \/ t = NORMAL_IMAGE \/
     t = OPTICAL_FLOW_IMAGE \/ t = SEMANTIC_IMAGE) /\
  NoDup (CheckBoxTargets PanelTargetWidgets) /\
  ~ In CUSTOM_PP_MATERIAL (CheckBoxTargets PanelTargetWidgets) /\
  In SObjectPropertyEntryBox_Material PanelTargetWidgets /\
  OfferedTargets PanelTargetWidgets =
    CheckBoxTargets PanelTargetWidgets ++ [CUSTOM_PP_MATERIAL] /\
  OutputFormatTargets PanelTargetWidgets = OfferedTargets PanelTargetWidgets /\
  NoDup (OfferedTargets PanelTargetWidgets) /\
  (forall t, In t (OfferedTargets PanelTargetWidgets)).
Proof.
  assert (E : CheckBoxTargets PanelTargetWidgets =
              [COLOR_IMAGE; DEPTH_IMAGE; NORMAL_IMAGE; OPTICAL_FLOW_IMAGE;
               SEMANTIC_IMAGE]) by reflexivity.
  assert (F : OfferedTargets PanelTargetWidgets =
              [COLOR_IMAGE; DEPTH_IMAGE; NORMAL_IMAGE; OPTICAL_FLOW_IMAGE;
               SEMANTIC_IMAGE; CUSTOM_PP_MATERIAL]) by reflexivity.
  split; [exact E|]. rewrite F, E.
  split; [intros t; simpl; intuition congruence|].
  split; [repeat constructor; simpl; intuition discriminate|].
  split; [simpl; intuition discriminate|].
  split; [vm_compute; intuition|].
  split; [reflexivity|]. split; [reflexivity|].
  split; [repeat constructor; simpl; intuition discriminate|].
  intros t. destruct t; simpl; intuition.
Qed.

(** C8, as stated, fails: the render targets the panel offers are not exactly
    the five kinds of image, since the custom post process material is
    offered as well. *)
Lemma custom_material_target_is_offered_too :
  In CUSTOM_PP_MATERIAL (OfferedTargets PanelTargetWidgets) /\
  ~ (forall t,
       In t (OfferedTargets PanelTargetWidgets) <->
       In t [COLOR_IMAGE; DEPTH_IMAGE; NORMAL_IMAGE; OPTICAL_FLOW_IMAGE;
             SEMANTIC_IMAGE]).
Proof.
  assert (H : In CUSTOM_PP_MATERIAL (OfferedTargets PanelTargetWidgets)).
  { vm_compute. intuition. }
  split; [exact H|].
  intros Hfive. apply Hfive in H. simpl in H. intuition discriminate.
Qed.

(** ** The properties on the plain instances *)



Lemma sequences_folder_is_never_persisted_witness :
  exists s',
    LoadWidgetOptionStates sys_saved = Some (tt, s') /\
    SelectedSequencesFolder (widget s') = EmptyString /\
    OptionValuesOf (widget s') = OptionValuesIn asset0.
Proof.
  pose proof (sequences_folder_is_never_persisted sys_saved asset0 sys0
                "C:/Project/Content/Other") as H.
  specialize (H eq_refl).
  destruct H as [(s' & Hrun & Hfolder & Hvalues & _) _].
  exists s'. auto.
Defined.

Lemma batch_renders_sequences_in_index_order_witness :
  exists s' out m,
    run [RenderImagesButtonClicked; finished true; finished false] sys0 = Some (tt, s') /\
    journal s' = journal sys0 ++ out /\
    RenderedSequences out = firstn m [Intro; Chase; Outro] /\
    (1 <= m <= 2)%nat.
Proof.
  pose proof (batch_renders_sequences_in_index_order sys0 "/Game/Shots"
                [Intro; Chase; Outro] [finished true; finished false]) as H.
  specialize (H eq_refl eq_refl eq_refl ltac:(discriminate)
                ltac:(vm_compute; discriminate) eq_refl).
  destruct H as (s' & out & m & Hrun & Hj & Hseq & Hm & _).
  exists s', out, m. auto.
Defined.

Lemma failure_aborts_the_batch_witness :
  exists s' out,
    RenderCurrentSequence (sys_in_batch 1 64) = Some (tt, s') /\
    journal s' =
      journal (sys_in_batch 1 64) ++ out ++
      [FMessageDialog_Open (FText_FromString "Output width is too small")
         (LOCTEXT "StartRenderingErrorMessageBoxTitle" "Could not start rendering")] /\
    SequencesToRender (widget s') = [] /\
    CurrentSequenceIndex (widget s') = -1.
Proof.
  pose proof (failure_aborts_the_batch (sys_in_batch 1 64)
                {| bRendering := true; ErrorMessage := EmptyString |} Chase [finished true]) as H.
  specialize (H eq_refl). destruct H as [Hstart _].
  apply Hstart.
  - vm_compute. split; [discriminate|reflexivity].
  - reflexivity.
  - reflexivity.
Defined.

Lemma garbage_is_collected_between_sequences_witness :
  exists s' out,
    run [RenderImagesButtonClicked; finished true] sys0 = Some (tt, s') /\
    journal s' = journal sys0 ++ out /\
    RenderedSequences out = [Intro; Chase] /\
    filter is_ForceGarbageCollection out = [ForceGarbageCollection true] /\
    (forall pre c1 mid c2 post,
       out = pre ++ c1 :: mid ++ c2 :: post ->
       is_RenderSequence c1 = true -> is_RenderSequence c2 = true ->
       exists bFullPurge, In (ForceGarbageCollection bFullPurge) mid) /\
    (forall r, exists s'' out' pre post,
       handle (RenderingFinishedBroadcast r true) s' = Some (tt, s'') /\
       journal s'' = journal s' ++ out' /\
       out' = pre ++ ForceGarbageCollection true :: post /\
       forallb is_quiet pre = true /\
       RenderedSequences post = [Outro] /\
       filter is_ForceGarbageCollection post = []).
Proof.
  pose proof (garbage_is_collected_between_sequences sys0 "/Game/Shots"
                [Intro; Chase; Outro] [finished true]) as H.
  specialize (H eq_refl eq_refl eq_refl ltac:(discriminate)
                ltac:(vm_compute; discriminate) eq_refl).
  destruct H as (s' & out & m & Hrun & Hj & Hbetween & _ & Hm & Hseq & Hgc & _ & Hnext).
  exists s', out.
  split; [exact Hrun|]. split; [exact Hj|].
  pose proof Hrun as E. vm_compute in E. injection E as E. subst s'.
  vm_compute in Hj. subst out.
  vm_compute in Hseq.
  destruct m as [|[|[|m]]]; try discriminate Hseq.
  split; [reflexivity|]. split; [exact Hgc|]. split; [exact Hbetween|].
  intros r. destruct (Hnext r true) as (s'' & out' & Hrun' & Hj' & pre & post & Hout).
  exists s'', out', pre, post.
  split; [exact Hrun'|]. split; [exact Hj'|]. exact Hout.
Defined.

Lemma queue_is_the_level_sequences_of_the_folder_witness :
  exists s' out,
    OnRenderImagesClicked sys0 = Some (Handled, s') /\
    journal s' = journal sys0 ++ out /\
    RenderedSequences out = [Intro] /\
    SequencesToRender (widget s') = [Intro; Chase; Outro].
Proof.
  pose proof (queue_is_the_level_sequences_of_the_folder sys0 "/Game/Shots"
                renderer0) as H.
  specialize (H eq_refl eq_refl).
  destruct H as (_ & _ & _ & s' & out & Hrun & Hj & Hseq & Hqueue).
  exists s', out. split; [exact Hrun|]. split; [exact Hj|].
  split; [exact Hseq|exact Hqueue].
Defined.

Lemma each_sequence_is_rendered_by_one_call_witness :
  exists s' out,
    RenderCurrentSequence (sys_in_batch 1 1920) = Some (tt, s') /\
    journal s' = journal (sys_in_batch 1 1920) ++ out /\
    filter is_RenderSequence out =
      [Call_RenderSequence Chase targets0 {| X := 1920; Y := 1080 |} "D:/Out/Chase"] /\
    BaseOutputDirectory (widget s') = "D:/Out"%string.
Proof.
  destruct (each_sequence_is_rendered_by_one_call (sys_in_batch 1 1920) Chase
              {| bRendering := true; ErrorMessage := EmptyString |}
              sys0 "/Game/Shots" Intro [Chase; Outro] renderer0 renderer0 true)
    as [Hcall _].
  apply Hcall.
  - vm_compute. split; [discriminate|reflexivity].
  - reflexivity.
  - reflexivity.
Defined.

Lemma last_sequence_completes_the_batch_witness :
  exists s',
    OnRenderingFinished true (sys_in_batch 2 1920) = Some (tt, s') /\
    journal s' =
      journal (sys_in_batch 2 1920) ++
      [FMessageDialog_Open
         (FText_Format
            (LOCTEXT "BatchRenderingCompleteMessage"
               "Successfully rendered {0} sequences.")
            (FText_AsNumber 3))
         (LOCTEXT "BatchRenderingCompleteTitle" "Batch Rendering Complete")] /\
    SequencesToRender (widget s') = [] /\
    CurrentSequenceIndex (widget s') = -1.
Proof.
  apply (last_sequence_completes_the_batch (sys_in_batch 2 1920)).
  - vm_compute. discriminate.
  - reflexivity.
  - vm_compute. discriminate.
Defined.

Lemma render_button_enabled_exactly_when_ready_witness :
  handle RenderImagesButtonClicked (sys_in_batch 0 1920) =
    Some (tt, sys_in_batch 0 1920).
Proof.
  apply (proj2 (render_button_enabled_exactly_when_ready (sys_in_batch 0 1920))
           {| bRendering := true; ErrorMessage := EmptyString |}).
  - reflexivity.
  - reflexivity.
Defined.

(** A whole batch: the three shots are rendered in the order of the registry
    and the batch ends reset. *)
Example whole_batch_in_order :
  match run [RenderImagesButtonClicked; finished true; finished true; finished true] sys0 with
  | Some (_, s) =>
      RenderedSequences (journal s) = [Intro; Chase; Outro] /\
      SequencesToRender (widget s) = [] /\
      CurrentSequenceIndex (widget s) = -1
  | None => False
  end.
Proof. vm_compute. repeat split. Qed.

(** A failure after the first shot: nothing else is rendered, whatever is
    broadcast afterwards. *)
Example failed_batch_stops :
  match run [RenderImagesButtonClicked; finished false; finished true; finished true] sys0 with
  | Some (_, s) => RenderedSequences (journal s) = [Intro]
  | None => False
  end.
Proof. vm_compute. reflexivity. Qed.

(** The queue after a click holds the level sequences of the folder and
    leaves the material out. *)
Example click_discovers_level_sequences :
  match OnRenderImagesClicked sys0 with
  | Some (_, s) => SequencesToRender (widget s) = [Intro; Chase; Outro]
  | None => False
  end.
Proof. vm_compute. reflexivity. Qed.

(** Comparison of names ignores case. *)
Example level_sequence_name_ignores_case :
  IsLevelSequence (asset "/Game/Shots/A.A" "A" "levelsequence") = true.
Proof. reflexivity. Qed.

(** ** More properties of the batch loop *)

Section MoreBatchProofs.
Context {O R : Type}.
Context `{Targets : RendererTargetOptions O}.
Context `{Renderer : SequenceRendererAPI O R}.
Context `{Host : EditorHost}.

Ltac open_state s :=
  destruct s as [[folder T res dir seqs idx base rdr] obj j].

Ltac fields :=
  cbv [widget WidgetStateAssetObject journal
       SelectedSequencesFolder SequenceRendererTargets OutputImageResolution
       OutputDirectory SequencesToRender CurrentSequenceIndex BaseOutputDirectory
       SequenceRenderer
       with_SelectedSequencesFolder with_SequenceRendererTargets
       with_OutputImageResolution with_OutputDirectory with_SequencesToRender
       with_CurrentSequenceIndex with_BaseOutputDirectory with_SequenceRenderer
       with_widget reset_batch batch_start] in *.

Ltac crunch := cbv beta iota zeta delta [negb orb andb].

Lemma handle_broadcast_is_OnRenderingFinished (s : Sys O R) (r0 r : R) (b : bool) :
  SequenceRenderer (widget s) = Some r0 ->
  handle (RenderingFinishedBroadcast r b) s =
    OnRenderingFinished b
      {| widget := with_SequenceRenderer (Some r) (widget s);
         WidgetStateAssetObject := WidgetStateAssetObject s;
         journal := journal s |}.
Proof.
  intros Hr. unfold handle. unfold bind at 1, assign at 1. rewrite Hr. reflexivity.
Qed.

(** With a renderer in place [RenderCurrentSequence] returns, and leaves a
    renderer in place. *)
Lemma RenderCurrentSequence_returns (s : Sys O R) (r : R) :
  SequenceRenderer (widget s) = Some r ->
  exists s',
    RenderCurrentSequence s = Some (tt, s') /\
    exists r', SequenceRenderer (widget s') = Some r'.
Proof.
  intros Hr.
  destruct (Z_lt_dec (CurrentSequenceIndex (widget s)) 0) as [Hneg|Hpos].
  { rewrite RenderCurrentSequence_invalid by lia. eauto. }
  destruct (Z_lt_dec (CurrentSequenceIndex (widget s))
              (Num (SequencesToRender (widget s)))) as [Hin|Hout].
  - destruct (nth_error_in_range _ (SequencesToRender (widget s))
                (CurrentSequenceIndex (widget s))) as [a Ha]; [lia|].
    rewrite (RenderCurrentSequence_valid s a r) by (first [lia | assumption]).
    cbv zeta. destruct (fst (StartAnswer (widget s) a r));
      eexists; (split; [reflexivity|]); eexists; reflexivity.
  - rewrite RenderCurrentSequence_invalid by lia. eauto.
Qed.

Lemma OnRenderingFinished_returns (s : Sys O R) (r : R) (b : bool) :
  SequenceRenderer (widget s) = Some r ->
  exists s',
    OnRenderingFinished b s = Some (tt, s') /\
    exists r', SequenceRenderer (widget s') = Some r'.
Proof.
  intros Hr. destruct b.
  - open_state s. cbv [OnRenderingFinished bind this assign emit]. fields. subst rdr.
    destruct ((idx >=? 0) && (idx <? Num seqs)) eqn:E; crunch.
    + destruct (int32_add idx 1 <? Num seqs) eqn:E2; crunch.
      * match goal with |- exists s', RenderCurrentSequence ?s1 = _ /\ _ =>
          apply (RenderCurrentSequence_returns s1 r)
        end. reflexivity.
      * eexists. split; [reflexivity|]. eexists. reflexivity.
    + eexists. split; [reflexivity|]. eexists. reflexivity.
  - destruct (OnRenderingFinished_failure s r Hr) as [name Hfail].
    rewrite Hfail. eexists. split; [reflexivity|].
    exists r. open_state s. fields. exact Hr.
Qed.

Lemma OnRenderImagesClicked_returns (s : Sys O R) (r : R) :
  SequenceRenderer (widget s) = Some r ->
  exists s',
    OnRenderImagesClicked s = Some (Handled, s') /\
    exists r', SequenceRenderer (widget s') = Some r'.
Proof.
  intros Hr.
  destruct (TryConvertFilenameToLongPackageName (SelectedSequencesFolder (widget s)))
    as [p|] eqn:Hp.
  - destruct (filter IsLevelSequence (GetAssetsByPath (MkFName p) false))
      as [|a rest] eqn:Hseqs.
    + rewrite (OnRenderImagesClicked_no_sequences s p Hp Hseqs).
      eexists. split; [reflexivity|]. exists r. open_state s. fields. exact Hr.
    + destruct (OnRenderImagesClicked_batch s p a rest r Hp Hseqs Hr)
        as (A & saved & _ & Hrun).
      rewrite Hrun. cbv zeta.
      destruct (fst (StartAnswer _ a r));
        eexists; (split; [reflexivity|]); eexists; reflexivity.
  - rewrite (OnRenderImagesClicked_invalid_folder s Hp).
    eexists. split; [reflexivity|]. exists r. open_state s. fields. exact Hr.
Qed.

Lemma handle_returns (e : Event R) (s : Sys O R) (r : R) :
  SequenceRenderer (widget s) = Some r ->
  exists s',
    handle e s = Some (tt, s') /\
    exists r', SequenceRenderer (widget s') = Some r'.
Proof.
  intros Hr. destruct e as [|r1 b].
  - unfold handle, ClickRenderImages. unfold bind at 1, this at 1.
    destruct (GetIsRenderImagesEnabled (widget s)).
    + destruct (OnRenderImagesClicked_returns s r Hr) as (s' & Hrun & Hr').
      unfold bind. rewrite Hrun. exists s'. split; [reflexivity|exact Hr'].
    + exists s. split; [reflexivity|]. eauto.
  - rewrite (handle_broadcast_is_OnRenderingFinished s r r1 b Hr).
    apply (OnRenderingFinished_returns _ r1). reflexivity.
Qed.

(** X1. With a sequence renderer in place, whatever clicks and broadcasts
    come in whatever order, every handler returns: the widget manager never
    dereferences a null renderer and never indexes the queue out of bounds,
    and a renderer is still in place afterwards. *)
Theorem no_event_makes_the_panel_fail (es : list (Event R)) (s : Sys O R) (r : R) :
  SequenceRenderer (widget s) = Some r ->
  exists s',
    run es s = Some (tt, s') /\
    exists r', SequenceRenderer (widget s') = Some r'.
Proof.
  revert s r. induction es as [|e es IH]; intros s r Hr.
  - exists s. split; [reflexivity|]. eauto.
  - destruct (handle_returns e s r Hr) as (s1 & Hrun1 & r1 & Hr1).
    destruct (IH s1 r1 Hr1) as (s2 & Hrun2 & Hr2).
    exists s2. split; [|exact Hr2].
    cbn [run]. unfold bind at 1. rewrite Hrun1. exact Hrun2.
Qed.

(** X2. A broadcast never goes unanswered: either it starts exactly one
    sequence, shows no dialog and moves the current index on by one, leaving
    the queue as it is; or it shows exactly one dialog, and then no batch is
    going on any more. *)
Theorem every_broadcast_is_answered (s : Sys O R) (r0 r : R) (b : bool) :
  SequenceRenderer (widget s) = Some r0 ->
  Num (SequencesToRender (widget s)) <= INT32_MAX ->
  exists s' out,
    handle (RenderingFinishedBroadcast r b) s = Some (tt, s') /\
    journal s' = journal s ++ out /\
    ((filter is_dialog out = [] /\
      b = true /\
      (exists a, RenderedSequences out = [a]) /\
      SequencesToRender (widget s') = SequencesToRender (widget s) /\
      CurrentSequenceIndex (widget s') = CurrentSequenceIndex (widget s) + 1) \/
     ((exists d, filter is_dialog out = [d]) /\
      ~ (0 <= CurrentSequenceIndex (widget s') < Num (SequencesToRender (widget s'))))).
Proof.
  intros Hr Hmax.
  destruct (handle_broadcast_cases s r0 r b Hr Hmax)
    as (s' & out & Hrun & Hj & _ & _ & _ & Hcases).
  exists s', out. split; [exact Hrun|]. split; [exact Hj|].
  destruct Hcases as [Hnext|[Hlast|[Hidle|Hfail]]].
  - destruct Hnext as (-> & H0 & Hlt & a & Ha & Hout & Hseqs & Hidx).
    cbv zeta in Hout, Hseqs, Hidx.
    destruct (fst (StartAnswer _ a r)); subst out.
    + left. repeat split; try assumption. exists a. reflexivity.
    + right. split; [eexists; reflexivity|]. rewrite Hseqs, Hidx.
      unfold Num. simpl. lia.
  - destruct Hlast as (-> & _ & _ & -> & Hseqs & Hidx).
    right. split; [eexists; reflexivity|]. rewrite Hseqs, Hidx. unfold Num. simpl. lia.
  - destruct Hidle as (-> & Hout & -> & Hseqs & Hidx).
    right. split; [eexists; reflexivity|]. rewrite Hseqs, Hidx. exact Hout.
  - destruct Hfail as (-> & [name ->] & Hseqs & Hidx).
    right. split; [eexists; reflexivity|]. rewrite Hseqs, Hidx. unfold Num. simpl. lia.
Qed.

Lemma Num_filter (T : Type) (f : T -> bool) (l : list T) : Num (filter f l) <= Num l.
Proof.
  unfold Num. induction l as [|x l IH]; simpl; [lia|].
  destruct (f x); simpl; lia.
Qed.

Lemma reset_is_well_formed (w : FWidgetManager O R) : BatchWellFormed (reset_batch w).
Proof.
  split; [unfold Num, INT32_MAX; simpl; lia|]. left. split; reflexivity.
Qed.

Lemma handle_keeps_well_formed (e : Event R) (s : Sys O R) (r : R) :
  (forall p, Num (GetAssetsByPath p false) <= INT32_MAX) ->
  SequenceRenderer (widget s) = Some r ->
  BatchWellFormed (widget s) ->
  exists s',
    handle e s = Some (tt, s') /\
    (exists r', SequenceRenderer (widget s') = Some r') /\
    BatchWellFormed (widget s').
Proof.
  intros Hhost Hr [Hmax Hwf]. destruct e as [|r1 b].
  - unfold handle, ClickRenderImages. unfold bind at 1, this at 1.
    destruct (GetIsRenderImagesEnabled (widget s)).
    2:{ exists s. split; [reflexivity|]. split; [eauto|]. split; assumption. }
    unfold bind at 1.
    destruct (TryConvertFilenameToLongPackageName (SelectedSequencesFolder (widget s)))
      as [p|] eqn:Hp.
    + destruct (filter IsLevelSequence (GetAssetsByPath (MkFName p) false))
        as [|a rest] eqn:Hseqs.
      * rewrite (OnRenderImagesClicked_no_sequences s p Hp Hseqs).
        eexists. split; [reflexivity|]. cbn [widget]. split.
        { exists r. open_state s. fields. exact Hr. }
        apply reset_is_well_formed.
      * destruct (OnRenderImagesClicked_batch s p a rest r Hp Hseqs Hr)
          as (A & saved & _ & Hrun).
        rewrite Hrun. cbv zeta.
        destruct (fst (StartAnswer _ a r));
          eexists; (split; [reflexivity|]); cbn [widget];
          (split; [eexists; reflexivity|]).
        -- split.
           ++ change (Num (a :: rest) <= INT32_MAX). rewrite <- Hseqs.
              pose proof (Num_filter _ IsLevelSequence (GetAssetsByPath (MkFName p) false)).
              specialize (Hhost (MkFName p)). lia.
           ++ right. change (0 <= 0 < Num (a :: rest)). unfold Num. simpl. lia.
        -- apply reset_is_well_formed.
    + rewrite (OnRenderImagesClicked_invalid_folder s Hp).
      eexists. split; [reflexivity|]. cbn [widget]. split.
      { exists r. open_state s. fields. exact Hr. }
      apply reset_is_well_formed.
  - destruct (handle_broadcast_cases s r r1 b Hr Hmax)
      as (s' & out & Hrun & _ & _ & Hr' & _ & Hcases).
    exists s'. split; [exact Hrun|]. split; [exact Hr'|].
    destruct Hcases as [Hnext|[Hlast|[Hidle|Hfail]]].
    + destruct Hnext as (_ & H0 & Hlt & a & _ & _ & Hseqs & Hidx).
      cbv zeta in Hseqs, Hidx. unfold BatchWellFormed. rewrite Hseqs, Hidx.
      destruct (fst (StartAnswer _ a r1)).
      * split; [exact Hmax|]. right. lia.
      * split; [unfold Num, INT32_MAX; simpl; lia|]. left. split; reflexivity.
    + destruct Hlast as (_ & _ & _ & _ & Hseqs & Hidx).
      unfold BatchWellFormed. rewrite Hseqs, Hidx.
      split; [unfold Num, INT32_MAX; simpl; lia|]. left. split; reflexivity.
    + destruct Hidle as (_ & _ & _ & Hseqs & Hidx).
      unfold BatchWellFormed. rewrite Hseqs, Hidx. split; assumption.
    + destruct Hfail as (_ & _ & Hseqs & Hidx).
      unfold BatchWellFormed. rewrite Hseqs, Hidx.
      split; [unfold Num, INT32_MAX; simpl; lia|]. left. split; reflexivity.
Qed.

(** X3. The state of the batch is well formed at all times: in the
    constructed widget manager no batch is going on, and after any clicks and
    broadcasts either the queue is empty and the current index is -1, or the
    current index points into the queue.  (The asset registry is taken to
    return no more assets than an array can hold.) *)
Theorem batch_state_stays_well_formed
    (DefaultTargets : O) (DefaultRenderingOutputPath : FString) (NewRenderer : R)
    (es : list (Event R)) (s : Sys O R) (r : R) :
  (forall p, Num (GetAssetsByPath p false) <= INT32_MAX) ->
  SequenceRenderer (widget s) = Some r ->
  BatchWellFormed (widget s) ->
  BatchWellFormed
    (FWidgetManager_constructed DefaultTargets DefaultRenderingOutputPath NewRenderer) /\
  exists s',
    run es s = Some (tt, s') /\
    BatchWellFormed (widget s').
Proof.
  intros Hhost Hr Hwf. split.
  { split; [unfold Num, INT32_MAX; simpl; lia|]. left. split; reflexivity. }
  revert s r Hr Hwf. induction es as [|e es IH]; intros s r Hr Hwf.
  - exists s. split; [reflexivity|exact Hwf].
  - destruct (handle_keeps_well_formed e s r Hhost Hr Hwf)
      as (s1 & Hrun1 & [r1 Hr1] & Hwf1).
    destruct (IH s1 r1 Hr1 Hwf1) as (s2 & Hrun2 & Hwf2).
    exists s2. split; [|exact Hwf2].
    cbn [run]. unfold bind at 1. rewrite Hrun1. exact Hrun2.
Qed.

(** Saving ends with the one call that saves the asset object. *)
Lemma SaveWidgetOptionStates_calls_save (s : Sys O R) :
  exists A pre,
    SaveWidgetOptionStates s =
      Some (tt, {| widget := widget s;
                   WidgetStateAssetObject := Some A;
                   journal := journal s ++ pre ++ [SaveLoadedAsset A false] |}) /\
    filter is_SaveLoadedAsset pre = [] /\
    RenderedSequences pre = [] /\
    (WidgetStateAssetObject s <> None -> pre = []) /\
    OptionValuesIn A = OptionValuesOf (widget s) /\
    filter is_dialog pre = [] /\
    filter is_ForceGarbageCollection pre = [].
Proof.
  open_state s.
  cbv [SaveWidgetOptionStates bind ret this assign emit LoadObject_WidgetStateAsset
       store_WidgetStateAsset]. fields.
  destruct obj.
  - eexists. exists []. split; [reflexivity|].
    split; [reflexivity|]. split; [reflexivity|]. split; [reflexivity|].
    split; [|split; reflexivity].
    unfold OptionValuesIn, OptionValuesOf. simpl.
    now rewrite !EImageFormat_cast_back.
  - eexists.
    exists [UE_LOG "%s: Texture mapping asset not found, creating a new one"
              [LogStr "FWidgetManager::SaveWidgetOptionStates"];
            AssetRegistry_AddPluginContentPath; CreateWidgetStatePackage].
    split; [rewrite <- !app_assoc; reflexivity|].
    split; [reflexivity|]. split; [reflexivity|]. split; [congruence|].
    split; [|split; reflexivity].
    unfold OptionValuesIn, OptionValuesOf. simpl.
    now rewrite !EImageFormat_cast_back.
Qed.

(** X4. A click on Render Images saves the widget options exactly when it
    finds a level sequence to render, whether or not the renderer then
    starts: with a folder that has no package path, or with no level sequence
    in the folder, it shows the one dialog that says so, starts nothing and
    leaves the asset object alone; otherwise its last call saves the asset,
    which holds the option values of the panel. *)
Theorem click_saves_options_only_when_sequences_are_found (s : Sys O R) (r : R) :
  SequenceRenderer (widget s) = Some r ->
  exists s' out,
    OnRenderImagesClicked s = Some (Handled, s') /\
    journal s' = journal s ++ out /\
    match TryConvertFilenameToLongPackageName (SelectedSequencesFolder (widget s)) with
    | None =>
        out = [FMessageDialog_Open
                 (LOCTEXT "InvalidFolderMessage"
                    "Selected folder is not a valid content folder.")
                 (LOCTEXT "InvalidFolderTitle" "Invalid Folder")] /\
        WidgetStateAssetObject s' = WidgetStateAssetObject s
    | Some p =>
        match filter IsLevelSequence (GetAssetsByPath (MkFName p) false) with
        | [] =>
            out = [FMessageDialog_Open
                     (LOCTEXT "NoSequencesFoundMessage"
                        "No level sequence assets found in the selected folder.")
                     (LOCTEXT "NoSequencesFoundTitle" "No Sequences Found")] /\
            WidgetStateAssetObject s' = WidgetStateAssetObject s
        | _ :: _ =>
            exists pre A,
              out = pre ++ [SaveLoadedAsset A false] /\
              filter is_SaveLoadedAsset pre = [] /\
              WidgetStateAssetObject s' = Some A /\
              OptionValuesIn A = OptionValuesOf (widget s)
        end
    end.
Proof.
  intros Hr.
  destruct (TryConvertFilenameToLongPackageName (SelectedSequencesFolder (widget s)))
    as [p|] eqn:Hp.
  - destruct (filter IsLevelSequence (GetAssetsByPath (MkFName p) false))
      as [|a rest] eqn:Hseqs.
    + rewrite (OnRenderImagesClicked_no_sequences s p Hp Hseqs).
      eexists. eexists. split; [reflexivity|]. cbn [journal WidgetStateAssetObject].
      split; [reflexivity|]. split; reflexivity.
    + rewrite (OnRenderImagesClicked_goes_on s p Hp) by (rewrite Hseqs; discriminate).
      rewrite Hseqs. unfold bind at 1.
      match goal with |- context [RenderCurrentSequence ?s1] =>
        rewrite (RenderCurrentSequence_valid s1 a r)
          by (open_state s; fields;
              first [unfold Num; simpl; lia | reflexivity | assumption])
      end.
      cbv zeta.
      destruct (fst (StartAnswer _ a r)); unfold bind at 1;
        match goal with |- context [SaveWidgetOptionStates ?s1] =>
          destruct (SaveWidgetOptionStates_calls_save s1)
            as (A & pre & Hsave & Hpre & _ & _ & Hvalues & _ & _)
        end;
        rewrite Hsave; unfold ret; cbn [journal widget] in *;
        eexists; eexists; (split; [reflexivity|]); cbn [journal widget WidgetStateAssetObject].
      * split; [rewrite <- app_assoc; reflexivity|].
        exists (StartOf (batch_start (a :: rest) (widget s)) a ++ pre), A.
        split; [now rewrite <- app_assoc|].
        split; [rewrite filter_app, Hpre; reflexivity|].
        split; [reflexivity|]. rewrite Hvalues. open_state s. reflexivity.
      * split; [rewrite <- !app_assoc; reflexivity|].
        eexists (StartOf (batch_start (a :: rest) (widget s)) a ++ [_] ++ pre), A.
        split; [now rewrite <- !app_assoc|].
        split; [rewrite !filter_app, Hpre; reflexivity|].
        split; [reflexivity|]. rewrite Hvalues. open_state s. reflexivity.
  - rewrite (OnRenderImagesClicked_invalid_folder s Hp).
    eexists. eexists. split; [reflexivity|]. cbn [journal WidgetStateAssetObject].
      split; [reflexivity|]. split; reflexivity.
Qed.

Lemma skipn_nth (T : Type) (l : list T) (n : nat) (a : T) :
  nth_error l n = Some a -> skipn n l = a :: skipn (S n) l.
Proof.
  revert l. induction n as [|n IH]; intros [|x l]; simpl; try discriminate.
  - now intros [= ->].
  - apply IH.
Qed.

(** Success after success, from the sequence at index [i] to the last. *)
Lemma accepted_broadcasts (seqs : list FAssetData) (es : list (Event R)) :
  Num seqs <= INT32_MAX ->
  forallb reports_success es = true ->
  forall (s : Sys O R) (i : nat) (r0 : R),
    SequenceRenderer (widget s) = Some r0 ->
    SequencesToRender (widget s) = seqs ->
    CurrentSequenceIndex (widget s) = Z.of_nat i ->
    Accepts (widget s) ->
    (i + List.length es = List.length seqs)%nat ->
    (1 <= List.length es)%nat ->
    exists s' out,
      run es s = Some (tt, s') /\
      journal s' = journal s ++ out ++ [BatchCompleteDialog (Num seqs)] /\
      RenderedSequences out = skipn (S i) seqs /\
      List.length (filter is_ForceGarbageCollection out) = (List.length es - 1)%nat /\
      filter is_dialog out = [] /\
      SequencesToRender (widget s') = [] /\
      CurrentSequenceIndex (widget s') = -1.
Proof.
  intros Hmax. induction es as [|e es IH]; intros Hes s i r0 Hr Hs Hi Hacc Hlen Hpos.
  - simpl in Hpos. lia.
  - simpl in Hes. apply andb_true_iff in Hes. destruct Hes as [He Hes].
    destruct e as [|r b]; [discriminate|]. destruct b; [|discriminate].
    cbn [run]. unfold bind at 1.
    rewrite (handle_broadcast_is_OnRenderingFinished s r0 r true Hr).
    set (s1 := {| widget := with_SequenceRenderer (Some r) (widget s);
                  WidgetStateAssetObject := WidgetStateAssetObject s;
                  journal := journal s |}).
    assert (Hs1 : SequencesToRender (widget s1) = seqs) by exact Hs.
    assert (Hi1 : CurrentSequenceIndex (widget s1) = Z.of_nat i) by exact Hi.
    destruct es as [|e' es']; simpl in Hlen.
    + rewrite (OnRenderingFinished_last s1)
        by (rewrite ?Hs1, ?Hi1; unfold Num in *; lia).
      rewrite Hs1.
      eexists. exists []. split; [reflexivity|]. cbn [journal widget app].
      split; [reflexivity|].
      split. { rewrite skipn_all2; [reflexivity|simpl in Hlen; lia]. }
      split; [reflexivity|]. split; [reflexivity|]. split; reflexivity.
    + destruct (nth_error seqs (S i)) as [a|] eqn:Ha.
      2:{ apply nth_error_None in Ha. simpl in Hlen. lia. }
      rewrite (OnRenderingFinished_next s1 a r)
        by (rewrite ?Hs1, ?Hi1; unfold Num in *;
            first [lia | reflexivity
                  | replace (Z.to_nat (Z.of_nat i + 1)) with (S i) by lia; exact Ha]).
      cbv zeta.
      assert (Hok : fst (StartAnswer
                          (with_CurrentSequenceIndex (CurrentSequenceIndex (widget s1) + 1)
                             (widget s1)) a r) = true).
      { unfold StartAnswer. apply (Hacc a _ r). }
      rewrite Hok.
      match goal with |- exists s' out, run _ ?s2 = _ /\ _ =>
        destruct (IH Hes s2 (S i) (snd (StartAnswer
                   (with_CurrentSequenceIndex (CurrentSequenceIndex (widget s1) + 1)
                      (widget s1)) a r)))
          as (s' & out & Hrun & Hj & Hseq & Hgc & Hdlg & Hs' & Hi')
      end.
      * reflexivity.
      * exact Hs.
      * cbn [widget CurrentSequenceIndex with_SequenceRenderer with_CurrentSequenceIndex].
        change (CurrentSequenceIndex (widget s) + 1 = Z.of_nat (S i)). lia.
      * exact Hacc.
      * simpl in *. lia.
      * simpl. lia.
      * exists s'. cbn [journal] in Hj.
        match type of Hj with journal s' = (_ ++ ?c) ++ _ => exists (c ++ out) end.
        split; [exact Hrun|]. rewrite Hj.
        split; [rewrite <- !app_assoc; reflexivity|].
        split.
        { rewrite !RenderedSequences_app, Hseq.
          rewrite (skipn_nth _ seqs (S i) a Ha). reflexivity. }
        split.
        { rewrite !filter_app, !length_app, Hgc. simpl. lia. }
        split; [|split; assumption].
        rewrite !filter_app, Hdlg. reflexivity.
Qed.

Lemma OnRenderImagesClicked_accepted (s : Sys O R) (p : FString)
    (a : FAssetData) (rest : list FAssetData) (r : R) :
  let w1 := batch_start (a :: rest) (widget s) in
  TryConvertFilenameToLongPackageName (SelectedSequencesFolder (widget s)) = Some p ->
  filter IsLevelSequence (GetAssetsByPath (MkFName p) false) = a :: rest ->
  SequenceRenderer (widget s) = Some r ->
  fst (StartAnswer w1 a r) = true ->
  exists A pre,
    OnRenderImagesClicked s =
      Some (Handled,
        {| widget := with_SequenceRenderer (Some (snd (StartAnswer w1 a r))) w1;
           WidgetStateAssetObject := Some A;
           journal := journal s ++ (StartOf w1 a ++ pre ++ [SaveLoadedAsset A false]) |}) /\
    RenderedSequences pre = [] /\
    filter is_dialog pre = [] /\
    filter is_ForceGarbageCollection pre = [].
Proof.
  intros w1 Hp Hseqs Hr Hok. subst w1.
  rewrite (OnRenderImagesClicked_goes_on s p Hp) by (rewrite Hseqs; discriminate).
  rewrite Hseqs. unfold bind at 1.
  match goal with |- context [RenderCurrentSequence ?s1] =>
    rewrite (RenderCurrentSequence_valid s1 a r)
      by (open_state s; fields;
          first [unfold Num; simpl; lia | reflexivity | assumption])
  end.
  cbv zeta.
  replace (widget (with_widget (batch_start (a :: rest) (widget s)) s))
    with (batch_start (a :: rest) (widget s)) by reflexivity.
  rewrite Hok. unfold bind at 1.
  match goal with |- context [SaveWidgetOptionStates ?s1] =>
    destruct (SaveWidgetOptionStates_calls_save s1)
      as (A & pre & Hsave & _ & Hseq & _ & _ & Hdlg & Hgc)
  end.
  rewrite Hsave. unfold ret. exists A, pre.
  split; [|split; [exact Hseq|split; assumption]].
  cbn [journal widget with_widget WidgetStateAssetObject].
  rewrite <- !app_assoc. reflexivity.
Qed.

(** X5. When the renderer starts every sequence it is asked to and every
    broadcast reports success, a click followed by as many broadcasts as
    there are sequences renders every discovered sequence, in order; it forces
    one garbage collection less than there are sequences, shows no dialog
    until the last broadcast, ends with the Batch Rendering Complete dialog
    that counts all of them, and leaves the batch reset. *)
Theorem accepted_batch_renders_every_sequence
    (s : Sys O R) (p : FString) (seqs : list FAssetData) (es : list (Event R)) :
  GetIsRenderImagesEnabled (widget s) = true ->
  TryConvertFilenameToLongPackageName (SelectedSequencesFolder (widget s)) = Some p ->
  seqs = filter IsLevelSequence (GetAssetsByPath (MkFName p) false) ->
  seqs <> [] ->
  Num seqs <= INT32_MAX ->
  Accepts (widget s) ->
  forallb reports_success es = true ->
  List.length es = List.length seqs ->
  exists s' out,
    run (RenderImagesButtonClicked :: es) s = Some (tt, s') /\
    journal s' =
      journal s ++ out ++
      [FMessageDialog_Open
         (FText_Format
            (LOCTEXT "BatchRenderingCompleteMessage"
               "Successfully rendered {0} sequences.")
            (FText_AsNumber (Num seqs)))
         (LOCTEXT "BatchRenderingCompleteTitle" "Batch Rendering Complete")] /\
    RenderedSequences out = seqs /\
    List.length (filter is_ForceGarbageCollection out) = (List.length seqs - 1)%nat /\
    filter is_dialog out = [] /\
    SequencesToRender (widget s') = [] /\
    CurrentSequenceIndex (widget s') = -1.
Proof.
  intros Hen Hp Hseqs Hne Hmax Hacc Hes Hlen.
  destruct (enabled_has_renderer _ Hen) as (r & Hr & _).
  destruct seqs as [|a rest] eqn:Eseqs; [congruence|]. rewrite <- Eseqs in *.
  assert (Hfil : filter IsLevelSequence (GetAssetsByPath (MkFName p) false) = a :: rest)
    by congruence.
  assert (Hok : fst (StartAnswer (batch_start (a :: rest) (widget s)) a r) = true).
  { unfold StartAnswer. apply (Hacc a _ r). }
  destruct (OnRenderImagesClicked_accepted s p a rest r Hp Hfil Hr Hok)
    as (A & pre & Hclick & Hpseq & Hpdlg & Hpgc).
  cbn [run]. unfold bind at 1.
  unfold handle at 1, ClickRenderImages. unfold bind at 1, this at 1. rewrite Hen.
  unfold bind at 1. rewrite Hclick. unfold ret at 1.
  match goal with |- exists s' out, run es ?s1 = _ /\ _ =>
    destruct (accepted_broadcasts seqs es Hmax Hes s1 0%nat
                (snd (StartAnswer (batch_start (a :: rest) (widget s)) a r)))
      as (s' & out & Hrun & Hj & Hseq & Hgc & Hdlg & Hs' & Hi')
  end.
  - reflexivity.
  - cbn. congruence.
  - reflexivity.
  - exact Hacc.
  - simpl. exact Hlen.
  - rewrite Hlen, Eseqs. simpl. lia.
  - exists s'. cbn [journal] in Hj.
    match type of Hj with journal s' = (_ ++ ?c) ++ _ => exists (c ++ out) end.
    split; [exact Hrun|]. rewrite Hj.
    split; [unfold BatchCompleteDialog; rewrite <- !app_assoc; reflexivity|].
    split.
    { rewrite !RenderedSequences_app, Hpseq, Hseq. rewrite Eseqs. reflexivity. }
    split.
    { rewrite !filter_app, Hpgc, !length_app, Hgc. rewrite Hlen, Eseqs. simpl. lia. }
    split; [|split; assumption].
    rewrite !filter_app, Hpdlg, Hdlg. reflexivity.
Qed.

End MoreBatchProofs.

(** ** More properties of the options *)

Section MoreOptionProofs.
Context {O R : Type}.
Context `{Targets : RendererTargetOptions O}.
Context {Laws : RendererTargetOptionsLaws O}.
Context `{Renderer : SequenceRendererAPI O R}.
Context `{Host : EditorHost}.

Ltac open_state s :=
  destruct s as [[folder T res dir seqs idx base rdr] obj j].

Ltac fields :=
  cbv [widget WidgetStateAssetObject journal
       SelectedSequencesFolder SequenceRendererTargets OutputImageResolution
       OutputDirectory SequencesToRender CurrentSequenceIndex BaseOutputDirectory
       SequenceRenderer
       with_SelectedSequencesFolder with_SequenceRendererTargets
       with_OutputImageResolution with_OutputDirectory with_SequencesToRender
       with_CurrentSequenceIndex with_BaseOutputDirectory with_SequenceRenderer
       with_widget] in *.

Lemma EImageFormat_eqb_eq (a b : EImageFormat) :
  EImageFormat_eqb a b = true <-> a = b.
Proof.
  destruct a as [x], b as [y]. unfold EImageFormat_eqb. simpl. split.
  - intros H. apply Byte.byte_dec_bl in H. now subst.
  - intros [= ->]. apply Byte.byte_dec_lb. reflexivity.
Qed.

Lemma OutputFormatNames_recognised (Item : FString) :
  In Item OutputFormatNames ->
  exists f,
    OutputFormatOfName Item = Some f /\
    In f [JPEG; PNG; EXR] /\
    forall (v : TargetType -> Z) (t : TargetType) (s : Sys O R),
      OutputFormat t (SequenceRendererTargets (widget s)) = f ->
      SelectedOutputFormat v t s = Some (FText_FromString Item, s).
Proof.
  intros [<-|[<-|[<-|[]]]].
  - exists JPEG. split; [reflexivity|]. split; [simpl; auto|].
    intros v t s Hf. unfold SelectedOutputFormat, bind, this, ret. rewrite Hf. reflexivity.
  - exists PNG. split; [reflexivity|]. split; [simpl; auto|].
    intros v t s Hf. unfold SelectedOutputFormat, bind, this, ret. rewrite Hf. reflexivity.
  - exists EXR. split; [reflexivity|]. split; [simpl; auto|].
    intros v t s Hf. unfold SelectedOutputFormat, bind, this, ret. rewrite Hf. reflexivity.
Qed.

Lemma OnOutputFormatSelectionChanged_recognised
    (Item : FString) (f : EImageFormat) (t : TargetType) (s : Sys O R) :
  OutputFormatOfName Item = Some f ->
  OnOutputFormatSelectionChanged (Some Item) t s =
    Some (tt, with_widget
                (with_SequenceRendererTargets
                   (SetOutputFormat t f (SequenceRendererTargets (widget s))) (widget s)) s).
Proof.
  unfold OutputFormatOfName, OnOutputFormatSelectionChanged.
  destruct (FString_eqb Item JpegFormatName); [now intros [= <-]|].
  destruct (FString_eqb Item PngFormatName); [now intros [= <-]|].
  destruct (FString_eqb Item ExrFormatName); [now intros [= <-]|].
  discriminate.
Qed.

(** X6. Every name the output format combo boxes offer is accepted: picking
    it for a target logs nothing, changes the output format of that target
    only, and the combo box of the target then shows the very name that was
    picked. *)
Theorem offered_output_formats_are_accepted
    (Item : FString) (v : TargetType -> Z) (t : TargetType) (s : Sys O R) :
  In Item OutputFormatNames ->
  exists s',
    OnOutputFormatSelectionChanged (Some Item) t s = Some (tt, s') /\
    journal s' = journal s /\
    WidgetStateAssetObject s' = WidgetStateAssetObject s /\
    SelectedOutputFormat v t s' = Some (FText_FromString Item, s') /\
    (forall t', t' <> t ->
       OutputFormat t' (SequenceRendererTargets (widget s')) =
       OutputFormat t' (SequenceRendererTargets (widget s))) /\
    (forall t', TargetSelected t' (SequenceRendererTargets (widget s')) =
                TargetSelected t' (SequenceRendererTargets (widget s))) /\
    OutputImageResolution (widget s') = OutputImageResolution (widget s) /\
    OutputDirectory (widget s') = OutputDirectory (widget s).
Proof.
  intros HIn.
  destruct (OutputFormatNames_recognised Item HIn) as (f & Hname & _ & Hshow).
  rewrite (OnOutputFormatSelectionChanged_recognised Item f t s Hname).
  eexists. split; [reflexivity|].
  split; [reflexivity|]. split; [reflexivity|].
  split; [|split; [|split; [|split]]].
  - apply Hshow. open_state s. fields. apply format_set.
  - intros t' Ht. open_state s. fields. now apply format_other.
  - intros t'. open_state s. fields. apply selected_format.
  - open_state s. reflexivity.
  - open_state s. reflexivity.
Qed.

(** X7. The text an output format combo box shows is one of the names it
    offers exactly when the stored format is JPEG, PNG or EXR; for any other
    stored format (an asset can hold any byte) the text is empty and one
    error line is logged.  The widget manager itself is never changed. *)
Theorem shown_output_format_is_offered_or_empty
    (v : TargetType -> Z) (t : TargetType) (s : Sys O R) :
  exists Text out,
    SelectedOutputFormat v t s =
      Some (Text, {| widget := widget s;
                     WidgetStateAssetObject := WidgetStateAssetObject s;
                     journal := journal s ++ out |}) /\
    ((In (OutputFormat t (SequenceRendererTargets (widget s))) [JPEG; PNG; EXR] /\
      out = [] /\
      exists Item,
        In Item OutputFormatNames /\ Text = FText_FromString Item /\
        OutputFormatOfName Item = Some (OutputFormat t (SequenceRendererTargets (widget s)))) \/
     (~ In (OutputFormat t (SequenceRendererTargets (widget s))) [JPEG; PNG; EXR] /\
      Text = FText_GetEmpty /\
      out = [UE_LOG "%s: Invalid target type '%d'"
               [LogStr "FWidgetManager::SelectedOutputFormat"; LogInt (v t)]])).
Proof.
  open_state s. unfold SelectedOutputFormat, bind, this, ret, emit. fields.
  destruct (EImageFormat_eqb (OutputFormat t T) JPEG) eqn:E1.
  { apply EImageFormat_eqb_eq in E1. rewrite E1.
    eexists. exists []. rewrite app_nil_r. split; [reflexivity|]. left.
    split; [simpl; auto|]. split; [reflexivity|].
    exists JpegFormatName. split; [simpl; auto|]. split; reflexivity. }
  destruct (EImageFormat_eqb (OutputFormat t T) PNG) eqn:E2.
  { apply EImageFormat_eqb_eq in E2. rewrite E2.
    eexists. exists []. rewrite app_nil_r. split; [reflexivity|]. left.
    split; [simpl; auto|]. split; [reflexivity|].
    exists PngFormatName. split; [simpl; auto|]. split; reflexivity. }
  destruct (EImageFormat_eqb (OutputFormat t T) EXR) eqn:E3.
  { apply EImageFormat_eqb_eq in E3. rewrite E3.
    eexists. exists []. rewrite app_nil_r. split; [reflexivity|]. left.
    split; [simpl; auto|]. split; [reflexivity|].
    exists ExrFormatName. split; [simpl; auto|]. split; reflexivity. }
  eexists. eexists. split; [reflexivity|]. right.
  split; [|split; reflexivity].
  intros [H|[H|[H|[]]]]; symmetry in H; apply EImageFormat_eqb_eq in H; congruence.
Qed.

Lemma even_half_twice (n : Z) :
  0 <= n <= INT32_MAX ->
  int32_mul (int32_div n 2) 2 = 2 * (n / 2).
Proof.
  unfold int32_mul, int32_div, wrap32, INT32_MAX. intros Hn.
  rewrite Z.quot_div_nonneg by lia.
  assert (H := Z.div_mod n 2 ltac:(lia)).
  assert (H' := Z.mod_pos_bound n 2 ltac:(lia)).
  rewrite (Z.mod_small (n / 2 + 2 ^ 31)) by lia.
  rewrite Z.mod_small by lia. lia.
Qed.

(** X8. A value of the width or height spin box, taken within the bounds of
    that spin box, is stored rounded down to an even number: the stored value
    is even, it is the new value or one less, it is still within the bounds,
    the other dimension is not touched, and entering the stored value again
    changes nothing. *)
Theorem output_resolution_is_kept_even (NewValue : Z) (s : Sys O R) :
  (OutputWidth_MinValue <= NewValue <= OutputWidth_MaxValue ->
   exists s',
     OutputWidth_OnValueChanged NewValue s = Some (tt, s') /\
     Z.even (X (OutputImageResolution (widget s'))) = true /\
     NewValue - 1 <= X (OutputImageResolution (widget s')) <= NewValue /\
     OutputWidth_MinValue <= X (OutputImageResolution (widget s')) <= OutputWidth_MaxValue /\
     Y (OutputImageResolution (widget s')) = Y (OutputImageResolution (widget s)) /\
     OutputWidth_OnValueChanged (X (OutputImageResolution (widget s'))) s' = Some (tt, s')) /\
  (OutputHeight_MinValue <= NewValue <= OutputHeight_MaxValue ->
   exists s',
     OutputHeight_OnValueChanged NewValue s = Some (tt, s') /\
     Z.even (Y (OutputImageResolution (widget s'))) = true /\
     NewValue - 1 <= Y (OutputImageResolution (widget s')) <= NewValue /\
     OutputHeight_MinValue <= Y (OutputImageResolution (widget s')) <= OutputHeight_MaxValue /\
     X (OutputImageResolution (widget s')) = X (OutputImageResolution (widget s)) /\
     OutputHeight_OnValueChanged (Y (OutputImageResolution (widget s'))) s' = Some (tt, s')).
Proof.
  assert (Hw : OutputWidth_MaxValue = 3840) by reflexivity.
  assert (Hh : OutputHeight_MaxValue = 2160) by reflexivity.
  unfold OutputWidth_MinValue, OutputHeight_MinValue. rewrite Hw, Hh.
  open_state s. destruct res as [x y].
  unfold OutputWidth_OnValueChanged, OutputHeight_OnValueChanged, assign. fields.
  cbn [X Y].
  split; intros Hn;
    (eexists; split; [reflexivity|]); cbn [widget OutputImageResolution X Y];
    rewrite (even_half_twice NewValue) by (unfold INT32_MAX; lia);
    assert (H := Z.div_mod NewValue 2 ltac:(lia));
    assert (H' := Z.mod_pos_bound NewValue 2 ltac:(lia)).
  - split; [now rewrite Z.even_mul|]. split; [lia|]. split; [lia|].
    split; [reflexivity|].
    rewrite (even_half_twice (2 * (NewValue / 2))) by (unfold INT32_MAX; lia).
    rewrite (Z.mul_comm 2 (NewValue / 2)), Z.div_mul by lia.
    rewrite (Z.mul_comm (NewValue / 2) 2). reflexivity.
  - split; [now rewrite Z.even_mul|]. split; [lia|]. split; [lia|].
    split; [reflexivity|].
    rewrite (even_half_twice (2 * (NewValue / 2))) by (unfold INT32_MAX; lia).
    rewrite (Z.mul_comm 2 (NewValue / 2)), Z.div_mul by lia.
    rewrite (Z.mul_comm (NewValue / 2) 2). reflexivity.
Qed.

(** X9. Loading the saved options always leaves the Render Images button
    disabled, whatever the asset holds: the sequences folder comes back
    empty, so a click does nothing until a folder is picked.  Once a folder
    with a name is picked, the button is enabled exactly when a target
    option is selected and the renderer is in place and not rendering. *)
Theorem button_is_disabled_after_loading
    (s : Sys O R) (A : UWidgetStateAsset) (Directory : FString) :
  WidgetStateAssetObject s = Some A ->
  exists s',
    LoadWidgetOptionStates s = Some (tt, s') /\
    GetIsRenderImagesEnabled (widget s') = false /\
    handle RenderImagesButtonClicked s' = Some (tt, s') /\
    (Directory <> EmptyString ->
     exists s'',
       OnSequencesFolderChanged Directory s' = Some (tt, s'') /\
       GetIsRenderImagesEnabled (widget s'') =
         AnyOptionSelected (SequenceRendererTargets (widget s')) &&
         match SequenceRenderer (widget s) with
         | Some r => negb (IsRendering r)
         | None => false
         end).
Proof.
  open_state s. fields. intros ->.
  cbv [LoadWidgetOptionStates bind ret this assign LoadObject_WidgetStateAsset
       with_SelectedSequencesFolder with_SequenceRendererTargets
       with_OutputImageResolution with_OutputDirectory
       widget WidgetStateAssetObject journal
       SelectedSequencesFolder SequenceRendererTargets OutputImageResolution
       OutputDirectory SequencesToRender CurrentSequenceIndex BaseOutputDirectory
       SequenceRenderer].
  eexists. split; [reflexivity|].
  split; [reflexivity|]. split; [reflexivity|].
  intros Hdir. eexists. split; [reflexivity|].
  unfold GetIsRenderImagesEnabled. fields.
  destruct Directory; [congruence|]. reflexivity.
Qed.

(** X10. A target check box shows what was last clicked: after
    [OnRenderTargetsChanged] with the state [Checked] the check box of that
    target is checked, after any other state it is unchecked; the check boxes
    of the other targets and the camera poses check box stay as they were.
    The camera poses check box shows what was last clicked on it, in the same
    way; a click on it leaves every target check box as it was when
    [SetExportCameraPoses] leaves the selected targets alone, which the laws
    of the target options do not say by themselves. *)
Theorem check_boxes_show_what_was_clicked
    (NewState : ECheckBoxState) (t : TargetType) (s : Sys O R) :
  (exists s',
     OnRenderTargetsChanged NewState t s = Some (tt, s') /\
     RenderTargetsCheckedState t (widget s') =
       match NewState with Checked => Checked | _ => Unchecked end /\
     (forall t', t' <> t ->
        RenderTargetsCheckedState t' (widget s') = RenderTargetsCheckedState t' (widget s)) /\
     CameraPoses_IsChecked (widget s') = CameraPoses_IsChecked (widget s)) /\
  (exists s',
     CameraPoses_OnCheckStateChanged NewState s = Some (tt, s') /\
     CameraPoses_IsChecked (widget s') =
       match NewState with Checked => Checked | _ => Unchecked end /\
     ((forall t' b o,
         TargetSelected t' (SetExportCameraPoses b o) = TargetSelected t' o) ->
      forall t',
        RenderTargetsCheckedState t' (widget s') = RenderTargetsCheckedState t' (widget s))).
Proof.
  open_state s.
  unfold OnRenderTargetsChanged, CameraPoses_OnCheckStateChanged, assign.
  unfold RenderTargetsCheckedState, CameraPoses_IsChecked. fields.
  split.
  - eexists. split; [reflexivity|]. cbn [widget SequenceRendererTargets].
    split; [rewrite selected_set; now destruct NewState|].
    split; [intros t' Ht; now rewrite selected_other|].
    now rewrite poses_selected.
  - eexists. split; [reflexivity|]. cbn [widget SequenceRendererTargets].
    split; [rewrite poses_set; now destruct NewState|].
    intros Hkept t'. now rewrite Hkept.
Qed.

(** X11. Each name the texture style combo box offers checks out a texture
    style, and never reaches the error line: the first name checks out the
    colour style, the second the semantic style, and nothing else is called
    besides the line that logs the selection. *)
Theorem offered_texture_styles_are_checked_out (Item : FString) :
  In Item TextureStyleNames ->
  exists Style,
    OnTextureStyleComboBoxSelectionChanged (Some Item) =
      [Panel_UE_LOG "%s: Texture style selected: %s"
         [LogStr "FWidgetManager::OnTextureStyleComboBoxSelectionChanged"; LogStr Item];
       CheckoutTextureStyle Style] /\
    (Style = COLOR <-> Item = TextureStyleColorName) /\
    (Style = SEMANTIC <-> Item = TextureStyleSemanticName).
Proof.
  intros [<-|[<-|[]]].
  - exists COLOR. split; [reflexivity|]. split; split; try reflexivity; discriminate.
  - exists SEMANTIC. split; [reflexivity|]. split; split; try reflexivity; discriminate.
Qed.

Ltac run_options :=
  cbv [LoadWidgetOptionStates SaveWidgetOptionStates bind ret this assign emit
       LoadObject_WidgetStateAsset store_WidgetStateAsset
       with_SelectedSequencesFolder with_SequenceRendererTargets
       with_OutputImageResolution with_OutputDirectory with_widget
       widget WidgetStateAssetObject journal
       SelectedSequencesFolder SequenceRendererTargets OutputImageResolution
       OutputDirectory SequencesToRender CurrentSequenceIndex BaseOutputDirectory
       SequenceRenderer].

(** X12. The widget state asset is created at most once.  While there is
    none, loading changes nothing at all; the first save creates the package
    and the asset and saves it; from then on a save creates nothing, makes
    the one call that saves the asset, and, the options being the same,
    stores the same asset again. *)
Theorem widget_state_asset_is_created_once (s : Sys O R) :
  exists A out,
    SaveWidgetOptionStates s =
      Some (tt, {| widget := widget s;
                   WidgetStateAssetObject := Some A;
                   journal := journal s ++ out ++ [SaveLoadedAsset A false] |}) /\
    (WidgetStateAssetObject s = None ->
     LoadWidgetOptionStates s = Some (tt, s) /\
     In CreateWidgetStatePackage out) /\
    (WidgetStateAssetObject s <> None -> out = []) /\
    SaveWidgetOptionStates
      {| widget := widget s;
         WidgetStateAssetObject := Some A;
         journal := journal s ++ out ++ [SaveLoadedAsset A false] |} =
      Some (tt, {| widget := widget s;
                   WidgetStateAssetObject := Some A;
                   journal := (journal s ++ out ++ [SaveLoadedAsset A false]) ++
                              [SaveLoadedAsset A false] |}).
Proof.
  open_state s. run_options. destruct obj.
  - eexists. exists []. split; [reflexivity|].
    split; [discriminate|]. split; reflexivity.
  - eexists.
    exists [UE_LOG "%s: Texture mapping asset not found, creating a new one"
              [LogStr "FWidgetManager::SaveWidgetOptionStates"];
            AssetRegistry_AddPluginContentPath; CreateWidgetStatePackage].
    split; [rewrite <- !app_assoc; reflexivity|].
    split; [intros _; split; [reflexivity|simpl; auto]|].
    split; [congruence|reflexivity].
Qed.

Lemma names_loop_is_copy (l acc : list FString) :
  fold_left (fun Names ClassName => Names ++ [ClassName]) l acc = acc ++ l.
Proof.
  revert acc. induction l as [|x l IH]; intros acc; simpl.
  - now rewrite app_nil_r.
  - rewrite IH. now rewrite <- app_assoc.
Qed.

Lemma LoadWidgetOptionStates_returns (s : Sys O R) :
  exists s', LoadWidgetOptionStates s = Some (tt, s').
Proof.
  open_state s. run_options. destruct obj; eexists; reflexivity.
Qed.

(** X13. The semantic class names of the picker are always those of the
    texture style manager, in its order, whatever the picker held before.
    When the tab is spawned the names are refreshed before the tab is built:
    the saved options are loaded first, and a picker that has not been
    assigned yet cannot be refreshed, which is logged as an error; the spawn
    leaves the picker assigned, so that the next update refreshes it. *)
Theorem semantic_class_names_follow_the_manager
    (ClassNames Later : list FString) (p : SemanticsPicker) (s : Sys O R) :
  exists s' Tab p' Calls,
    OnSpawnPluginTab ClassNames p s = Some ((Tab, p', Calls), s') /\
    LoadWidgetOptionStates s = Some (tt, s') /\
    SemanticClassNames p' = ClassNames /\
    Calls =
      (if SemanticClassComboBox_IsValid p
       then [BindEvents; SemanticClassComboBox_RefreshOptions]
       else [BindEvents;
             Panel_UE_LOG "%s: Semantic class picker is invalid, could not refresh"
               [LogStr "FWidgetManager::OnSemanticClassesUpdated"]]) /\
    OnSemanticClassesUpdated Later p' =
      ({| SemanticClassNames := Later; SemanticClassComboBox_IsValid := true |},
       [SemanticClassComboBox_RefreshOptions]).
Proof.
  destruct (LoadWidgetOptionStates_returns s) as [s' Hload].
  exists s'. unfold OnSpawnPluginTab. unfold bind at 1. rewrite Hload.
  unfold OnSemanticClassesUpdated. rewrite !names_loop_is_copy. unfold ret.
  eexists. eexists. eexists. split; [reflexivity|].
  split; [reflexivity|]. split; [reflexivity|].
  split; [destruct (SemanticClassComboBox_IsValid p); reflexivity|].
  reflexivity.
Qed.

End MoreOptionProofs.

(** ** The further properties on the plain instances *)

Import Scenarios.

Lemma PlainHost_answers_fit (p : FName) : Num (GetAssetsByPath p false) <= INT32_MAX.
Proof.
  cbn. destruct (FName_eqb p (MkFName "/Game/Shots")); vm_compute; discriminate.
Qed.

Lemma no_event_makes_the_panel_fail_witness :
  exists s',
    run [RenderImagesButtonClicked; finished true; RenderImagesButtonClicked;
         finished false; finished true] sys0 = Some (tt, s') /\
    exists r', SequenceRenderer (widget s') = Some r'.
Proof.
  pose proof (no_event_makes_the_panel_fail
                [RenderImagesButtonClicked; finished true; RenderImagesButtonClicked;
                 finished false; finished true] sys0 renderer0) as H.
  exact (H eq_refl).
Defined.

Lemma every_broadcast_is_answered_witness :
  exists s' out,
    handle (finished true) (sys_in_batch 0 1920) = Some (tt, s') /\
    journal s' = journal (sys_in_batch 0 1920) ++ out /\
    ((filter is_dialog out = [] /\
      true = true /\
      (exists a, RenderedSequences out = [a]) /\
      SequencesToRender (widget s') = SequencesToRender (widget (sys_in_batch 0 1920)) /\
      CurrentSequenceIndex (widget s') =
        CurrentSequenceIndex (widget (sys_in_batch 0 1920)) + 1) \/
     ((exists d, filter is_dialog out = [d]) /\
      ~ (0 <= CurrentSequenceIndex (widget s') < Num (SequencesToRender (widget s'))))).
Proof.
  pose proof (every_broadcast_is_answered (sys_in_batch 0 1920)
                {| bRendering := true; ErrorMessage := EmptyString |} renderer0 true) as H.
  apply H.
  - reflexivity.
  - vm_compute. discriminate.
Defined.

Lemma batch_state_stays_well_formed_witness :
  exists s',
    run [RenderImagesButtonClicked; finished true; finished true] sys0 = Some (tt, s') /\
    BatchWellFormed (widget s').
Proof.
  pose proof (batch_state_stays_well_formed targets0 "D:/Out" renderer0
                [RenderImagesButtonClicked; finished true; finished true]
                sys0 renderer0) as H.
  apply H.
  - exact PlainHost_answers_fit.
  - reflexivity.
  - split; [vm_compute; discriminate|]. left. split; reflexivity.
Defined.

Lemma click_saves_options_only_when_sequences_are_found_witness :
  exists s' out,
    OnRenderImagesClicked sys_outside = Some (Handled, s') /\
    journal s' = journal sys_outside ++ out /\
    out = [FMessageDialog_Open
             (LOCTEXT "InvalidFolderMessage"
                "Selected folder is not a valid content folder.")
             (LOCTEXT "InvalidFolderTitle" "Invalid Folder")] /\
    WidgetStateAssetObject s' = WidgetStateAssetObject sys_outside.
Proof.
  pose proof (click_saves_options_only_when_sequences_are_found sys_outside renderer0) as H.
  exact (H eq_refl).
Defined.

Lemma accepted_batch_renders_every_sequence_witness :
  exists s' (out : list (Effect PlainTargets)),
    run [RenderImagesButtonClicked; finished true; finished true; finished true] sys0 =
      Some (tt, s') /\
    RenderedSequences out = [Intro; Chase; Outro] /\
    List.length (filter is_ForceGarbageCollection out) = 2%nat /\
    CurrentSequenceIndex (widget s') = -1.
Proof.
  pose proof (accepted_batch_renders_every_sequence sys0 "/Game/Shots"
                [Intro; Chase; Outro] [finished true; finished true; finished true]) as H.
  specialize (H eq_refl eq_refl eq_refl ltac:(discriminate)
                ltac:(vm_compute; discriminate)).
  specialize (H ltac:(intros a dir r; reflexivity) eq_refl eq_refl).
  destruct H as (s' & out & Hrun & _ & Hseq & Hgc & _ & _ & Hidx).
  exists s', out. auto.
Defined.

Lemma offered_output_formats_are_accepted_witness :
  exists s',
    OnOutputFormatSelectionChanged (Some "png") DEPTH_IMAGE sys0 = Some (tt, s') /\
    SelectedOutputFormat (fun _ => 0) DEPTH_IMAGE s' = Some (FText_FromString "png", s').
Proof.
  pose proof (offered_output_formats_are_accepted "png" (fun _ => 0) DEPTH_IMAGE sys0) as H.
  specialize (H ltac:(simpl; auto)).
  destruct H as (s' & Hrun & _ & _ & Hshow & _).
  exists s'. auto.
Defined.

Lemma output_resolution_is_kept_even_witness :
  exists s',
    OutputWidth_OnValueChanged 1281 sys0 = Some (tt, s') /\
    Z.even (X (OutputImageResolution (widget s'))) = true /\
    1281 - 1 <= X (OutputImageResolution (widget s')) <= 1281.
Proof.
  pose proof (output_resolution_is_kept_even 1281 sys0) as H.
  destruct H as [Hwidth _].
  specialize (Hwidth ltac:(vm_compute; split; discriminate)).
  destruct Hwidth as (s' & Hrun & Heven & Hnear & _).
  exists s'. auto.
Defined.

Lemma button_is_disabled_after_loading_witness :
  exists s',
    LoadWidgetOptionStates sys_saved = Some (tt, s') /\
    GetIsRenderImagesEnabled (widget s') = false /\
    handle RenderImagesButtonClicked s' = Some (tt, s').
Proof.
  pose proof (button_is_disabled_after_loading sys_saved asset0 "C:/Project/Content/Shots")
    as H.
  specialize (H eq_refl).
  destruct H as (s' & Hload & Hoff & Hclick & _).
  exists s'. auto.
Defined.

Lemma check_boxes_show_what_was_clicked_witness :
  (exists s',
     OnRenderTargetsChanged Checked NORMAL_IMAGE sys0 = Some (tt, s') /\
     RenderTargetsCheckedState NORMAL_IMAGE (widget s') = Checked /\
     RenderTargetsCheckedState DEPTH_IMAGE (widget s') =
       RenderTargetsCheckedState DEPTH_IMAGE (widget sys0)) /\
  (exists s',
     CameraPoses_OnCheckStateChanged Checked sys0 = Some (tt, s') /\
     CameraPoses_IsChecked (widget s') = Checked /\
     forall t',
       RenderTargetsCheckedState t' (widget s') =
       RenderTargetsCheckedState t' (widget sys0)).
Proof.
  pose proof (check_boxes_show_what_was_clicked Checked NORMAL_IMAGE sys0) as H.
  destruct H as [(s1 & Hrun1 & Hshown1 & Hothers1 & _) (s2 & Hrun2 & Hshown2 & Hkept2)].
  split.
  - exists s1. split; [exact Hrun1|]. split; [exact Hshown1|].
    apply Hothers1. discriminate.
  - exists s2. split; [exact Hrun2|]. split; [exact Hshown2|].
    apply Hkept2. intros t' b o. reflexivity.
Defined.

Lemma offered_texture_styles_are_checked_out_witness :
  OnTextureStyleComboBoxSelectionChanged (Some "Semantic color textures") =
    [Panel_UE_LOG "%s: Texture style selected: %s"
       [LogStr "FWidgetManager::OnTextureStyleComboBoxSelectionChanged";
        LogStr "Semantic color textures"];
     CheckoutTextureStyle SEMANTIC].
Proof.
  pose proof (offered_texture_styles_are_checked_out "Semantic color textures") as H.
  specialize (H ltac:(simpl; auto)).
  destruct H as (Style & Hcalls & _ & Hsem).
  refine (eq_trans Hcalls _). f_equal. f_equal. f_equal. apply Hsem. reflexivity.
Defined.

Lemma widget_state_asset_is_created_once_witness :
  LoadWidgetOptionStates sys0 = Some (tt, sys0).
Proof.
  pose proof (widget_state_asset_is_created_once sys0) as H.
  destruct H as (A & out & _ & Hfirst & _).
  apply Hfirst. reflexivity.
Defined.

(** A stored format that the combo boxes do not offer is shown as an empty
    text. *)
Example unknown_format_is_shown_empty :
  match SelectedOutputFormat (fun _ => 0) COLOR_IMAGE sys_bmp with
  | Some (Text, s) => Text = FText_GetEmpty /\ List.length (journal s) = 1%nat
  | None => False
  end.
Proof. vm_compute. split; reflexivity. Qed.

(** Names of output formats are compared without regard to case, and an
    item that is not valid makes the handler fail. *)
Example format_names_ignore_case :
  OutputFormatOfName "JPEG" = Some JPEG /\
  OutputFormatOfName "tiff" = None /\
  OnOutputFormatSelectionChanged None COLOR_IMAGE sys0 = None.
Proof. repeat split. Qed.

(** The first spawn of the tab logs that the picker cannot be refreshed. *)
Example first_spawn_logs_the_picker_error :
  match OnSpawnPluginTab ["Road"; "Car"] picker0 sys0 with
  | Some ((_, p, Calls), _) =>
      SemanticClassNames p = ["Road"; "Car"] /\
      Calls = [BindEvents;
               Panel_UE_LOG "%s: Semantic class picker is invalid, could not refresh"
                 [LogStr "FWidgetManager::OnSemanticClassesUpdated"]]
  | None => False
  end.
Proof. vm_compute. split; reflexivity. Qed.
